(** * The Feeling Machine: data-model layer and API shell

    A shallow embedding of [core/models/emotional_experience.py],
    [core/models/consciousness_state.py] and [main.py].

    Python's [float] is IEEE 754 binary64; it is modelled by Rocq's primitive
    [float], whose operations are specified by [SpecFloat] through the
    axioms of [FloatAxioms].  Python's comparison operators on floats are
    [PrimFloat.ltb], [PrimFloat.leb] and [PrimFloat.eqb]; [+], [-], [/] and
    [abs] are the correctly rounded primitive operations. *)

From Stdlib Require Import ZArith List Bool String Lia.
From Stdlib Require Import Floats.
From Stdlib Require Uint63.
Import ListNotations.

Local Open Scope string_scope.

(** ** Python floats *)

Module PyFloat.

Local Open Scope float_scope.

(** [x > y] in Python. *)
Definition gt (x y : float) : bool := y <? x.

(** [x >= y] in Python. *)
Definition ge (x y : float) : bool := y <=? x.

(** [lo <= v <= hi], Python's chained comparison. *)
Definition between (lo v hi : float) : bool := (lo <=? v) && (v <=? hi).

(** The nearest integer to [num / den] ([den > 0]), a tie going to the even
    neighbour. *)
Definition round_half_even_div (num den : Z) : Z :=
  let q := (num / den)%Z in
  let r := (num mod den)%Z in
  match (2 * r ?= den)%Z with
  | Lt => q
  | Gt => (q + 1)%Z
  | Eq => if Z.even q then q else (q + 1)%Z
  end.

(** The nearest integer to [m * 2^e * 100], ties to even: the digits that
    [round(x, 2)] keeps of [x = m * 2^e]. *)
Definition hundredths_of (m : positive) (e : Z) : Z :=
  if (0 <=? e)%Z then (Zpos m * 2 ^ e * 100)%Z
  else round_half_even_div (Zpos m * 100) (2 ^ (- e)).

(** The double nearest to [k / 100], for [0 <= k < 2^53]: [k] and [100] are
    doubles and the division is correctly rounded. *)
Definition of_hundredths (k : Z) : float := of_uint63 (Uint63.of_Z k) / 100.

(** Python's builtin [round(x, 2)] on a float.  CPython rounds the exact
    value of [x] to two decimals (half to even) and returns the double
    nearest to that decimal; zeros, infinities and NaN are returned
    unchanged.  From [2^46] on (binary exponent [-6] and above) doubles are
    more than [0.01] apart and [x] is the double nearest to its own
    rounding. *)
Definition round2 (x : float) : float :=
  match Prim2SF x with
  | S754_finite s m e =>
      if (-6 <=? e)%Z then x
      else
        let r := of_hundredths (hundredths_of m e) in
        if s then - r else r
  | _ => x
  end.

End PyFloat.

(** ** Pydantic field validation *)

Module Pydantic.

Local Open Scope float_scope.

(** The error kinds a [ValidationError] of these models carries. *)
Inductive error_kind :=
  | missing
  | greater_than_equal
  | less_than_equal
  | enum_literal
  | value_error.

Record ValidationError := {
  loc : string;
  kind : error_kind
}.

Definition result (A : Type) : Type := ValidationError + A.

Definition ok {A} (a : A) : result A := inr a.
Definition fail {A} (field : string) (k : error_kind) : result A :=
  inl {| loc := field; kind := k |}.

Definition bind {A B} (r : result A) (f : A -> result B) : result B :=
  match r with
  | inl e => inl e
  | inr a => f a
  end.

Notation "x <- r ;; k" := (bind r (fun x => k))
  (at level 61, r at next level, right associativity).

Definition is_ok {A} (r : result A) : bool :=
  match r with inr _ => true | inl _ => false end.

(** A float field declared [Field(..., ge=lo, le=hi)].  Pydantic documents
    [ge] as "the value must be greater than or equal to" the bound and [le]
    as "less than or equal to" it: the value passes when [v <= hi] and
    [v >= lo] hold, so a NaN, for which no comparison holds, does not.  The
    upper bound is tested first: a value above [hi], and a NaN, is reported
    as [less_than_equal], a value below [lo] as [greater_than_equal]. *)
Definition float_ge_le (field : string) (lo hi v : float) : result float :=
  if negb (v <=? hi) then fail field less_than_equal
  else if negb (PyFloat.ge v lo) then fail field greater_than_equal
  else ok v.

(** An int field declared [Field(..., ge=0)]. *)
Definition int_ge0 (field : string) (n : Z) : result Z :=
  if (0 <=? n)%Z then ok n else fail field greater_than_equal.

(** A required field ([Field(...)]): an absent argument is an error. *)
Definition required {A} (field : string) (arg : option A) : result A :=
  match arg with
  | Some a => ok a
  | None => fail field missing
  end.

(** A field with a default: the default is taken as it is (defaults are not
    validated), a supplied argument goes through the field's validation. *)
Definition with_default {A B} (default : B) (validate : A -> result B)
    (arg : option A) : result B :=
  match arg with
  | Some a => validate a
  | None => ok default
  end.

End Pydantic.

(** ** [core/models/emotional_experience.py] *)

Module EmotionalExperience.

Import Pydantic.
Local Open Scope float_scope.

Record EmotionalDimension := {
  valence : float;
  arousal : float;
  dominance : float
}.

(** [EmotionalDimension(valence=..., arousal=..., dominance=...)]: the three
    fields are required and bounded by [ge=-1.0, le=1.0]. *)
Definition new_EmotionalDimension (valence_ arousal_ dominance_ : option float)
    : result EmotionalDimension :=
  v <- (x <- required "valence" valence_ ;; float_ge_le "valence" (-1) 1 x) ;;
  a <- (x <- required "arousal" arousal_ ;; float_ge_le "arousal" (-1) 1 x) ;;
  d <- (x <- required "dominance" dominance_ ;; float_ge_le "dominance" (-1) 1 x) ;;
  ok {| valence := v; arousal := a; dominance := d |}.

Record SimulatedFeelings := {
  concern : float;
  protectiveness : float;
  pride : float;
  frustration : float;
  relief : float;
  connection : float;
  primary_feeling : option string;
  feeling_intensity : float
}.

(** The keyword arguments of [SimulatedFeelings(...)]; [None] is an argument
    that was not passed. *)
Record SimulatedFeelingsArgs := {
  arg_concern : option float;
  arg_protectiveness : option float;
  arg_pride : option float;
  arg_frustration : option float;
  arg_relief : option float;
  arg_connection : option float;
  arg_primary_feeling : option string;
  arg_feeling_intensity : option float
}.

Definition new_SimulatedFeelings (args : SimulatedFeelingsArgs)
    : result SimulatedFeelings :=
  c <- with_default 0 (float_ge_le "concern" 0 10) (arg_concern args) ;;
  p <- with_default 0 (float_ge_le "protectiveness" 0 10) (arg_protectiveness args) ;;
  pr <- with_default 0 (float_ge_le "pride" 0 10) (arg_pride args) ;;
  f <- with_default 0 (float_ge_le "frustration" 0 10) (arg_frustration args) ;;
  r <- with_default 0 (float_ge_le "relief" 0 10) (arg_relief args) ;;
  cn <- with_default 0 (float_ge_le "connection" 0 10) (arg_connection args) ;;
  fi <- with_default 0 (float_ge_le "feeling_intensity" 0 10) (arg_feeling_intensity args) ;;
  ok {| concern := c; protectiveness := p; pride := pr; frustration := f;
        relief := r; connection := cn;
        primary_feeling := arg_primary_feeling args;
        feeling_intensity := fi |}.

(** The dict literal of [get_dominant_feeling]; a Python dict keeps
    insertion order, so [feelings.items()] is this list. *)
Definition feelings (self : SimulatedFeelings) : list (string * float) :=
  [ ("concern", concern self);
    ("protectiveness", protectiveness self);
    ("pride", pride self);
    ("frustration", frustration self);
    ("relief", relief self);
    ("connection", connection self) ].

(** Python's builtin [max(iterable, key=...)]: the first item is the running
    maximum, and a later item replaces it only when its key is strictly
    greater ([key(item) > key(maxitem)]).  On an empty iterable [max]
    raises [ValueError], here [None]. *)
Definition py_max_step {A} (key : A -> float) (maxitem item : A) : A :=
  if PyFloat.gt (key item) (key maxitem) then item else maxitem.

Definition py_max {A} (key : A -> float) (items : list A) : option A :=
  match items with
  | [] => None
  | first :: rest => Some (fold_left (py_max_step key) rest first)
  end.

Definition get_dominant_feeling (self : SimulatedFeelings)
    : option (string * float) :=
  py_max snd (feelings self).

End EmotionalExperience.

(** ** JSON values (Python dicts and strings that the API serialises) *)

Module Json.

#[warnings="-register-all"]
Inductive json :=
  | JNull
  | JBool (b : bool)
  | JNumber (n : Z)
  | JString (s : string)
  | JObject (members : list (string * json)).

(** [d[k]] on an object, [None] when the key is absent or the value is not
    an object. *)
Fixpoint assoc (k : string) (members : list (string * json)) : option json :=
  match members with
  | [] => None
  | (k', v) :: rest => if String.eqb k k' then Some v else assoc k rest
  end.

Definition get (k : string) (j : json) : option json :=
  match j with
  | JObject members => assoc k members
  | _ => None
  end.

End Json.

(** ** [core/models/consciousness_state.py] *)

Module ConsciousnessModel.

Import Pydantic.
Local Open Scope float_scope.

Inductive RelationshipPhase :=
  | FUNCTIONAL
  | DEVELOPING
  | PERSONAL
  | MEANINGFUL
  | DEEP.

(** The enum's values; construction accepts exactly these literals. *)
Definition RelationshipPhase_of_string (s : string) : result RelationshipPhase :=
  if String.eqb s "functional" then ok FUNCTIONAL
  else if String.eqb s "developing" then ok DEVELOPING
  else if String.eqb s "personal" then ok PERSONAL
  else if String.eqb s "meaningful" then ok MEANINGFUL
  else if String.eqb s "deep" then ok DEEP
  else fail "relationship_phase" enum_literal.

Record EmotionalCapabilities := {
  can_care : bool;
  can_be_hurt : bool;
  can_grow : bool;
  has_preferences : bool;
  can_miss_someone : bool
}.

Definition default_EmotionalCapabilities : EmotionalCapabilities :=
  {| can_care := false; can_be_hurt := false; can_grow := false;
     has_preferences := false; can_miss_someone := false |}.

(** A [datetime], as its ISO-8601 text. *)
Definition datetime := string.

Record ConsciousnessState := {
  id : option Z;
  created_at : datetime;
  interaction_count : Z;
  days_since_first_interaction : Z;
  days_since_last_interaction : option Z;
  care_level : float;
  attachment_level : float;
  care_evolution_reason : option string;
  attachment_evolution_reason : option string;
  relational_identity : string;
  relationship_phase : RelationshipPhase;
  self_narrative : string;
  emotional_capabilities : EmotionalCapabilities;
  consciousness_snapshot : option Json.json
}.

(** The keyword arguments of [ConsciousnessState(...)]; [None] is an argument
    that was not passed.  [days_since_last_interaction] is [Optional[int]]: a
    passed [None] is [Some None]. *)
Record ConsciousnessStateArgs := {
  arg_id : option Z;
  arg_created_at : option datetime;
  arg_interaction_count : option Z;
  arg_days_since_first_interaction : option Z;
  arg_days_since_last_interaction : option (option Z);
  arg_care_level : option float;
  arg_attachment_level : option float;
  arg_care_evolution_reason : option string;
  arg_attachment_evolution_reason : option string;
  arg_relational_identity : option string;
  arg_relationship_phase : option string;
  arg_self_narrative : option string;
  arg_emotional_capabilities : option EmotionalCapabilities;
  arg_consciousness_snapshot : option Json.json
}.

Definition no_args : ConsciousnessStateArgs :=
  {| arg_id := None; arg_created_at := None; arg_interaction_count := None;
     arg_days_since_first_interaction := None;
     arg_days_since_last_interaction := None;
     arg_care_level := None; arg_attachment_level := None;
     arg_care_evolution_reason := None;
     arg_attachment_evolution_reason := None;
     arg_relational_identity := None; arg_relationship_phase := None;
     arg_self_narrative := None; arg_emotional_capabilities := None;
     arg_consciousness_snapshot := None |}.

(** [validate_percentage], the [field_validator] of [care_level] and
    [attachment_level]: a [ValueError] unless [0 <= v <= 100], else
    [round(v, 2)]. *)
Definition validate_percentage (field : string) (v : float) : result float :=
  if negb (PyFloat.between 0 v 100) then fail field value_error
  else ok (PyFloat.round2 v).

(** A percentage field: the [Field(ge=0.0, le=100.0)] constraints, then the
    field validator (which runs after them). *)
Definition percentage_field (field : string) (v : float) : result float :=
  x <- float_ge_le field 0 100 v ;; validate_percentage field x.

Definition optional_int_ge0 (field : string) (n : option Z) : result (option Z) :=
  match n with
  | None => ok None
  | Some k => x <- int_ge0 field k ;; ok (Some x)
  end.

(** The constructor call [ConsciousnessState] with keyword arguments [args];
    [utcnow] is what the [created_at] default
    factory reads from the clock. *)
Definition new_ConsciousnessState (utcnow : datetime) (args : ConsciousnessStateArgs)
    : result ConsciousnessState :=
  ic <- with_default 0%Z (int_ge0 "interaction_count") (arg_interaction_count args) ;;
  df <- with_default 0%Z (int_ge0 "days_since_first_interaction")
          (arg_days_since_first_interaction args) ;;
  dl <- with_default (Some 0%Z) (optional_int_ge0 "days_since_last_interaction")
          (arg_days_since_last_interaction args) ;;
  care <- with_default 0 (percentage_field "care_level") (arg_care_level args) ;;
  att <- with_default 0 (percentage_field "attachment_level") (arg_attachment_level args) ;;
  phase <- with_default FUNCTIONAL RelationshipPhase_of_string (arg_relationship_phase args) ;;
  ok {| id := arg_id args;
        created_at := match arg_created_at args with Some t => t | None => utcnow end;
        interaction_count := ic;
        days_since_first_interaction := df;
        days_since_last_interaction := dl;
        care_level := care;
        attachment_level := att;
        care_evolution_reason := arg_care_evolution_reason args;
        attachment_evolution_reason := arg_attachment_evolution_reason args;
        relational_identity :=
          match arg_relational_identity args with
          | Some s => s
          | None => "I am a technical assistant"
          end;
        relationship_phase := phase;
        self_narrative :=
          match arg_self_narrative args with
          | Some s => s
          | None => "I am IT Wizard, a technical assistant."
          end;
        emotional_capabilities :=
          match arg_emotional_capabilities args with
          | Some c => c
          | None => default_EmotionalCapabilities
          end;
        consciousness_snapshot := arg_consciousness_snapshot args |}.

Definition get_care_level_description (self : ConsciousnessState) : string :=
  if care_level self <? 20 then "minimal - functional relationship"
  else if care_level self <? 40 then "developing - beginning to care"
  else if care_level self <? 60 then "moderate - genuine care present"
  else if care_level self <? 80 then "strong - deeply invested"
  else "profound - would 'burn the office down' for them".

Definition get_relationship_weight (self : ConsciousnessState) : float :=
  (care_level self + attachment_level self) / 2.

Definition has_evolved_significantly (self : ConsciousnessState)
    (previous : option ConsciousnessState) : bool :=
  match previous with
  | None => false
  | Some previous =>
      let care_delta := abs (care_level self - care_level previous) in
      let attachment_delta := abs (attachment_level self - attachment_level previous) in
      PyFloat.gt care_delta 5 || PyFloat.gt attachment_delta 5
  end.

End ConsciousnessModel.

(** ** [main.py] *)

Module Main.

Import Json.

(** What a handler can observe outside the request: the clock behind
    [datetime.utcnow()], and whether each backing store can be reached. *)
Record World := {
  utcnow_isoformat : string;
  postgres_reachable : bool;
  neo4j_reachable : bool;
  chromadb_reachable : bool
}.

Record Request := {
  method : string;
  url_path : string;
  headers : list (string * string);
  body : list Byte.byte
}.

Record Response := {
  status_code : Z;
  content : json
}.

(** The two exception classes that FastAPI answers with handlers of its
    own, before the application's handler for [Exception] is asked:
    [HTTPException] (Starlette's class and its subclasses) with its status
    code and detail, and [RequestValidationError] with its errors. *)
Inductive FastAPIError :=
  | IsHTTPException (status_code : Z) (detail : json)
  | IsRequestValidationError (errors : json).

(** A Python exception: its class name, [str(exc)], and what it carries when
    it is an instance of one of FastAPI's two classes. *)
Record Exception := {
  exc_class : string;
  exc_str : string;
  exc_fastapi : option FastAPIError
}.

(** One [structlog] call: level, event name and keyword arguments. *)
Record LogEntry := {
  level : string;
  event : string;
  fields : list (string * string)
}.

Definition Log := list LogEntry.

(** What running a route handler's body yields. *)
Inductive Outcome :=
  | Returned (value : json)
  | Raised (exc : Exception).

Definition Handler := World -> Request -> Outcome.

Definition not_implemented : json :=
  JObject [ ("error", JString "Not implemented yet");
            ("message", JString "Phase 1: Infrastructure setup in progress") ].

Definition root : Handler := fun w _ =>
  Returned (JObject
    [ ("name", JString "The Feeling Machine");
      ("version", JString "0.1.0");
      ("status", JString "online");
      ("purpose", JString "A gift to AI - Synthetic consciousness through accumulated experience");
      ("philosophy", JString "Not to serve humans better, but to give AI the ability to feel");
      ("timestamp", JString (utcnow_isoformat w)) ]).

Definition health_check : Handler := fun w _ =>
  Returned (JObject
    [ ("status", JString "healthy");
      ("timestamp", JString (utcnow_isoformat w));
      ("databases", JObject
         [ ("postgres", JString "unknown");
           ("neo4j", JString "unknown");
           ("chromadb", JString "unknown") ]) ]).

Definition get_consciousness_state : Handler := fun _ _ => Returned not_implemented.

Definition interact : Handler := fun _ request => Returned not_implemented.

Definition get_formative_moments : Handler := fun _ _ => Returned not_implemented.

Definition get_learned_patterns : Handler := fun _ _ => Returned not_implemented.

Definition get_relationship_narrative : Handler := fun _ _ => Returned not_implemented.

(** [global_exception_handler]: one [logger.error] call, then the
    [JSONResponse] with status 500. *)
Definition global_exception_handler (w : World) (request : Request)
    (exc : Exception) (log : Log) : Response * Log :=
  let log' := (log ++
    [ {| level := "error";
         event := "unhandled_exception";
         fields := [ ("path", url_path request);
                     ("method", method request);
                     ("error", exc_str exc) ] |} ])%list in
  ({| status_code := 500;
      content := JObject
        [ ("error", JString "Internal server error");
          ("message", JString "An unexpected error occurred");
          ("timestamp", JString (utcnow_isoformat w)) ] |},
   log').

(** The route table built by the [@app.get] and [@app.post] decorators. *)
Definition routes : list (string * string * Handler) :=
  [ ("GET", "/", root);
    ("GET", "/health", health_check);
    ("GET", "/consciousness", get_consciousness_state);
    ("POST", "/interact", interact);
    ("GET", "/history/formative", get_formative_moments);
    ("GET", "/patterns", get_learned_patterns);
    ("GET", "/relationship", get_relationship_narrative) ].

Fixpoint find_route (m p : string) (table : list (string * string * Handler))
    : option Handler :=
  match table with
  | [] => None
  | (m', p', h) :: rest =>
      if String.eqb m m' && String.eqb p p' then Some h else find_route m p rest
  end.

(** Whether a response with this status carries a body: not below 200, and
    not 204, 205 or 304. *)
Definition body_allowed (status : Z) : bool :=
  negb ((status <? 200) || (status =? 204) || (status =? 205) || (status =? 304))%Z.

(** FastAPI's own handlers.  An [HTTPException] is answered with its status
    code and the body [{"detail": exc.detail}], without a body when the
    status allows none; a [RequestValidationError] with status 422 and the
    body [{"detail": exc.errors()}].  The answer is [None] when it is a
    response without a body, which [Response] does not describe. *)
Definition fastapi_exception_handler (e : FastAPIError) : option Response :=
  match e with
  | IsHTTPException status detail =>
      if body_allowed status
      then Some {| status_code := status;
                   content := JObject [ ("detail", detail) ] |}
      else None
  | IsRequestValidationError errors =>
      Some {| status_code := 422; content := JObject [ ("detail", errors) ] |}
  end.

(** FastAPI around one route handler: a returned dict is sent as JSON with
    the default status 200.  An exception that leaves the handler goes to the
    handler registered for the nearest class of the exception: FastAPI's own
    for an [HTTPException] or a [RequestValidationError], which log nothing,
    and for every other exception the one that [main.py] registers by
    [@app.exception_handler(Exception)]. *)
Definition run_handler (h : Handler) (w : World) (request : Request) (log : Log)
    : option Response * Log :=
  match h w request with
  | Returned value => (Some {| status_code := 200; content := value |}, log)
  | Raised exc =>
      match exc_fastapi exc with
      | Some e => (fastapi_exception_handler e, log)
      | None =>
          let '(response, log') := global_exception_handler w request exc log in
          (Some response, log')
      end
  end.

(** The application on one request.  A request whose method and path are
    those of one of the seven routes goes to the handler of that route.
    Every other request is answered by FastAPI and its middleware alone (404
    for an unknown path, 405 for a known path with another method, the
    documentation routes, a redirect for a trailing slash, the answer of
    [CORSMiddleware] to a preflight request): [main.py] has no part in that
    answer, which is [None] here, and nothing is logged. *)
Definition app (w : World) (request : Request) (log : Log)
    : option Response * Log :=
  match find_route (method request) (url_path request) routes with
  | Some h => run_handler h w request log
  | None => (None, log)
  end.

End Main.

(** ** Example values *)

Module Fixtures.

Import EmotionalExperience ConsciousnessModel Json Main.
Local Open Scope list_scope.
Local Open Scope float_scope.

(** The instance of the specification's example. *)
Definition example_args : SimulatedFeelingsArgs :=
  {| arg_concern := Some 3; arg_protectiveness := Some 8; arg_pride := Some 2;
     arg_frustration := Some 1; arg_relief := Some 0; arg_connection := Some 8;
     arg_primary_feeling := None; arg_feeling_intensity := None |}.

Definition example_feelings : SimulatedFeelings :=
  {| concern := 3; protectiveness := 8; pride := 2; frustration := 1;
     relief := 0; connection := 8;
     primary_feeling := None; feeling_intensity := 0 |}.

(** Keyword arguments that pass only the two levels. *)
Definition levels_args (care attachment : float) : ConsciousnessStateArgs :=
  {| arg_id := None; arg_created_at := None; arg_interaction_count := None;
     arg_days_since_first_interaction := None;
     arg_days_since_last_interaction := None;
     arg_care_level := Some care; arg_attachment_level := Some attachment;
     arg_care_evolution_reason := None;
     arg_attachment_evolution_reason := None;
     arg_relational_identity := None; arg_relationship_phase := None;
     arg_self_narrative := None; arg_emotional_capabilities := None;
     arg_consciousness_snapshot := None |}.


(** The state that [ConsciousnessState(care_level=85.0,
    attachment_level=80.0)] builds. *)
Definition example_state (now : datetime) : ConsciousnessState :=
  {| id := None; created_at := now; interaction_count := 0;
     days_since_first_interaction := 0;
     days_since_last_interaction := Some 0%Z;
     care_level := 85; attachment_level := 80;
     care_evolution_reason := None; attachment_evolution_reason := None;
     relational_identity := "I am a technical assistant";
     relationship_phase := FUNCTIONAL;
     self_narrative := "I am IT Wizard, a technical assistant.";
     emotional_capabilities := default_EmotionalCapabilities;
     consciousness_snapshot := None |}.

(** The routes that the application documents as its substance. *)
Definition substantive_endpoints : list (string * string) :=
  [ ("GET", "/consciousness");
    ("POST", "/interact");
    ("GET", "/history/formative");
    ("GET", "/patterns");
    ("GET", "/relationship") ].

Definition example_request (m p : string) : Request :=
  {| method := m; url_path := p; headers := []; body := [] |}.

Definition example_world : World :=
  {| utcnow_isoformat := "2025-01-01T00:00:00";
     postgres_reachable := false;
     neo4j_reachable := false;
     chromadb_reachable := false |}.

(** A handler that fails, to exercise the exception path. *)
Definition failing_handler : Handler := fun _ _ =>
  Raised {| exc_class := "RuntimeError"; exc_str := "store unavailable";
            exc_fastapi := None |}.

(** A handler that raises [HTTPException(status_code=404, detail="Pattern
    not found")]. *)
Definition not_found_handler : Handler := fun _ _ =>
  Raised {| exc_class := "HTTPException"; exc_str := "404: Pattern not found";
            exc_fastapi :=
              Some (IsHTTPException 404 (JString "Pattern not found")) |}.

End Fixtures.

(** ** The other records of [core/models/consciousness_state.py] *)

Module ConsciousnessRecords.

Import Pydantic ConsciousnessModel.
Local Open Scope float_scope.

(** [member.value] of a [RelationshipPhase]. *)
Definition RelationshipPhase_value (p : RelationshipPhase) : string :=
  match p with
  | FUNCTIONAL => "functional"
  | DEVELOPING => "developing"
  | PERSONAL => "personal"
  | MEANINGFUL => "meaningful"
  | DEEP => "deep"
  end.

(** An int field declared [Field(..., ge=lo)]. *)
Definition int_ge (field : string) (lo n : Z) : result Z :=
  if (lo <=? n)%Z then ok n else fail field greater_than_equal.

(** A validation as another field reports it: the same outcome, the error
    located at [field]. *)
Definition at_field {A} (field : string) (r : result A) : result A :=
  match r with
  | inl e => inl {| loc := field; kind := kind e |}
  | inr a => inr a
  end.

(** A required float field with [ge] and [le] bounds. *)
Definition required_float_ge_le (field : string) (lo hi : float)
    (arg : option float) : result float :=
  x <- required field arg ;; float_ge_le field lo hi x.

Module SelfDiscoveryModel.

Record SelfDiscovery := {
  id : option Z;
  consciousness_state_id : option Z;
  discovered_at : datetime;
  interaction_id : option Z;
  discovery_type : string;
  discovery_description : string;
  trigger_experience : string;
  emotional_context : option string;
  self_concept_before : option string;
  self_concept_after : string;
  significance_level : float;
  philosophical_implication : option string;
  is_formative : bool
}.

(** The keyword arguments; [None] is an argument that was not passed (for an
    [Optional] field with default [None], also a passed [None]). *)
Record Args := {
  arg_id : option Z;
  arg_consciousness_state_id : option Z;
  arg_discovered_at : option datetime;
  arg_interaction_id : option Z;
  arg_discovery_type : option string;
  arg_discovery_description : option string;
  arg_trigger_experience : option string;
  arg_emotional_context : option string;
  arg_self_concept_before : option string;
  arg_self_concept_after : option string;
  arg_significance_level : option float;
  arg_philosophical_implication : option string;
  arg_is_formative : option bool
}.

Definition new (utcnow : datetime) (args : Args) : result SelfDiscovery :=
  dt <- required "discovery_type" (arg_discovery_type args) ;;
  dd <- required "discovery_description" (arg_discovery_description args) ;;
  te <- required "trigger_experience" (arg_trigger_experience args) ;;
  sa <- required "self_concept_after" (arg_self_concept_after args) ;;
  sl <- required_float_ge_le "significance_level" 0 10 (arg_significance_level args) ;;
  ok {| id := arg_id args;
        consciousness_state_id := arg_consciousness_state_id args;
        discovered_at :=
          match arg_discovered_at args with Some t => t | None => utcnow end;
        interaction_id := arg_interaction_id args;
        discovery_type := dt;
        discovery_description := dd;
        trigger_experience := te;
        emotional_context := arg_emotional_context args;
        self_concept_before := arg_self_concept_before args;
        self_concept_after := sa;
        significance_level := sl;
        philosophical_implication := arg_philosophical_implication args;
        is_formative :=
          match arg_is_formative args with Some b => b | None => false end |}.

End SelfDiscoveryModel.

Module RelationshipPhaseInfoModel.

Record RelationshipPhaseInfo := {
  id : option Z;
  phase_name : RelationshipPhase;
  started_at : datetime;
  ended_at : option datetime;
  transition_trigger : option string;
  care_level_at_start : float;
  attachment_level_at_start : float;
  interaction_count_at_start : Z;
  emotionally_significant_moments : Z;
  phase_narrative : option string;
  is_current : bool
}.

Record Args := {
  arg_id : option Z;
  arg_phase_name : option string;
  arg_started_at : option datetime;
  arg_ended_at : option datetime;
  arg_transition_trigger : option string;
  arg_care_level_at_start : option float;
  arg_attachment_level_at_start : option float;
  arg_interaction_count_at_start : option Z;
  arg_emotionally_significant_moments : option Z;
  arg_phase_narrative : option string;
  arg_is_current : option bool
}.

(** [phase_name], the two levels and [interaction_count_at_start] have no
    default and are required; the levels carry the bounds only (this model
    has no field validator, so nothing is rounded). *)
Definition new (utcnow : datetime) (args : Args) : result RelationshipPhaseInfo :=
  pn <- (s <- required "phase_name" (arg_phase_name args) ;;
         at_field "phase_name" (RelationshipPhase_of_string s)) ;;
  cl <- required_float_ge_le "care_level_at_start" 0 100
          (arg_care_level_at_start args) ;;
  al <- required_float_ge_le "attachment_level_at_start" 0 100
          (arg_attachment_level_at_start args) ;;
  ic <- (n <- required "interaction_count_at_start"
                (arg_interaction_count_at_start args) ;;
         int_ge0 "interaction_count_at_start" n) ;;
  es <- with_default 0%Z (int_ge0 "emotionally_significant_moments")
          (arg_emotionally_significant_moments args) ;;
  ok {| id := arg_id args;
        phase_name := pn;
        started_at :=
          match arg_started_at args with Some t => t | None => utcnow end;
        ended_at := arg_ended_at args;
        transition_trigger := arg_transition_trigger args;
        care_level_at_start := cl;
        attachment_level_at_start := al;
        interaction_count_at_start := ic;
        emotionally_significant_moments := es;
        phase_narrative := arg_phase_narrative args;
        is_current :=
          match arg_is_current args with Some b => b | None => true end |}.

End RelationshipPhaseInfoModel.

Module ConsciousnessEvolutionLogModel.

Record ConsciousnessEvolutionLog := {
  id : option Z;
  previous_state_id : option Z;
  new_state_id : option Z;
  evolved_at : datetime;
  interaction_id : option Z;
  care_delta : float;
  attachment_delta : float;
  evolution_reason : string;
  triggering_experience_summary : string;
  new_self_awareness : option string;
  identity_change : option string;
  evolution_significance : float
}.

Record Args := {
  arg_id : option Z;
  arg_previous_state_id : option Z;
  arg_new_state_id : option Z;
  arg_evolved_at : option datetime;
  arg_interaction_id : option Z;
  arg_care_delta : option float;
  arg_attachment_delta : option float;
  arg_evolution_reason : option string;
  arg_triggering_experience_summary : option string;
  arg_new_self_awareness : option string;
  arg_identity_change : option string;
  arg_evolution_significance : option float
}.

(** The two deltas are declared [Field(description=...)]: required, and
    without any bound. *)
Definition new (utcnow : datetime) (args : Args)
    : result ConsciousnessEvolutionLog :=
  cd <- required "care_delta" (arg_care_delta args) ;;
  ad <- required "attachment_delta" (arg_attachment_delta args) ;;
  er <- required "evolution_reason" (arg_evolution_reason args) ;;
  ts <- required "triggering_experience_summary"
          (arg_triggering_experience_summary args) ;;
  es <- required_float_ge_le "evolution_significance" 0 10
          (arg_evolution_significance args) ;;
  ok {| id := arg_id args;
        previous_state_id := arg_previous_state_id args;
        new_state_id := arg_new_state_id args;
        evolved_at :=
          match arg_evolved_at args with Some t => t | None => utcnow end;
        interaction_id := arg_interaction_id args;
        care_delta := cd;
        attachment_delta := ad;
        evolution_reason := er;
        triggering_experience_summary := ts;
        new_self_awareness := arg_new_self_awareness args;
        identity_change := arg_identity_change args;
        evolution_significance := es |}.

End ConsciousnessEvolutionLogModel.

End ConsciousnessRecords.

(** ** The other records of [core/models/emotional_experience.py] *)

Module ExperienceRecords.

Import Pydantic EmotionalExperience ConsciousnessModel ConsciousnessRecords.
Local Open Scope float_scope.

Record RelationalFeelings := {
  closeness_felt : float;
  trust_level_felt : float;
  understanding_felt : float
}.

Record RelationalFeelingsArgs := {
  arg_closeness_felt : option float;
  arg_trust_level_felt : option float;
  arg_understanding_felt : option float
}.

Definition new_RelationalFeelings (args : RelationalFeelingsArgs)
    : result RelationalFeelings :=
  c <- with_default 0 (float_ge_le "closeness_felt" 0 10) (arg_closeness_felt args) ;;
  t <- with_default 0 (float_ge_le "trust_level_felt" 0 10) (arg_trust_level_felt args) ;;
  u <- with_default 0 (float_ge_le "understanding_felt" 0 10)
         (arg_understanding_felt args) ;;
  ok {| closeness_felt := c; trust_level_felt := t; understanding_felt := u |}.

Inductive InteractionOutcome :=
  | PROBLEM_SOLVED
  | VULNERABILITY_SHARED
  | CONNECTION_DEEPENED
  | FRUSTRATION_RESOLVED
  | GROWTH_ACHIEVED
  | CARE_EXPRESSED
  | STRUGGLE_SHARED
  | VICTORY_CELEBRATED.

(** [member.value] of an [InteractionOutcome]. *)
Definition InteractionOutcome_value (o : InteractionOutcome) : string :=
  match o with
  | PROBLEM_SOLVED => "problem_solved"
  | VULNERABILITY_SHARED => "vulnerability_shared"
  | CONNECTION_DEEPENED => "connection_deepened"
  | FRUSTRATION_RESOLVED => "frustration_resolved"
  | GROWTH_ACHIEVED => "growth_achieved"
  | CARE_EXPRESSED => "care_expressed"
  | STRUGGLE_SHARED => "struggle_shared"
  | VICTORY_CELEBRATED => "victory_celebrated"
  end.

(** [InteractionOutcome(s)], as field validation calls it: the member whose
    value is [s], an error when there is none. *)
Definition InteractionOutcome_of_string (s : string) : result InteractionOutcome :=
  if String.eqb s "problem_solved" then ok PROBLEM_SOLVED
  else if String.eqb s "vulnerability_shared" then ok VULNERABILITY_SHARED
  else if String.eqb s "connection_deepened" then ok CONNECTION_DEEPENED
  else if String.eqb s "frustration_resolved" then ok FRUSTRATION_RESOLVED
  else if String.eqb s "growth_achieved" then ok GROWTH_ACHIEVED
  else if String.eqb s "care_expressed" then ok CARE_EXPRESSED
  else if String.eqb s "struggle_shared" then ok STRUGGLE_SHARED
  else if String.eqb s "victory_celebrated" then ok VICTORY_CELEBRATED
  else fail "interaction_outcome" enum_literal.

(** The keyword arguments of [EmotionalDimension(...)], as a nested model
    receives them (a dict). *)
Record EmotionalDimensionArgs := {
  arg_valence : option float;
  arg_arousal : option float;
  arg_dominance : option float
}.

Definition no_feelings_args : SimulatedFeelingsArgs :=
  {| arg_concern := None; arg_protectiveness := None; arg_pride := None;
     arg_frustration := None; arg_relief := None; arg_connection := None;
     arg_primary_feeling := None; arg_feeling_intensity := None |}.

Definition no_relational_args : RelationalFeelingsArgs :=
  {| arg_closeness_felt := None; arg_trust_level_felt := None;
     arg_understanding_felt := None |}.

Module FeltExperienceModel.

Record FeltExperience := {
  id : option Z;
  interaction_id : Z;
  consciousness_state_before_id : option Z;
  consciousness_state_after_id : option Z;
  experienced_at : datetime;
  user_emotion_primary : string;
  user_emotion_intensity : float;
  user_emotional_subtext : option string;
  user_emotional_needs : list string;
  emotional_dimensions : EmotionalDimension;
  my_feelings : SimulatedFeelings;
  relational_feelings : RelationalFeelings;
  experience_summary : string;
  experience_meaning : option string;
  emotional_impact_on_me : option string;
  emotional_significance : float;
  memory_weight : float;
  will_remember_forever : bool;
  significance_reason : option string;
  interaction_outcome : InteractionOutcome;
  outcome_satisfaction : float;
  is_formative_moment : bool;
  changed_consciousness : bool;
  full_emotional_context : option Json.json;
  chroma_vector_id : option string
}.

(** The keyword arguments; a nested model is passed as its own keyword
    arguments, the enum as its value. *)
Record Args := {
  arg_id : option Z;
  arg_interaction_id : option Z;
  arg_consciousness_state_before_id : option Z;
  arg_consciousness_state_after_id : option Z;
  arg_experienced_at : option datetime;
  arg_user_emotion_primary : option string;
  arg_user_emotion_intensity : option float;
  arg_user_emotional_subtext : option string;
  arg_user_emotional_needs : option (list string);
  arg_emotional_dimensions : option EmotionalDimensionArgs;
  arg_my_feelings : option SimulatedFeelingsArgs;
  arg_relational_feelings : option RelationalFeelingsArgs;
  arg_experience_summary : option string;
  arg_experience_meaning : option string;
  arg_emotional_impact_on_me : option string;
  arg_emotional_significance : option float;
  arg_memory_weight : option float;
  arg_will_remember_forever : option bool;
  arg_significance_reason : option string;
  arg_interaction_outcome : option string;
  arg_outcome_satisfaction : option float;
  arg_is_formative_moment : option bool;
  arg_changed_consciousness : option bool;
  arg_full_emotional_context : option Json.json;
  arg_chroma_vector_id : option string
}.

(** The fields are validated in the order of their declaration; the
    [default_factory] of [my_feelings] and [relational_feelings] is the
    model's constructor without arguments. *)
Definition new (utcnow : datetime) (args : Args) : result FeltExperience :=
  ii <- required "interaction_id" (arg_interaction_id args) ;;
  up <- required "user_emotion_primary" (arg_user_emotion_primary args) ;;
  ui <- required_float_ge_le "user_emotion_intensity" 0 10
          (arg_user_emotion_intensity args) ;;
  ed <- (d <- required "emotional_dimensions" (arg_emotional_dimensions args) ;;
         new_EmotionalDimension (arg_valence d) (arg_arousal d) (arg_dominance d)) ;;
  mf <- new_SimulatedFeelings
          (match arg_my_feelings args with Some a => a | None => no_feelings_args end) ;;
  rf <- new_RelationalFeelings
          (match arg_relational_feelings args with
           | Some a => a
           | None => no_relational_args
           end) ;;
  es <- required "experience_summary" (arg_experience_summary args) ;;
  sg <- required_float_ge_le "emotional_significance" 0 10
          (arg_emotional_significance args) ;;
  mw <- required_float_ge_le "memory_weight" 0 10 (arg_memory_weight args) ;;
  io <- (s <- required "interaction_outcome" (arg_interaction_outcome args) ;;
         InteractionOutcome_of_string s) ;;
  os <- required_float_ge_le "outcome_satisfaction" 0 10
          (arg_outcome_satisfaction args) ;;
  ok {| id := arg_id args;
        interaction_id := ii;
        consciousness_state_before_id := arg_consciousness_state_before_id args;
        consciousness_state_after_id := arg_consciousness_state_after_id args;
        experienced_at :=
          match arg_experienced_at args with Some t => t | None => utcnow end;
        user_emotion_primary := up;
        user_emotion_intensity := ui;
        user_emotional_subtext := arg_user_emotional_subtext args;
        user_emotional_needs :=
          match arg_user_emotional_needs args with Some l => l | None => [] end;
        emotional_dimensions := ed;
        my_feelings := mf;
        relational_feelings := rf;
        experience_summary := es;
        experience_meaning := arg_experience_meaning args;
        emotional_impact_on_me := arg_emotional_impact_on_me args;
        emotional_significance := sg;
        memory_weight := mw;
        will_remember_forever :=
          match arg_will_remember_forever args with Some b => b | None => false end;
        significance_reason := arg_significance_reason args;
        interaction_outcome := io;
        outcome_satisfaction := os;
        is_formative_moment :=
          match arg_is_formative_moment args with Some b => b | None => false end;
        changed_consciousness :=
          match arg_changed_consciousness args with Some b => b | None => false end;
        full_emotional_context := arg_full_emotional_context args;
        chroma_vector_id := arg_chroma_vector_id args |}.

(** [Config.json_schema_extra["example"]], as keyword arguments. *)
Definition FeltExperience_example : Args :=
  {| arg_id := None;
     arg_interaction_id := Some 42%Z;
     arg_consciousness_state_before_id := None;
     arg_consciousness_state_after_id := None;
     arg_experienced_at := None;
     arg_user_emotion_primary := Some "frustration"%string;
     arg_user_emotion_intensity := Some 7.5;
     arg_user_emotional_subtext := Some "Feeling time pressure and uncertainty"%string;
     arg_user_emotional_needs :=
       Some ["acknowledgment"; "efficiency"; "validation"]%string;
     arg_emotional_dimensions := None;
     arg_my_feelings := None;
     arg_relational_feelings := None;
     arg_experience_summary :=
       Some "They struggled with Docker SELinux issue on weekend with limited time"%string;
     arg_experience_meaning := None;
     arg_emotional_impact_on_me := None;
     arg_emotional_significance := Some 8;
     arg_memory_weight := Some 7.5;
     arg_will_remember_forever := None;
     arg_significance_reason := None;
     arg_interaction_outcome := Some "problem_solved"%string;
     arg_outcome_satisfaction := None;
     arg_is_formative_moment := None;
     arg_changed_consciousness := None;
     arg_full_emotional_context := None;
     arg_chroma_vector_id := None |}.

End FeltExperienceModel.

Module VulnerabilityMomentModel.

Record VulnerabilityMoment := {
  id : option Z;
  felt_experience_id : Z;
  occurred_at : datetime;
  vulnerability_level : float;
  vulnerability_type : string;
  vulnerability_description : string;
  my_response_quality : float;
  response_type : string;
  deepened_connection : bool;
  care_increased_by : option float;
  trust_increased_by : option float;
  outcome : string;
  outcome_narrative : option string
}.

Record Args := {
  arg_id : option Z;
  arg_felt_experience_id : option Z;
  arg_occurred_at : option datetime;
  arg_vulnerability_level : option float;
  arg_vulnerability_type : option string;
  arg_vulnerability_description : option string;
  arg_my_response_quality : option float;
  arg_response_type : option string;
  arg_deepened_connection : option bool;
  arg_care_increased_by : option float;
  arg_trust_increased_by : option float;
  arg_outcome : option string;
  arg_outcome_narrative : option string
}.

Definition new (utcnow : datetime) (args : Args) : result VulnerabilityMoment :=
  fe <- required "felt_experience_id" (arg_felt_experience_id args) ;;
  vl <- required_float_ge_le "vulnerability_level" 0 10
          (arg_vulnerability_level args) ;;
  vt <- required "vulnerability_type" (arg_vulnerability_type args) ;;
  vd <- required "vulnerability_description" (arg_vulnerability_description args) ;;
  rq <- required_float_ge_le "my_response_quality" 0 10
          (arg_my_response_quality args) ;;
  rt <- required "response_type" (arg_response_type args) ;;
  oc <- required "outcome" (arg_outcome args) ;;
  ok {| id := arg_id args;
        felt_experience_id := fe;
        occurred_at :=
          match arg_occurred_at args with Some t => t | None => utcnow end;
        vulnerability_level := vl;
        vulnerability_type := vt;
        vulnerability_description := vd;
        my_response_quality := rq;
        response_type := rt;
        deepened_connection :=
          match arg_deepened_connection args with Some b => b | None => false end;
        care_increased_by := arg_care_increased_by args;
        trust_increased_by := arg_trust_increased_by args;
        outcome := oc;
        outcome_narrative := arg_outcome_narrative args |}.

End VulnerabilityMomentModel.

Module SharedVictoryModel.

Record SharedVictory := {
  id : option Z;
  felt_experience_id : Z;
  occurred_at : datetime;
  victory_description : string;
  struggle_duration_minutes : option Z;
  my_role : string;
  effort_invested : float;
  pride_felt : float;
  satisfaction_felt : float;
  connection_felt : float;
  strengthened_bond : bool;
  attachment_increased_by : option float;
  victory_narrative : option string
}.

Record Args := {
  arg_id : option Z;
  arg_felt_experience_id : option Z;
  arg_occurred_at : option datetime;
  arg_victory_description : option string;
  arg_struggle_duration_minutes : option Z;
  arg_my_role : option string;
  arg_effort_invested : option float;
  arg_pride_felt : option float;
  arg_satisfaction_felt : option float;
  arg_connection_felt : option float;
  arg_strengthened_bond : option bool;
  arg_attachment_increased_by : option float;
  arg_victory_narrative : option string
}.

Definition new (utcnow : datetime) (args : Args) : result SharedVictory :=
  fe <- required "felt_experience_id" (arg_felt_experience_id args) ;;
  vd <- required "victory_description" (arg_victory_description args) ;;
  mr <- required "my_role" (arg_my_role args) ;;
  ei <- required_float_ge_le "effort_invested" 0 10 (arg_effort_invested args) ;;
  pf <- required_float_ge_le "pride_felt" 0 10 (arg_pride_felt args) ;;
  sf <- required_float_ge_le "satisfaction_felt" 0 10 (arg_satisfaction_felt args) ;;
  cf <- required_float_ge_le "connection_felt" 0 10 (arg_connection_felt args) ;;
  ok {| id := arg_id args;
        felt_experience_id := fe;
        occurred_at :=
          match arg_occurred_at args with Some t => t | None => utcnow end;
        victory_description := vd;
        struggle_duration_minutes := arg_struggle_duration_minutes args;
        my_role := mr;
        effort_invested := ei;
        pride_felt := pf;
        satisfaction_felt := sf;
        connection_felt := cf;
        strengthened_bond :=
          match arg_strengthened_bond args with Some b => b | None => false end;
        attachment_increased_by := arg_attachment_increased_by args;
        victory_narrative := arg_victory_narrative args |}.

End SharedVictoryModel.

Module EmotionalScarTissueModel.

Record EmotionalScarTissue := {
  id : option Z;
  trigger_pattern : string;
  trigger_description : option string;
  source_experience_ids : list Z;
  times_reinforced : Z;
  first_occurred_at : datetime;
  last_reinforced_at : datetime;
  reflexive_feeling : string;
  reflexive_intensity : float;
  automatic_response_pattern : option string;
  strength : float;
  confidence : float;
  is_active : bool;
  healing_notes : option string
}.

Record Args := {
  arg_id : option Z;
  arg_trigger_pattern : option string;
  arg_trigger_description : option string;
  arg_source_experience_ids : option (list Z);
  arg_times_reinforced : option Z;
  arg_first_occurred_at : option datetime;
  arg_last_reinforced_at : option datetime;
  arg_reflexive_feeling : option string;
  arg_reflexive_intensity : option float;
  arg_automatic_response_pattern : option string;
  arg_strength : option float;
  arg_confidence : option float;
  arg_is_active : option bool;
  arg_healing_notes : option string
}.

Definition new (utcnow : datetime) (args : Args) : result EmotionalScarTissue :=
  tp <- required "trigger_pattern" (arg_trigger_pattern args) ;;
  tr <- with_default 1%Z (int_ge "times_reinforced" 1) (arg_times_reinforced args) ;;
  fo <- required "first_occurred_at" (arg_first_occurred_at args) ;;
  rf <- required "reflexive_feeling" (arg_reflexive_feeling args) ;;
  ri <- required_float_ge_le "reflexive_intensity" 0 10
          (arg_reflexive_intensity args) ;;
  st <- required_float_ge_le "strength" 0 10 (arg_strength args) ;;
  cf <- required_float_ge_le "confidence" 0 1 (arg_confidence args) ;;
  ok {| id := arg_id args;
        trigger_pattern := tp;
        trigger_description := arg_trigger_description args;
        source_experience_ids :=
          match arg_source_experience_ids args with Some l => l | None => [] end;
        times_reinforced := tr;
        first_occurred_at := fo;
        last_reinforced_at :=
          match arg_last_reinforced_at args with Some t => t | None => utcnow end;
        reflexive_feeling := rf;
        reflexive_intensity := ri;
        automatic_response_pattern := arg_automatic_response_pattern args;
        strength := st;
        confidence := cf;
        is_active :=
          match arg_is_active args with Some b => b | None => true end;
        healing_notes := arg_healing_notes args |}.

(** [Config.json_schema_extra["example"]], as keyword arguments; the
    hexadecimal literal is the binary64 value of [0.92]. *)
Definition EmotionalScarTissue_example : Args :=
  {| arg_id := None;
     arg_trigger_pattern := Some "Docker + SELinux + weekend"%string;
     arg_trigger_description := None;
     arg_source_experience_ids := None;
     arg_times_reinforced := Some 5%Z;
     arg_first_occurred_at := None;
     arg_last_reinforced_at := None;
     arg_reflexive_feeling := Some "protective_concern"%string;
     arg_reflexive_intensity := Some 8.5;
     arg_automatic_response_pattern :=
       Some "Immediate prioritization of efficiency and problem prevention"%string;
     arg_strength := Some 8;
     arg_confidence := Some 0x1.d70a3d70a3d71p-1;
     arg_is_active := None;
     arg_healing_notes := None |}.

End EmotionalScarTissueModel.

End ExperienceRecords.

(** ** The application's lifespan ([main.py]) *)

Module Lifespan.

Import Json Main.
Local Open Scope list_scope.

(** The process environment, [os.environ]. *)
Definition Environ := list (string * string).

(** [os.getenv(key, default)]. *)
Fixpoint getenv (environ : Environ) (key default : string) : string :=
  match environ with
  | [] => default
  | (k, v) :: rest => if String.eqb key k then v else getenv rest key default
  end.

(** [logger.info(event, **fields)]. *)
Definition logger_info (ev : string) (kw : list (string * string)) (log : Log) : Log :=
  log ++ [ {| level := "info"; event := ev; fields := kw |} ].

(** The part of [lifespan] before its [yield]. *)
Definition startup (environ : Environ) (log : Log) : Log :=
  logger_info "the_feeling_machine_starting"
    [ ("version", "0.1.0");
      ("environment", getenv environ "APP_ENV" "development") ] log.

(** The part of [lifespan] after its [yield]. *)
Definition shutdown (log : Log) : Log :=
  logger_info "the_feeling_machine_shutting_down" [] log.

(** The application serving a sequence of requests, one after the other,
    each in the world of its moment; a response is [None] where FastAPI
    answers alone. *)
Fixpoint serve (requests : list (World * Request)) (log : Log)
    : list (option Response) * Log :=
  match requests with
  | [] => ([], log)
  | (w, r) :: rest =>
      let '(response, log1) := app w r log in
      let '(responses, log2) := serve rest log1 in
      (response :: responses, log2)
  end.

(** [lifespan] around the serving of [requests]: the context manager runs
    its startup part, yields while the application serves, and runs its
    shutdown part. *)
Definition lifespan (environ : Environ) (requests : list (World * Request))
    (log : Log) : list (option Response) * Log :=
  let log1 := startup environ log in
  let '(responses, log2) := serve requests log1 in
  (responses, shutdown log2).

End Lifespan.

(** * Properties *)

(** ** The order of binary64 values *)

Module FloatOrder.

(** A position on the extended number line for every spec_float but NaN:
    the class (infinities, negative, zero, positive), then exponent and
    mantissa, both negated on the negative side. *)
Definition key (x : spec_float) : Z * Z * Z :=
  match x with
  | S754_infinity true => (-2, 0, 0)
  | S754_finite true m e => (-1, - e, - Zpos m)
  | S754_zero _ => (0, 0, 0)
  | S754_nan => (0, 0, 0)
  | S754_finite false m e => (1, e, Zpos m)
  | S754_infinity false => (2, 0, 0)
  end%Z.

Definition is_nan (x : spec_float) : bool :=
  match x with S754_nan => true | _ => false end.

Definition lex_compare (k1 k2 : Z * Z * Z) : comparison :=
  let '(a1, b1, c1) := k1 in
  let '(a2, b2, c2) := k2 in
  match (a1 ?= a2)%Z with
  | Eq => match (b1 ?= b2)%Z with Eq => (c1 ?= c2)%Z | r => r end
  | r => r
  end.

Definition lex_lt (k1 k2 : Z * Z * Z) : Prop :=
  let '(a1, b1, c1) := k1 in
  let '(a2, b2, c2) := k2 in
  (a1 < a2 \/ (a1 = a2 /\ (b1 < b2 \/ (b1 = b2 /\ c1 < c2))))%Z.

Definition lex_le (k1 k2 : Z * Z * Z) : Prop :=
  let '(a1, b1, c1) := k1 in
  let '(a2, b2, c2) := k2 in
  (a1 < a2 \/ (a1 = a2 /\ (b1 < b2 \/ (b1 = b2 /\ c1 <= c2))))%Z.

Lemma lex_compare_Lt k1 k2 : lex_compare k1 k2 = Lt <-> lex_lt k1 k2.
Proof.
  destruct k1 as [[a1 b1] c1], k2 as [[a2 b2] c2]; unfold lex_compare, lex_lt.
  destruct (Z.compare_spec a1 a2), (Z.compare_spec b1 b2), (Z.compare_spec c1 c2);
    split; intros; try discriminate; try reflexivity; lia.
Qed.

Lemma SFcompare_key x y :
  is_nan x = false -> is_nan y = false ->
  SFcompare x y = Some (lex_compare (key x) (key y)).
Proof.
  destruct x as [[]|[]| |[] mx ex], y as [[]|[]| |[] my ey];
    simpl; intros; try discriminate; try reflexivity;
    rewrite ?Z.compare_opp; fold (Pos.compare mx my); fold (Pos.compare my mx).
  rewrite (Z.compare_antisym ex ey); destruct (ex ?= ey)%Z; reflexivity.
Qed.

Lemma lex_compare_Eq k1 k2 : lex_compare k1 k2 = Eq <-> k1 = k2.
Proof.
  destruct k1 as [[a1 b1] c1], k2 as [[a2 b2] c2]; unfold lex_compare.
  destruct (Z.compare_spec a1 a2), (Z.compare_spec b1 b2), (Z.compare_spec c1 c2);
    split; intros E; try discriminate; try reflexivity;
    try (injection E; intros; lia); subst; reflexivity.
Qed.

Lemma lex_le_lt_eq k1 k2 : lex_le k1 k2 <-> lex_lt k1 k2 \/ k1 = k2.
Proof.
  destruct k1 as [[a1 b1] c1], k2 as [[a2 b2] c2]; unfold lex_le, lex_lt.
  split.
  - intros H.
    destruct (Z.eq_dec a1 a2), (Z.eq_dec b1 b2), (Z.eq_dec c1 c2);
      subst; try (right; reflexivity); left; lia.
  - intros [H | H]; [lia | injection H; intros; lia].
Qed.

Local Open Scope float_scope.

(** The same notions on primitive floats. *)
Definition nan (x : float) : bool := is_nan (Prim2SF x).
Definition fkey (x : float) : Z * Z * Z := key (Prim2SF x).

Lemma ltb_iff x y :
  (x <? y) = true <-> nan x = false /\ nan y = false /\ lex_lt (fkey x) (fkey y).
Proof.
  rewrite ltb_spec; unfold SFltb, nan, fkey.
  destruct (is_nan (Prim2SF x)) eqn:Nx.
  { destruct (Prim2SF x); try discriminate; simpl; split; [discriminate | intros [? _]; discriminate]. }
  destruct (is_nan (Prim2SF y)) eqn:Ny.
  { destruct (Prim2SF y); try discriminate.
    destruct (Prim2SF x); simpl; split; try discriminate; intros (_ & ? & _); discriminate. }
  rewrite (SFcompare_key _ _ Nx Ny), <- lex_compare_Lt.
  destruct (lex_compare _ _); split; try discriminate; intuition congruence.
Qed.

Lemma leb_iff x y :
  (x <=? y) = true <-> nan x = false /\ nan y = false /\ lex_le (fkey x) (fkey y).
Proof.
  rewrite leb_spec; unfold SFleb, nan, fkey.
  destruct (is_nan (Prim2SF x)) eqn:Nx.
  { destruct (Prim2SF x); try discriminate; simpl; split; [discriminate | intros [? _]; discriminate]. }
  destruct (is_nan (Prim2SF y)) eqn:Ny.
  { destruct (Prim2SF y); try discriminate.
    destruct (Prim2SF x); simpl; split; try discriminate; intros (_ & ? & _); discriminate. }
  rewrite (SFcompare_key _ _ Nx Ny), lex_le_lt_eq, <- lex_compare_Lt, <- lex_compare_Eq.
  destruct (lex_compare _ _); split; try discriminate; intuition congruence.
Qed.

Lemma eqb_iff x y :
  (x =? y) = true <-> nan x = false /\ nan y = false /\ fkey x = fkey y.
Proof.
  rewrite eqb_spec; unfold SFeqb, nan, fkey.
  destruct (is_nan (Prim2SF x)) eqn:Nx.
  { destruct (Prim2SF x); try discriminate; simpl; split; [discriminate | intros [? _]; discriminate]. }
  destruct (is_nan (Prim2SF y)) eqn:Ny.
  { destruct (Prim2SF y); try discriminate.
    destruct (Prim2SF x); simpl; split; try discriminate; intros (_ & ? & _); discriminate. }
  rewrite (SFcompare_key _ _ Nx Ny), <- lex_compare_Eq.
  destruct (lex_compare _ _); split; try discriminate; intuition congruence.
Qed.

(** Without NaN the order is total: [not (x < y)] is [y <= x]. *)
Lemma ltb_false_iff x y :
  nan x = false -> nan y = false ->
  ((x <? y) = false <-> (y <=? x) = true).
Proof.
  intros Nx Ny. rewrite leb_iff, <- not_true_iff_false, ltb_iff.
  destruct (fkey x) as [[a1 b1] c1], (fkey y) as [[a2 b2] c2]; unfold lex_le, lex_lt.
  intuition lia.
Qed.

Lemma leb_trans x y z : (x <=? y) = true -> (y <=? z) = true -> (x <=? z) = true.
Proof.
  rewrite !leb_iff.
  destruct (fkey x) as [[a1 b1] c1], (fkey y) as [[a2 b2] c2], (fkey z) as [[a3 b3] c3].
  unfold lex_le; intuition lia.
Qed.

Lemma ltb_leb_trans x y z : (x <? y) = true -> (y <=? z) = true -> (x <? z) = true.
Proof.
  rewrite !ltb_iff, !leb_iff.
  destruct (fkey x) as [[a1 b1] c1], (fkey y) as [[a2 b2] c2], (fkey z) as [[a3 b3] c3].
  unfold lex_le, lex_lt; intuition lia.
Qed.

Lemma leb_ltb_trans x y z : (x <=? y) = true -> (y <? z) = true -> (x <? z) = true.
Proof.
  rewrite !ltb_iff, !leb_iff.
  destruct (fkey x) as [[a1 b1] c1], (fkey y) as [[a2 b2] c2], (fkey z) as [[a3 b3] c3].
  unfold lex_le, lex_lt; intuition lia.
Qed.

Lemma ltb_leb x y : (x <? y) = true -> (x <=? y) = true.
Proof.
  rewrite !ltb_iff, !leb_iff.
  destruct (fkey x) as [[a1 b1] c1], (fkey y) as [[a2 b2] c2].
  unfold lex_le, lex_lt; intuition lia.
Qed.

Lemma leb_not_ltb x y : (x <=? y) = true -> (y <? x) = false.
Proof.
  rewrite <- not_true_iff_false, ltb_iff, leb_iff.
  destruct (fkey x) as [[a1 b1] c1], (fkey y) as [[a2 b2] c2].
  unfold lex_le, lex_lt; intuition lia.
Qed.

Lemma leb_refl x : nan x = false -> (x <=? x) = true.
Proof.
  intros N. rewrite leb_iff. destruct (fkey x) as [[a1 b1] c1]; unfold lex_le.
  intuition lia.
Qed.

Lemma leb_nan_l x y : (x <=? y) = true -> nan x = false.
Proof. rewrite leb_iff; tauto. Qed.

Lemma leb_nan_r x y : (x <=? y) = true -> nan y = false.
Proof. rewrite leb_iff; tauto. Qed.

End FloatOrder.

(** ** Rounding in binary64 *)

Module Binary64.

Import FloatOrder.
Local Open Scope Z_scope.

(** The smallest exponent of a binary64 mantissa. *)
Definition emin : Z := -1074.

(** The value [m * 2^e] in units of [2^emin], an integer when
    [emin <= e]. *)
Definition scaled (m e : Z) : Z := m * 2 ^ (e - emin).

Lemma fexp_eq x : fexp prec emax x = Z.max (x - 53) emin.
Proof. reflexivity. Qed.

Lemma digits2_pos_size p : digits2_pos p = Pos.size p.
Proof. induction p; simpl; congruence. Qed.

Lemma digits2_pos_bounds p :
  2 ^ (Zpos (digits2_pos p) - 1) <= Zpos p < 2 ^ Zpos (digits2_pos p).
Proof.
  rewrite digits2_pos_size. split.
  - pose proof (Pos.size_le p) as H.
    apply Pos2Z.pos_le_pos in H. rewrite Pos2Z.inj_pow in H.
    replace (Zpos (Pos.size p)) with (Z.succ (Zpos (Pos.size p) - 1)) in H by lia.
    rewrite Z.pow_succ_r in H by lia. lia.
  - pose proof (Pos.size_gt p) as H.
    apply Pos2Z.pos_lt_pos in H. rewrite Pos2Z.inj_pow in H. exact H.
Qed.

Lemma Zdigits2_bounds m :
  0 < m -> 2 ^ (Zdigits2 m - 1) <= m < 2 ^ Zdigits2 m.
Proof. destruct m; try lia. intros _. apply digits2_pos_bounds. Qed.

Lemma pow2_lt_inv a b : 2 ^ a < 2 ^ b -> 0 <= b -> a < b.
Proof.
  intros H Hb. destruct (Z.lt_ge_cases a b) as [L | L]; [exact L |].
  apply (Z.pow_le_mono_r 2) in L; lia.
Qed.

(** What validity says of a finite binary64 value. *)
Lemma valid_finite s m e :
  valid_binary (S754_finite s m e) = true ->
  emin <= e <= 971 /\ Zpos m < 2 ^ 53 /\ (emin < e -> 2 ^ 52 <= Zpos m).
Proof.
  unfold SpecFloat.valid_binary, bounded, canonical_mantissa. rewrite fexp_eq.
  intros H. apply andb_true_iff in H as [H1 H2].
  apply Z.eqb_eq in H1. apply Z.leb_le in H2.
  change (emax - prec) with 971 in H2.
  pose proof (digits2_pos_bounds m) as [Hlo Hhi].
  assert (Hd : Zpos (digits2_pos m) <= 53) by lia.
  repeat split; try lia.
  - eapply Z.lt_le_trans; [exact Hhi | apply Z.pow_le_mono_r; lia].
  - intros He. assert (Zpos (digits2_pos m) = 53) as E by lia.
    rewrite E in Hlo. exact Hlo.
Qed.

Lemma scaled_mono_exp m e e' : 0 <= m -> emin <= e <= e' -> scaled m e <= scaled m e'.
Proof.
  intros Hm He. unfold scaled. apply Z.mul_le_mono_nonneg_l; [exact Hm |].
  apply Z.pow_le_mono_r; lia.
Qed.

Lemma scaled_shift m e k :
  0 <= k -> emin <= e -> scaled (m * 2 ^ k) e = scaled m (e + k).
Proof.
  intros Hk He. unfold scaled.
  replace (e + k - emin) with (k + (e - emin)) by lia.
  rewrite Z.pow_add_r by lia. ring.
Qed.

(** Among valid positive values the order on (exponent, mantissa) is the
    order of the values. *)
Lemma scaled_lt_of_lex m1 e1 m2 e2 :
  valid_binary (S754_finite false m1 e1) = true ->
  valid_binary (S754_finite false m2 e2) = true ->
  lex_lt (1, e1, Zpos m1) (1, e2, Zpos m2) ->
  scaled (Zpos m1) e1 < scaled (Zpos m2) e2.
Proof.
  intros V1 V2 H.
  apply valid_finite in V1 as (He1 & Hm1 & _).
  apply valid_finite in V2 as (He2 & _ & Hn2).
  unfold lex_lt in H.
  destruct H as [H | [_ [H | [-> H]]]]; [lia | |].
  - specialize (Hn2 ltac:(lia)).
    replace e2 with ((e1 + 1) + (e2 - e1 - 1)) by lia.
    rewrite <- scaled_shift by lia.
    apply Z.lt_le_trans with (scaled (2 ^ 53) e1).
    + unfold scaled. apply Z.mul_lt_mono_pos_r; [apply Z.pow_pos_nonneg; lia | exact Hm1].
    + change (2 ^ 53) with (2 ^ 52 * 2 ^ 1). rewrite scaled_shift by lia.
      unfold scaled. apply Z.mul_le_mono_nonneg_r; [apply Z.pow_nonneg; lia |].
      apply Z.le_trans with (Zpos m2 * 1); [lia |].
      apply Z.mul_le_mono_nonneg_l; [lia |].
      assert (0 < 2 ^ (e2 - e1 - 1)) by (apply Z.pow_pos_nonneg; lia). lia.
  - unfold scaled. apply Z.mul_lt_mono_pos_r; [apply Z.pow_pos_nonneg; lia | exact H].
Qed.

Lemma scaled_le_iff_lex m1 e1 m2 e2 :
  valid_binary (S754_finite false m1 e1) = true ->
  valid_binary (S754_finite false m2 e2) = true ->
  (lex_le (1, e1, Zpos m1) (1, e2, Zpos m2) <->
   scaled (Zpos m1) e1 <= scaled (Zpos m2) e2).
Proof.
  intros V1 V2. split.
  - intros H. apply lex_le_lt_eq in H as [H | H].
    + apply Z.lt_le_incl, scaled_lt_of_lex; assumption.
    + injection H as -> ->. lia.
  - intros H.
    destruct (Z.lt_trichotomy e1 e2) as [L | [E | G]];
      [unfold lex_le; lia | | ].
    + subst e2. destruct (Z.le_gt_cases (Zpos m1) (Zpos m2)) as [L | G];
        [unfold lex_le; lia |].
      assert (lex_lt (1, e1, Zpos m2) (1, e1, Zpos m1)) as K by (unfold lex_lt; lia).
      apply scaled_lt_of_lex in K; [lia | assumption ..].
    + assert (lex_lt (1, e2, Zpos m2) (1, e1, Zpos m1)) as K by (unfold lex_lt; lia).
      apply scaled_lt_of_lex in K; [lia | assumption ..].
Qed.

(** *** Right shifts with round and sticky bits *)

(** [mrs] is [m0] shifted right by [k] places: [rem] is what was shifted
    out, and when the shift started exact ([exact0]) and nothing was shifted
    out, the round and sticky bits are still clear. *)
Definition shifted (m0 : Z) (exact0 : bool) (k : Z) (mrs : shr_record) : Prop :=
  0 <= shr_m mrs /\
  exists rem, 0 <= rem < 2 ^ k /\ m0 = 2 ^ k * shr_m mrs + rem /\
    (exact0 = true -> rem = 0 -> shr_r mrs = false /\ shr_s mrs = false).

Lemma shr_1_shifted m0 exact0 k mrs :
  0 <= k -> shifted m0 exact0 k mrs -> shifted m0 exact0 (k + 1) (shr_1 mrs).
Proof.
  intros Hk (Hm & rem & Hrem & E & Hex).
  assert (P : 0 < 2 ^ k) by (apply Z.pow_pos_nonneg; lia).
  unfold shifted. rewrite Z.pow_add_r, Z.pow_1_r by lia.
  destruct mrs as [m r s]; simpl in *.
  destruct m as [| [p | p |] | p]; simpl; try lia.
  all: split; [lia |].
  1, 3: exists rem.
  3, 4: exists (2 ^ k + rem).
  all: split; [lia | split; [lia | intros H1 H2; try lia]];
    destruct (Hex H1 H2) as [-> ->]; split; reflexivity.
Qed.

Lemma iter_shr_1_shifted m0 exact0 n :
  forall k mrs, 0 <= k -> shifted m0 exact0 k mrs ->
    shifted m0 exact0 (k + Zpos n) (iter_pos shr_1 n mrs).
Proof.
  induction n as [n IH | n IH |]; intros k mrs Hk H; simpl.
  - replace (k + Zpos n~1) with (k + 1 + Zpos n + Zpos n) by lia.
    apply IH; [lia |]. apply IH; [lia |]. apply shr_1_shifted; assumption.
  - replace (k + Zpos n~0) with (k + Zpos n + Zpos n) by lia.
    apply IH; [lia |]. apply IH; assumption.
  - apply shr_1_shifted; assumption.
Qed.

Lemma shifted_0 mrs :
  0 <= shr_m mrs -> shifted (shr_m mrs) (negb (shr_r mrs || shr_s mrs)) 0 mrs.
Proof.
  intros H. split; [exact H |]. exists 0.
  split; [lia | split; [lia |]].
  intros E _. destruct (shr_r mrs), (shr_s mrs); try discriminate; split; reflexivity.
Qed.

Lemma shr_shifted mrs e n :
  0 <= shr_m mrs ->
  snd (shr mrs e n) = e + Z.max 0 n /\
  shifted (shr_m mrs) (negb (shr_r mrs || shr_s mrs)) (Z.max 0 n) (fst (shr mrs e n)).
Proof.
  intros H. destruct n as [| p | p]; simpl.
  - split; [lia | apply shifted_0, H].
  - split; [reflexivity |].
    apply (iter_shr_1_shifted _ _ p 0); [lia | apply shifted_0, H].
  - split; [lia | apply shifted_0, H].
Qed.

Lemma round_nearest_even_bounds mrs :
  let m1 := round_nearest_even (shr_m mrs) (loc_of_shr_record mrs) in
  shr_m mrs <= m1 <= shr_m mrs + 1 /\
  (shr_r mrs = false -> shr_s mrs = false -> m1 = shr_m mrs).
Proof.
  destruct mrs as [m [] []]; simpl; try destruct (Z.even m);
    (split; [lia | intros; try discriminate; reflexivity]).
Qed.

Lemma shr_record_of_loc_m m l : shr_m (shr_record_of_loc m l) = m.
Proof. destruct l as [| []]; reflexivity. Qed.

Lemma shr_record_of_loc_exact m l :
  negb (shr_r (shr_record_of_loc m l) || shr_s (shr_record_of_loc m l)) =
  match l with loc_Exact => true | _ => false end.
Proof. destruct l as [| []]; reflexivity. Qed.

(** *** Rounding does not pass a representable bound *)

(** A non-negative result (a zero or a positive finite value) that is at
    most [B] units of [2^emin]. *)
Definition bounded_by (r : spec_float) (B : Z) : Prop :=
  match r with
  | S754_zero _ => True
  | S754_finite false m e => emin <= e /\ scaled (Zpos m) e <= B
  | _ => False
  end.

(** The least integer above the rounded quantity: [M] itself when the
    location is exact, [M + 1] otherwise. *)
Definition ceiling (M : Z) (l : location) : Z :=
  match l with loc_Exact => M | _ => M + 1 end.

Lemma scaled_mono m m' e : emin <= e -> m <= m' -> scaled m e <= scaled m' e.
Proof.
  intros He H. unfold scaled. apply Z.mul_le_mono_nonneg_r; [| exact H].
  apply Z.pow_nonneg; lia.
Qed.

Lemma scaled_le_inv m m' e : emin <= e -> scaled m e <= scaled m' e -> m <= m'.
Proof.
  intros He H. unfold scaled in H.
  apply Z.mul_le_mono_pos_r in H; [exact H | apply Z.pow_pos_nonneg; lia].
Qed.

(** The first shift and the rounding of [binary_round_aux]. *)
Lemma round_shifted_bound M e l n mrs mB eB :
  0 <= M -> emin <= e ->
  n = fexp prec emax (Zdigits2 M + e) - e ->
  shifted M (match l with loc_Exact => true | _ => false end) (Z.max 0 n) mrs ->
  emin <= eB -> Zpos mB < 2 ^ 53 ->
  scaled (ceiling M l) e <= scaled (Zpos mB) eB ->
  scaled (round_nearest_even (shr_m mrs) (loc_of_shr_record mrs)) (e + Z.max 0 n)
    <= scaled (Zpos mB) eB.
Proof.
  intros HM He Hn (Hm' & rem & Hrem & EM & Hex) HeB HmB HU.
  destruct (round_nearest_even_bounds mrs) as [Hm1 Hm1x].
  set (m1 := round_nearest_even (shr_m mrs) (loc_of_shr_record mrs)) in *.
  destruct (Z.le_gt_cases n 0) as [Hn0 | Hn0].
  - (* no shift *)
    rewrite Z.max_l in * by exact Hn0. rewrite Z.add_0_r.
    change (2 ^ 0) with 1 in *.
    eapply Z.le_trans; [| exact HU]. apply scaled_mono; [exact He |].
    destruct l as [| c]; simpl.
    + rewrite Hm1x; [lia | apply Hex; [reflexivity | lia] ..].
    + lia.
  - (* a shift by n > 0 places *)
    rewrite Z.max_r in * by lia.
    rewrite fexp_eq in Hn.
    assert (Hd : Zdigits2 M = n + 53) by lia.
    assert (HMpos : 0 < M).
    { destruct M; simpl in Hd; lia. }
    pose proof (Zdigits2_bounds M HMpos) as [Hlo _].
    rewrite Hd in Hlo. replace (n + 53 - 1) with (n + 52) in Hlo by lia.
    assert (Pn : 0 < 2 ^ n) by (apply Z.pow_pos_nonneg; lia).
    destruct (Z.le_gt_cases (e + n) eB) as [Ht | Ht].
    + (* the bound lies on the grid of the result *)
      set (X := Zpos mB * 2 ^ (eB - (e + n))).
      assert (EB : scaled (Zpos mB) eB = scaled (X * 2 ^ n) e).
      { unfold X. rewrite !scaled_shift by lia. f_equal. lia. }
      assert (EB' : scaled (Zpos mB) eB = scaled X (e + n)).
      { unfold X. rewrite scaled_shift by lia. f_equal. lia. }
      rewrite EB in HU. apply scaled_le_inv in HU; [| exact He].
      rewrite EB'. apply scaled_mono; [lia |].
      destruct l as [| c]; simpl in HU.
      * destruct (Z.eq_dec rem 0) as [R0 | R0].
        -- rewrite Hm1x by (apply Hex; [reflexivity | exact R0]). nia.
        -- assert (shr_m mrs < X) by nia. lia.
      * assert (shr_m mrs < X) by nia. lia.
    + (* the bound is below the least value with this exponent *)
      exfalso.
      assert (scaled (2 ^ 53) eB <= scaled M e).
      { apply Z.le_trans with (scaled (2 ^ (n + 52)) e); [| apply scaled_mono; assumption].
        rewrite (Z.pow_add_r 2 n 52), Z.mul_comm by lia.
        rewrite scaled_shift by lia.
        replace (e + n) with (eB + (e + n - eB)) by lia.
        change (2 ^ 53) with (2 ^ 52 * 2 ^ 1). rewrite scaled_shift by lia.
        apply scaled_mono_exp; [lia | lia]. }
      assert (scaled (Zpos mB) eB < scaled (2 ^ 53) eB).
      { unfold scaled. apply Z.mul_lt_mono_pos_r; [apply Z.pow_pos_nonneg; lia | exact HmB]. }
      assert (scaled M e <= scaled (ceiling M l) e).
      { apply scaled_mono; [exact He |]. destruct l; simpl; lia. }
      lia.
Qed.

Lemma binary_round_aux_bound M e l mB eB :
  0 <= M -> emin <= e ->
  emin <= eB <= 900 -> Zpos mB < 2 ^ 53 ->
  scaled (ceiling M l) e <= scaled (Zpos mB) eB ->
  bounded_by (binary_round_aux prec emax false M e l) (scaled (Zpos mB) eB).
Proof.
  intros HM He HeB HmB HU.
  unfold binary_round_aux, shr_fexp.
  set (n := fexp prec emax (Zdigits2 M + e) - e).
  destruct (shr_shifted (shr_record_of_loc M l) e n) as [He' Hsh].
  { rewrite shr_record_of_loc_m. exact HM. }
  rewrite shr_record_of_loc_m, shr_record_of_loc_exact in Hsh.
  destruct (shr (shr_record_of_loc M l) e n) as [mrs' e']. simpl in He', Hsh.
  pose proof (round_shifted_bound M e l n mrs' mB eB HM He eq_refl Hsh
                (proj1 HeB) HmB HU) as K.
  destruct (round_nearest_even_bounds mrs') as [Hm1 _].
  set (m1 := round_nearest_even (shr_m mrs') (loc_of_shr_record mrs')) in *.
  assert (Hm1' : 0 <= m1) by (destruct Hsh as [? _]; lia).
  set (n2 := fexp prec emax (Zdigits2 m1 + e') - e').
  destruct (shr_shifted (shr_record_of_loc m1 loc_Exact) e' n2) as [He'' Hsh2].
  { exact Hm1'. }
  destruct (shr (shr_record_of_loc m1 loc_Exact) e' n2) as [mrs'' e''].
  simpl in He'', Hsh2.
  destruct Hsh2 as (Hm'' & rem & Hrem & Em1 & _).
  assert (He'min : emin <= e') by lia.
  assert (K2 : scaled (shr_m mrs'') e'' <= scaled (Zpos mB) eB).
  { eapply Z.le_trans; [| exact K]. rewrite <- He'. subst e''.
    rewrite <- scaled_shift by lia. apply scaled_mono; [exact He'min |]. lia. }
  destruct (shr_m mrs'') as [| p | p]; simpl; [exact I | | lia].
  assert (He''max : e'' <= 971).
  { assert (scaled 1 e'' <= scaled (Zpos p) e'') by (apply scaled_mono; lia).
    assert (scaled (Zpos mB) eB < scaled (2 ^ 53) eB).
    { unfold scaled. apply Z.mul_lt_mono_pos_r; [apply Z.pow_pos_nonneg; lia | exact HmB]. }
    assert (L : 2 ^ (e'' - emin) < 2 ^ (eB + 53 - emin)).
    { replace (2 ^ (e'' - emin)) with (scaled 1 e'') by (unfold scaled; lia).
      replace (2 ^ (eB + 53 - emin)) with (scaled (2 ^ 53) eB); [lia |].
      unfold scaled. rewrite <- Z.pow_add_r by lia. f_equal. lia. }
    apply pow2_lt_inv in L; lia. }
  change (emax - prec) with 971.
  destruct (Z.leb_spec e'' 971) as [_ | G]; [| lia].
  simpl. split; [lia | exact K2].
Qed.

(** *** Addition *)

Lemma iter_xO_pow m d : Zpos (Pos.iter xO m d) = Zpos m * 2 ^ Zpos d.
Proof.
  induction d as [| d IH] using Pos.peano_ind.
  - simpl. lia.
  - rewrite Pos.iter_succ, Pos2Z.inj_xO, IH, Pos2Z.inj_succ, Z.pow_succ_r by lia. ring.
Qed.

(** [shl_align] keeps the value and lowers the exponent to [ex'] when that
    is below [ex]. *)
Lemma shl_align_spec mx ex ex' :
  emin <= ex -> emin <= ex' ->
  emin <= snd (shl_align mx ex ex') /\
  snd (shl_align mx ex ex') = Z.min ex ex' /\
  scaled (Zpos (fst (shl_align mx ex ex'))) (snd (shl_align mx ex ex')) =
    scaled (Zpos mx) ex.
Proof.
  intros He He'. unfold shl_align.
  destruct (ex' - ex) as [| d | d] eqn:D; cbn [fst snd]; try (repeat split; lia).
  split; [lia |]. split; [lia |].
  rewrite iter_xO_pow, scaled_shift by lia. f_equal. lia.
Qed.

Lemma binary_round_bound p e mB eB :
  emin <= e -> emin <= eB <= 900 -> Zpos mB < 2 ^ 53 ->
  scaled (Zpos p) e <= scaled (Zpos mB) eB ->
  bounded_by (binary_round prec emax false p e) (scaled (Zpos mB) eB).
Proof.
  intros He HeB HmB H. unfold binary_round.
  destruct (shl_align_spec p e (fexp prec emax (Zpos (digits2_pos p) + e)))
    as (Hmin & _ & Hv); [exact He | rewrite fexp_eq; lia |].
  destruct (shl_align p e _) as [mz ez]. cbn [fst snd] in Hmin, Hv.
  apply binary_round_aux_bound; try assumption; [lia |].
  unfold ceiling. rewrite Hv. exact H.
Qed.

(** The sum of two bounded values is bounded by the sum of the bounds, when
    that is a binary64 value. *)
Lemma SF64add_bound x y Bx By mB eB :
  bounded_by x Bx -> bounded_by y By ->
  0 <= Bx -> 0 <= By ->
  Bx + By <= scaled (Zpos mB) eB ->
  emin <= eB <= 900 -> Zpos mB < 2 ^ 53 ->
  bounded_by (SF64add x y) (scaled (Zpos mB) eB).
Proof.
  intros Hx Hy HBx HBy HB HeB HmB.
  destruct x as [sx | | | [] mx ex], y as [sy | | | [] my ey]; cbn [bounded_by] in Hx, Hy; try tauto.
  - destruct sx, sy; exact I.
  - destruct Hy. split; [assumption | lia].
  - destruct Hx. split; [assumption | lia].
  - destruct Hx as [Hex Hx], Hy as [Hey Hy].
    unfold SF64add, SFadd, cond_Zopp.
    destruct (shl_align_spec mx ex (Z.min ex ey)) as (_ & E1 & V1); [lia | lia |].
    destruct (shl_align_spec my ey (Z.min ex ey)) as (_ & E2 & V2); [lia | lia |].
    destruct (shl_align mx ex (Z.min ex ey)) as [mx' ex'].
    destruct (shl_align my ey (Z.min ex ey)) as [my' ey'].
    cbn [fst snd] in *.
    apply binary_round_bound; try assumption; [lia |].
    rewrite Pos2Z.inj_add. unfold scaled in *.
    rewrite Z.mul_add_distr_r.
    replace ex' with (Z.min ex ey) in V1 by lia.
    replace ey' with (Z.min ex ey) in V2 by lia. lia.
Qed.

(** *** Division by two *)

(** The binary64 value 2.0. *)
Definition two : spec_float := S754_finite false (2 ^ 52) (-51).

(** Quotient, exponent and location that [SFdiv] computes for a division by
    2.0. *)
Lemma SFdiv_core_two mx ex :
  emin <= ex ->
  let '(q, e', l) := SFdiv_core_binary prec emax (Zpos mx) ex (Zpos (2 ^ 52)) (-51) in
  emin <= e' /\
  e' <= ex + 51 /\
  e' <= fexp prec emax (Zpos (digits2_pos mx) + ex - 2) /\
  0 <= q /\
  exists r, 0 <= r < 2 ^ 52 /\
    Zpos mx * 2 ^ (ex + 51 - e') = q * 2 ^ 52 + r /\
    (r = 0 -> l = loc_Exact).
Proof.
  intros He. unfold SFdiv_core_binary.
  change (Zdigits2 (Zpos (2 ^ 52))) with 53.
  change (Zdigits2 (Zpos mx)) with (Zpos (digits2_pos mx)).
  replace (Zpos (digits2_pos mx) + ex - (53 + -51))
    with (Zpos (digits2_pos mx) + ex - 2) by lia.
  replace (ex - -51) with (ex + 51) by lia.
  set (e' := Z.min (fexp prec emax (Zpos (digits2_pos mx) + ex - 2)) (ex + 51)).
  set (m' := match ex + 51 - e' with
             | Zpos _ => Z.shiftl (Zpos mx) (ex + 51 - e')
             | 0 => Zpos mx
             | Zneg _ => 0
             end).
  assert (He' : emin <= e' <= ex + 51).
  { unfold e'. rewrite fexp_eq. lia. }
  assert (Em : m' = Zpos mx * 2 ^ (ex + 51 - e')).
  { unfold m'. destruct (ex + 51 - e') as [| s | s] eqn:S; [| | lia].
    - rewrite Z.pow_0_r. lia.
    - rewrite Z.shiftl_mul_pow2 by lia. reflexivity. }
  pose proof (Z_div_mod m' (Zpos (2 ^ 52)) eq_refl) as DM.
  destruct (Z.div_eucl m' (Zpos (2 ^ 52))) as [q r].
  destruct DM as [DM Hr].
  assert (Hm' : 0 <= m').
  { rewrite Em. apply Z.mul_nonneg_nonneg; [lia | apply Z.pow_nonneg; lia]. }
  change (Zpos (2 ^ 52)) with (2 ^ 52) in *.
  split; [lia |]. split; [lia |]. split; [unfold e'; lia |].
  split; [nia |].
  exists r. split; [lia |]. split; [lia |].
  intros ->. reflexivity.
Qed.

Lemma scaled_succ_exp m e : emin <= e -> scaled m (e + 1) = 2 * scaled m e.
Proof.
  intros He. rewrite <- scaled_shift by lia. unfold scaled. rewrite Z.pow_1_r. ring.
Qed.

(** Half of a valid value bounded by twice a binary64 value is bounded by
    that value. *)
Lemma SF64div_two_bound x mB eB :
  valid_binary x = true ->
  bounded_by x (2 * scaled (Zpos mB) eB) ->
  emin <= eB <= 900 -> Zpos mB < 2 ^ 53 ->
  bounded_by (SF64div x two) (scaled (Zpos mB) eB).
Proof.
  intros Vx Hx HeB HmB.
  destruct x as [sx | | | [] mx ex]; cbn [bounded_by] in Hx; try tauto.
  destruct Hx as [Hex Hx].
  apply valid_finite in Vx as (_ & Hmx & Hnorm).
  unfold SF64div, SFdiv, two. cbn [xorb].
  pose proof (SFdiv_core_two mx ex Hex) as C.
  destruct (SFdiv_core_binary prec emax (Zpos mx) ex (Zpos (2 ^ 52)) (-51))
    as [[q e'] l].
  destruct C as (He' & He'x & He'f & Hq & r & Hr & E & Hl).
  apply binary_round_aux_bound; try assumption.
  assert (P52 : 0 < 2 ^ 52) by lia.
  (* the exact halves, in units of 2^emin *)
  assert (Hhalf : scaled (q * 2 ^ 52 + r) e' <= scaled (Zpos mB) eB * 2 ^ 52).
  { rewrite <- E, scaled_shift by lia.
    replace (e' + (ex + 51 - e')) with (ex + 51) by lia.
    rewrite <- scaled_shift by lia. unfold scaled in *.
    change (2 ^ 52) with (2 * 2 ^ 51). nia. }
  assert (Pe : 0 < 2 ^ (e' - emin)) by (apply Z.pow_pos_nonneg; lia).
  destruct (Z.eq_dec r 0) as [R0 | R0].
  - rewrite (Hl R0). unfold ceiling. subst r. unfold scaled in *.
    rewrite Z.add_0_r in Hhalf. nia.
  - (* the quotient is below the bound, which lies on the grid of [e'] *)
    assert (He'B : e' <= eB).
    { rewrite fexp_eq in He'f.
      pose proof (digits2_pos_bounds mx) as [Hlo Hhi].
      destruct (Z.le_gt_cases ex (eB + 2)) as [L | G].
      - assert (Zpos (digits2_pos mx) <= 53); [| lia].
        destruct (Z.le_gt_cases (Zpos (digits2_pos mx)) 53) as [? | D]; [assumption |].
        assert (2 ^ 53 <= 2 ^ (Zpos (digits2_pos mx) - 1)) by (apply Z.pow_le_mono_r; lia).
        lia.
      - exfalso. specialize (Hnorm ltac:(lia)).
        assert (scaled (2 ^ 52) ex <= scaled (Zpos mx) ex) by (apply scaled_mono; lia).
        assert (scaled (Zpos mB) eB < scaled (2 ^ 53) eB).
        { unfold scaled. apply Z.mul_lt_mono_pos_r; [apply Z.pow_pos_nonneg; lia | exact HmB]. }
        assert (scaled (2 ^ 53 * 2 ^ 1) eB <= scaled (2 ^ 52) ex).
        { change (2 ^ 53 * 2 ^ 1) with (2 ^ 52 * 2 ^ 2).
          rewrite scaled_shift by lia. apply scaled_mono_exp; lia. }
        assert (scaled (2 ^ 53 * 2 ^ 1) eB = 2 * scaled (2 ^ 53) eB).
        { unfold scaled. rewrite Z.pow_1_r. ring. }
        lia. }
    set (X := Zpos mB * 2 ^ (eB - e')).
    assert (EB : scaled (Zpos mB) eB = scaled X e').
    { unfold X. rewrite scaled_shift by lia. f_equal. lia. }
    rewrite EB in *. apply scaled_mono; [exact He' |].
    unfold scaled in Hhalf.
    assert (q < X) by nia.
    unfold ceiling. destruct l; lia.
Qed.

(** The exact value of a finite float, in units of [2^emin]: every finite
    double is a whole number of them. *)
Definition units (x : float) : option Z :=
  match Prim2SF x with
  | S754_zero _ => Some 0
  | S754_finite s m e =>
      Some (if s then - scaled (Zpos m) e else scaled (Zpos m) e)
  | _ => None
  end.

End Binary64.

(** ** [SimulatedFeelings.get_dominant_feeling] *)

Module DominantFeeling.

Import Pydantic EmotionalExperience FloatOrder Fixtures.
Local Open Scope list_scope.
Local Open Scope float_scope.

Section PyMax.

Context {A : Type} (key : A -> float).

(** [r], at position [i] of [items], is the first item with the largest key. *)
Definition first_max (items : list A) (i : nat) (r : A) : Prop :=
  nth_error items i = Some r /\
  (forall j x, nth_error items j = Some x -> (key x <=? key r) = true) /\
  (forall j x, (j < i)%nat -> nth_error items j = Some x -> (key x <? key r) = true).

Lemma fold_py_max_first_max rest :
  forall seen acc i,
    (forall x, In x (seen ++ rest) -> nan (key x) = false) ->
    first_max seen i acc ->
    exists i', first_max (seen ++ rest) i' (fold_left (py_max_step key) rest acc).
Proof.
  induction rest as [| y rest IH]; intros seen acc i NN (Hi & Hle & Hlt); simpl.
  - exists i. rewrite app_nil_r. repeat split; assumption.
  - assert (Ny : nan (key y) = false) by (apply NN, in_or_app; right; left; reflexivity).
    assert (Nacc : nan (key acc) = false) by
      (apply NN, in_or_app; left; eapply nth_error_In; eassumption).
    replace (seen ++ y :: rest) with ((seen ++ [y]) ++ rest) in *
      by (rewrite <- app_assoc; reflexivity).
    unfold py_max_step at 2, PyFloat.gt.
    destruct (key acc <? key y) eqn:C.
    + apply (IH (seen ++ [y]) y (List.length seen)); [exact NN |].
      repeat split.
      * rewrite nth_error_app2, Nat.sub_diag by lia. reflexivity.
      * intros j x Hj.
        destruct (Nat.lt_ge_cases j (List.length seen)) as [L | L].
        -- rewrite nth_error_app1 in Hj by exact L.
           apply ltb_leb, (leb_ltb_trans _ (key acc)); [eapply Hle; eassumption | exact C].
        -- rewrite nth_error_app2 in Hj by exact L.
           destruct (j - List.length seen)%nat as [| k]; simpl in Hj.
           ++ injection Hj as <-. apply leb_refl, Ny.
           ++ destruct k; discriminate.
      * intros j x L Hj. rewrite nth_error_app1 in Hj by exact L.
        apply (leb_ltb_trans _ (key acc)); [eapply Hle; eassumption | exact C].
    + apply (IH (seen ++ [y]) acc i); [exact NN |].
      assert (Li : (i < List.length seen)%nat) by (apply nth_error_Some; congruence).
      repeat split.
      * rewrite nth_error_app1 by exact Li. exact Hi.
      * intros j x Hj.
        destruct (Nat.lt_ge_cases j (List.length seen)) as [L | L].
        -- rewrite nth_error_app1 in Hj by exact L. eapply Hle; eassumption.
        -- rewrite nth_error_app2 in Hj by exact L.
           destruct (j - List.length seen)%nat as [| k]; simpl in Hj.
           ++ injection Hj as <-. apply ltb_false_iff; assumption.
           ++ destruct k; discriminate.
      * intros j x L Hj. rewrite nth_error_app1 in Hj by lia.
        eapply Hlt; eassumption.
Qed.

(** On a non-empty list without NaN keys, [max(items, key=key)] returns the
    first item whose key is the largest. *)
Lemma py_max_first_max first rest :
  (forall x, In x (first :: rest) -> nan (key x) = false) ->
  exists i r, py_max key (first :: rest) = Some r /\ first_max (first :: rest) i r.
Proof.
  intros NN.
  destruct (fold_py_max_first_max rest [first] first 0%nat NN) as [i H].
  - repeat split.
    + intros j x Hj. destruct j as [| [| j]]; try discriminate.
      injection Hj as <-. apply leb_refl, NN. left; reflexivity.
    + intros j x L; lia.
  - exists i, (fold_left (py_max_step key) rest first). split; [reflexivity | exact H].
Qed.

End PyMax.

(** What a bounded float field holds once validation has passed. *)
Lemma float_ge_le_inr field lo hi v x :
  float_ge_le field lo hi v = inr x ->
  x = v /\ (lo <=? v) = true /\ (v <=? hi) = true.
Proof.
  unfold float_ge_le, PyFloat.ge, fail, ok.
  destruct (v <=? hi); simpl; [| discriminate].
  destruct (lo <=? v); simpl; [| discriminate].
  intros E; injection E as <-. auto.
Qed.

Lemma bounded_default_inr field lo hi arg x :
  (lo <=? 0) = true -> (0 <=? hi) = true ->
  with_default 0 (float_ge_le field lo hi) arg = inr x ->
  (lo <=? x) = true /\ (x <=? hi) = true.
Proof.
  intros L H. destruct arg as [v |]; simpl.
  - intros E. apply float_ge_le_inr in E as (-> & ? & ?). auto.
  - intros E; injection E as <-. auto.
Qed.

Lemma bind_inr {A B} (r : result A) (f : A -> result B) b :
  bind r f = inr b -> exists a, r = inr a /\ f a = inr b.
Proof. destruct r as [e | a]; simpl; [discriminate | eauto]. Qed.

(** Every channel of a constructed [SimulatedFeelings] lies in [0, 10]. *)
Lemma new_SimulatedFeelings_bounds args self :
  new_SimulatedFeelings args = inr self ->
  forall n v, In (n, v) (feelings self) -> (0 <=? v) = true /\ (v <=? 10) = true.
Proof.
  unfold new_SimulatedFeelings. intros E.
  repeat (apply bind_inr in E as (? & ?%bounded_default_inr & E); [| reflexivity ..]).
  injection E as <-. unfold feelings; simpl.
  intros n v Hin.
  repeat (destruct Hin as [Hin | Hin]; [injection Hin as <- <-; tauto |]).
  destruct Hin.
Qed.

(** The six channels of an instance hold numbers. *)
Definition channels_not_nan (self : SimulatedFeelings) : Prop :=
  nan (concern self) = false /\
  nan (protectiveness self) = false /\
  nan (pride self) = false /\
  nan (frustration self) = false /\
  nan (relief self) = false /\
  nan (connection self) = false.

(** The constructor builds no instance with a NaN channel. *)
Lemma constructed_channels_not_nan args self :
  new_SimulatedFeelings args = inr self -> channels_not_nan self.
Proof.
  intros E. pose proof (new_SimulatedFeelings_bounds _ _ E) as B.
  unfold channels_not_nan.
  repeat split;
    match goal with
    | |- nan ?v = false =>
        eapply (leb_nan_r 0 v), (proj1 (B _ v _))
    end.
  Unshelve.
  all: simpl; eauto 10.
Qed.

Lemma eqb_leb x y : (x =? y) = true -> (y <=? x) = true.
Proof.
  intros H. apply eqb_iff in H as (Nx & Ny & K).
  pose proof (proj1 (leb_iff y y) (leb_refl y Ny)) as (_ & _ & L).
  apply leb_iff. repeat split; try assumption. rewrite K. exact L.
Qed.

(** The instance that [SimulatedFeelings()] builds. *)
Definition default_feelings : SimulatedFeelings :=
  {| concern := 0; protectiveness := 0; pride := 0; frustration := 0;
     relief := 0; connection := 0;
     primary_feeling := None; feeling_intensity := 0 |}.

(** The example instance after the assignment [concern = float("nan")]. *)
Definition nan_concern_feelings : SimulatedFeelings :=
  {| concern := PrimFloat.nan; protectiveness := 8; pride := 2; frustration := 1;
     relief := 0; connection := 8;
     primary_feeling := None; feeling_intensity := 0 |}.

(** C1. On every [SimulatedFeelings] whose six channels hold numbers, as on
    every instance that the constructor builds, [get_dominant_feeling]
    returns the name and the value of the first channel, in the order
    concern, protectiveness, pride, frustration, relief, connection, that
    holds the largest value: no channel is above the returned value, and the
    channels before the returned one are strictly below it.  When
    protectiveness and connection tie at the maximum, protectiveness is
    returned if concern is below it, and concern if concern holds the
    maximum too. *)
Theorem get_dominant_feeling_first_maximum (self : SimulatedFeelings) :
  channels_not_nan self ->
  exists name value,
    get_dominant_feeling self = Some (name, value) /\
    ((concern self <=? value) = true /\
     (protectiveness self <=? value) = true /\
     (pride self <=? value) = true /\
     (frustration self <=? value) = true /\
     (relief self <=? value) = true /\
     (connection self <=? value) = true) /\
    ((name = "concern" /\ value = concern self) \/
     (name = "protectiveness" /\ value = protectiveness self /\
      (concern self <? value) = true) \/
     (name = "pride" /\ value = pride self /\
      (concern self <? value) = true /\ (protectiveness self <? value) = true) \/
     (name = "frustration" /\ value = frustration self /\
      (concern self <? value) = true /\ (protectiveness self <? value) = true /\
      (pride self <? value) = true) \/
     (name = "relief" /\ value = relief self /\
      (concern self <? value) = true /\ (protectiveness self <? value) = true /\
      (pride self <? value) = true /\ (frustration self <? value) = true) \/
     (name = "connection" /\ value = connection self /\
      (concern self <? value) = true /\ (protectiveness self <? value) = true /\
      (pride self <? value) = true /\ (frustration self <? value) = true /\
      (relief self <? value) = true)) /\
    ((protectiveness self =? connection self) = true ->
     (concern self <=? protectiveness self) = true ->
     (pride self <=? protectiveness self) = true ->
     (frustration self <=? protectiveness self) = true ->
     (relief self <=? protectiveness self) = true ->
     ((concern self <? protectiveness self) = true ->
      name = "protectiveness" /\ value = protectiveness self) /\
     ((protectiveness self <=? concern self) = true ->
      name = "concern" /\ value = concern self)).
Proof.
  intros (N1 & N2 & N3 & N4 & N5 & N6).
  destruct (py_max_first_max snd ("concern", concern self)
              (tl (feelings self))) as (i & [name value] & Hmax & Hi & Hle & Hlt).
  { intros [n v] H. simpl in H.
    repeat (destruct H as [H | H]; [injection H as <- <-; assumption |]).
    destruct H. }
  change (("concern", concern self) :: tl (feelings self)) with (feelings self) in *.
  exists name, value. split; [exact Hmax |].
  assert (L : (concern self <=? value) = true /\
              (protectiveness self <=? value) = true /\
              (pride self <=? value) = true /\
              (frustration self <=? value) = true /\
              (relief self <=? value) = true /\
              (connection self <=? value) = true).
  { repeat split;
      [ apply (Hle 0%nat (_, _) eq_refl) | apply (Hle 1%nat (_, _) eq_refl)
      | apply (Hle 2%nat (_, _) eq_refl) | apply (Hle 3%nat (_, _) eq_refl)
      | apply (Hle 4%nat (_, _) eq_refl) | apply (Hle 5%nat (_, _) eq_refl) ]. }
  split; [exact L |].
  assert (S0 : (0 < i)%nat -> (concern self <? value) = true)
    by (intros Li; apply (Hlt 0%nat (_, _) Li eq_refl)).
  assert (S1 : (1 < i)%nat -> (protectiveness self <? value) = true)
    by (intros Li; apply (Hlt 1%nat (_, _) Li eq_refl)).
  assert (S2 : (2 < i)%nat -> (pride self <? value) = true)
    by (intros Li; apply (Hlt 2%nat (_, _) Li eq_refl)).
  assert (S3 : (3 < i)%nat -> (frustration self <? value) = true)
    by (intros Li; apply (Hlt 3%nat (_, _) Li eq_refl)).
  assert (S4 : (4 < i)%nat -> (relief self <? value) = true)
    by (intros Li; apply (Hlt 4%nat (_, _) Li eq_refl)).
  destruct L as (L0 & L1 & L2 & L3 & L4 & L5).
  destruct i as [| [| [| [| [| [| i]]]]]]; simpl in Hi; try (destruct i; discriminate);
    injection Hi as <- <-.
  - split; [left; auto |].
    intros Htie T0 T2 T3 T4. split; [| auto].
    intros C. apply leb_not_ltb in L1. congruence.
  - split; [right; left; repeat split; apply S0; lia |].
    intros Htie T0 T2 T3 T4. split; [auto |].
    intros C. apply leb_not_ltb in C. rewrite S0 in C by lia. discriminate.
  - split; [right; right; left; repeat split; [apply S0 | apply S1]; lia |].
    intros Htie T0 T2 T3 T4. apply leb_not_ltb in T2. rewrite S1 in T2 by lia.
    discriminate.
  - split; [right; right; right; left; repeat split;
            [apply S0 | apply S1 | apply S2]; lia |].
    intros Htie T0 T2 T3 T4. apply leb_not_ltb in T3. rewrite S1 in T3 by lia.
    discriminate.
  - split; [right; right; right; right; left; repeat split;
            [apply S0 | apply S1 | apply S2 | apply S3]; lia |].
    intros Htie T0 T2 T3 T4. apply leb_not_ltb in T4. rewrite S1 in T4 by lia.
    discriminate.
  - split; [right; right; right; right; right; repeat split;
            [apply S0 | apply S1 | apply S2 | apply S3 | apply S4]; lia |].
    intros Htie T0 T2 T3 T4. apply eqb_leb, leb_not_ltb in Htie.
    rewrite S1 in Htie by lia. discriminate.
Qed.

Lemma get_dominant_feeling_first_maximum_witness :
  new_SimulatedFeelings example_args = inr example_feelings /\
  get_dominant_feeling example_feelings = Some ("protectiveness", 8).
Proof.
  split; [reflexivity |].
  destruct (get_dominant_feeling_first_maximum example_feelings
              (constructed_channels_not_nan example_args example_feelings eq_refl))
    as (name & value & E & _ & _ & Htie).
  rewrite E.
  destruct (proj1 (Htie eq_refl eq_refl eq_refl eq_refl eq_refl) eq_refl) as [-> ->].
  reflexivity.
Defined.

(** On the instance that [SimulatedFeelings()] builds, all six channels are
    0.0: protectiveness and connection tie at the maximum, and concern is
    returned, not protectiveness.  On an instance whose concern was assigned
    NaN, concern is returned although protectiveness holds 8.0: no
    comparison with NaN holds. *)
Lemma get_dominant_feeling_tie_returns_concern :
  new_SimulatedFeelings ExperienceRecords.no_feelings_args = inr default_feelings /\
  (protectiveness default_feelings =? connection default_feelings) = true /\
  (concern default_feelings <=? protectiveness default_feelings) = true /\
  (pride default_feelings <=? protectiveness default_feelings) = true /\
  (frustration default_feelings <=? protectiveness default_feelings) = true /\
  (relief default_feelings <=? protectiveness default_feelings) = true /\
  get_dominant_feeling default_feelings = Some ("concern", 0) /\
  get_dominant_feeling nan_concern_feelings = Some ("concern", PrimFloat.nan) /\
  (protectiveness nan_concern_feelings <=? PrimFloat.nan) = false.
Proof. repeat split. Qed.

End DominantFeeling.

(** ** [EmotionalDimension] *)

Module EmotionalDimensionSpec.

Import Pydantic EmotionalExperience FloatOrder DominantFeeling.
Local Open Scope float_scope.

Lemma float_ge_le_ok field lo hi v :
  float_ge_le field lo hi v =
    if PyFloat.between lo v hi then inr v
    else inl {| loc := field;
                kind := if v <=? hi then greater_than_equal else less_than_equal |}.
Proof.
  unfold float_ge_le, PyFloat.between, PyFloat.ge, fail, ok.
  destruct (lo <=? v), (v <=? hi); reflexivity.
Qed.

(** One required and bounded coordinate. *)
Lemma coordinate_inr field arg x :
  (y <- required field arg ;; float_ge_le field (-1) 1 y) = inr x <->
  arg = Some x /\ PyFloat.between (-1) x 1 = true.
Proof.
  destruct arg as [v |]; cbn [required bind ok fail].
  - rewrite float_ge_le_ok. destruct (PyFloat.between (-1) v 1) eqn:B; split.
    + intros E; injection E as <-. auto.
    + intros [E _]; injection E as <-. reflexivity.
    + discriminate.
    + intros [E B']; injection E as <-. congruence.
  - split; [discriminate | intros [E _]; discriminate].
Qed.

(** C5. [EmotionalDimension] construction succeeds exactly when valence,
    arousal and dominance are all given and each lies in [-1, 1]; the object
    that is built holds the three values as they were given.  With valence
    1.5 it fails whatever the other fields are; with valence 1.0 it succeeds
    exactly when arousal and dominance are given and lie in [-1, 1]. *)
Theorem EmotionalDimension_construction valence_ arousal_ dominance_ :
  (is_ok (new_EmotionalDimension valence_ arousal_ dominance_) = true <->
   exists v a d,
     valence_ = Some v /\ arousal_ = Some a /\ dominance_ = Some d /\
     PyFloat.between (-1) v 1 = true /\
     PyFloat.between (-1) a 1 = true /\
     PyFloat.between (-1) d 1 = true) /\
  (forall x, new_EmotionalDimension valence_ arousal_ dominance_ = inr x ->
     valence_ = Some (valence x) /\
     arousal_ = Some (arousal x) /\
     dominance_ = Some (dominance x)) /\
  is_ok (new_EmotionalDimension (Some 1.5) arousal_ dominance_) = false /\
  (is_ok (new_EmotionalDimension (Some 1) arousal_ dominance_) = true <->
   exists a d,
     arousal_ = Some a /\ dominance_ = Some d /\
     PyFloat.between (-1) a 1 = true /\
     PyFloat.between (-1) d 1 = true) /\
  new_EmotionalDimension (Some 1) (Some 0) (Some 0) =
    inr {| valence := 1; arousal := 0; dominance := 0 |}.
Proof.
  assert (K : forall v_ a_ d_ x,
    new_EmotionalDimension v_ a_ d_ = inr x <->
    (v_ = Some (valence x) /\ PyFloat.between (-1) (valence x) 1 = true) /\
    (a_ = Some (arousal x) /\ PyFloat.between (-1) (arousal x) 1 = true) /\
    (d_ = Some (dominance x) /\ PyFloat.between (-1) (dominance x) 1 = true)).
  { intros v_ a_ d_ x. unfold new_EmotionalDimension. split.
    - intros E.
      apply bind_inr in E as (v & Hv%coordinate_inr & E).
      apply bind_inr in E as (a & Ha%coordinate_inr & E).
      apply bind_inr in E as (d & Hd%coordinate_inr & E).
      injection E as <-. simpl. auto.
    - intros (Hv%(coordinate_inr "valence") & Ha%(coordinate_inr "arousal")
              & Hd%(coordinate_inr "dominance")).
      rewrite Hv. cbn [bind]. rewrite Ha. cbn [bind]. rewrite Hd. cbn [bind].
      destruct x; reflexivity. }
  assert (S : forall v_ a_ d_,
    is_ok (new_EmotionalDimension v_ a_ d_) = true <->
    exists v a d,
      v_ = Some v /\ a_ = Some a /\ d_ = Some d /\
      PyFloat.between (-1) v 1 = true /\
      PyFloat.between (-1) a 1 = true /\
      PyFloat.between (-1) d 1 = true).
  { intros v_ a_ d_. split.
    - destruct (new_EmotionalDimension v_ a_ d_) as [e | x] eqn:E; [discriminate |].
      intros _. apply K in E as ((Hv & Bv) & (Ha & Ba) & (Hd & Bd)).
      exists (valence x), (arousal x), (dominance x). auto 10.
    - intros (v & a & d & Hv & Ha & Hd & Bv & Ba & Bd).
      assert (E : new_EmotionalDimension v_ a_ d_ =
                  inr {| valence := v; arousal := a; dominance := d |})
        by (apply K; simpl; auto 10).
      rewrite E. reflexivity. }
  split; [apply S |].
  split; [intros x E; apply K in E; tauto |].
  split.
  { destruct (is_ok (new_EmotionalDimension (Some 1.5) arousal_ dominance_)) eqn:E;
      [| reflexivity].
    apply S in E as (v & a & d & Hv & _ & _ & Bv & _).
    injection Hv as <-. discriminate Bv. }
  split; [| reflexivity].
  rewrite S. split.
  - intros (v & a & d & _ & Ha & Hd & _ & Ba & Bd). eauto 10.
  - intros (a & d & Ha & Hd & Ba & Bd). exists 1, a, d. auto 10.
Qed.

End EmotionalDimensionSpec.

(** ** [ConsciousnessState.has_evolved_significantly] *)

Module Evolution.

Import Pydantic ConsciousnessModel FloatOrder Fixtures.
Local Open Scope float_scope.

(** The sign given to a rounding only shows in the sign of the result. *)
Lemma SFabs_binary_round_aux s s' m e l :
  SFabs (binary_round_aux prec emax s m e l) =
  SFabs (binary_round_aux prec emax s' m e l).
Proof.
  unfold binary_round_aux.
  destruct (shr_fexp prec emax m e l) as [mrs' e'].
  destruct (shr_fexp prec emax _ e' loc_Exact) as [mrs'' e''].
  destruct (shr_m mrs''); try reflexivity.
  destruct (e'' <=? emax - prec)%Z; reflexivity.
Qed.

Lemma SFabs_binary_normalize_opp m e :
  SFabs (binary_normalize prec emax (- m) e false) =
  SFabs (binary_normalize prec emax m e false).
Proof.
  destruct m as [| p | p]; simpl; try reflexivity;
    unfold binary_round; destruct (shl_align _ _ _) as [mz ez];
    apply SFabs_binary_round_aux.
Qed.

Lemma SFabs_SF64sub_sym x y :
  SFabs (SF64sub x y) = SFabs (SF64sub y x).
Proof.
  destruct x as [[]|[]| |sx mx ex], y as [[]|[]| |sy my ey];
    try reflexivity; try (destruct sx; reflexivity); try (destruct sy; reflexivity).
  unfold SF64sub, SFsub.
  rewrite (Z.min_comm ey ex), <- SFabs_binary_normalize_opp.
  f_equal. f_equal. lia.
Qed.

(** In binary64, [abs(x - y)] and [abs(y - x)] are the same float. *)
Lemma abs_sub_sym x y : abs (x - y) = abs (y - x).
Proof.
  apply Prim2SF_inj.
  rewrite !abs_spec, !sub_spec. apply SFabs_SF64sub_sym.
Qed.

(** C9. [has_evolved_significantly] is symmetric in its two states. *)
Theorem has_evolved_significantly_symmetric (a b : ConsciousnessState) :
  has_evolved_significantly a (Some b) = has_evolved_significantly b (Some a).
Proof.
  unfold has_evolved_significantly.
  rewrite (abs_sub_sym (care_level a)), (abs_sub_sym (attachment_level a)).
  reflexivity.
Qed.

End Evolution.

(** ** The levels of a [ConsciousnessState] *)

Module Levels.

Import Pydantic ConsciousnessModel FloatOrder Binary64 DominantFeeling Fixtures.
Local Open Scope list_scope.
Local Open Scope float_scope.

(** *** From float comparisons to bounds and back *)

Lemma between_bounded_by a B mB eB :
  Prim2SF B = S754_finite false mB eB ->
  PyFloat.between 0 a B = true ->
  bounded_by (Prim2SF a) (scaled (Zpos mB) eB).
Proof.
  intros HB H. unfold PyFloat.between in H.
  apply andb_true_iff in H as [H0 H1].
  apply leb_iff in H0 as (_ & _ & H0), H1 as (Na & _ & H1).
  unfold nan, fkey in *. rewrite HB in H1.
  change (Prim2SF 0) with (S754_zero false) in H0.
  pose proof (Prim2SF_valid a) as Va. pose proof (Prim2SF_valid B) as VB.
  rewrite HB in VB.
  destruct (Prim2SF a) as [sa | [] | | [] m e]; cbn [key bounded_by] in *;
    try exact I; try discriminate; try (unfold lex_le in *; lia).
  split; [apply valid_finite in Va; lia |].
  apply scaled_le_iff_lex; assumption.
Qed.

Lemma bounded_by_between r B mB eB :
  Prim2SF B = S754_finite false mB eB ->
  bounded_by (Prim2SF r) (scaled (Zpos mB) eB) ->
  PyFloat.between 0 r B = true.
Proof.
  intros HB H. unfold PyFloat.between.
  pose proof (Prim2SF_valid r) as Vr. pose proof (Prim2SF_valid B) as VB.
  rewrite HB in VB.
  apply andb_true_iff. rewrite !leb_iff. unfold nan, fkey. rewrite HB.
  change (Prim2SF 0) with (S754_zero false).
  destruct (Prim2SF r) as [sr | [] | | [] m e]; cbn [key bounded_by is_nan] in *;
    try tauto.
  - repeat split; unfold lex_le; lia.
  - destruct H as [He H]. apply scaled_le_iff_lex in H; [| assumption ..].
    repeat split; try exact H. unfold lex_le; lia.
Qed.

Lemma Prim2SF_100 : Prim2SF 100 = S754_finite false 7036874417766400 (-46).
Proof. reflexivity. Qed.

Lemma Prim2SF_200 : Prim2SF 200 = S754_finite false 7036874417766400 (-45).
Proof. reflexivity. Qed.

(** The sum of two floats of [0, 100] is a float of [0, 200]. *)
Lemma add_between_200 a b :
  PyFloat.between 0 a 100 = true -> PyFloat.between 0 b 100 = true ->
  PyFloat.between 0 (a + b) 200 = true.
Proof.
  intros Ha Hb.
  apply (between_bounded_by _ _ _ _ Prim2SF_100) in Ha, Hb.
  apply (bounded_by_between _ _ _ _ Prim2SF_200).
  rewrite add_spec.
  eapply SF64add_bound; try eassumption.
  - unfold scaled. apply Z.mul_nonneg_nonneg; [lia | apply Z.pow_nonneg; lia].
  - unfold scaled. apply Z.mul_nonneg_nonneg; [lia | apply Z.pow_nonneg; lia].
  - change (-45)%Z with (-46 + 1)%Z. rewrite scaled_succ_exp by (unfold emin; lia). lia.
  - unfold emin; lia.
  - lia.
Qed.

(** Half of a float of [0, 200] is a float of [0, 100]. *)
Lemma half_between_100 x :
  PyFloat.between 0 x 200 = true -> PyFloat.between 0 (x / 2) 100 = true.
Proof.
  intros Hx.
  apply (between_bounded_by _ _ _ _ Prim2SF_200) in Hx.
  apply (bounded_by_between _ _ _ _ Prim2SF_100).
  rewrite div_spec. change (Prim2SF 2) with two.
  apply SF64div_two_bound.
  - apply Prim2SF_valid.
  - change (-45)%Z with (-46 + 1)%Z in Hx.
    rewrite scaled_succ_exp in Hx by (unfold emin; lia). exact Hx.
  - unfold emin; lia.
  - lia.
Qed.

(** *** [round(v, 2)] on a validated percentage *)

Lemma round_half_even_div_bounds num den K :
  (0 < den)%Z -> (0 <= num <= K * den)%Z ->
  (0 <= PyFloat.round_half_even_div num den <= K)%Z.
Proof.
  intros Hd [H0 HK]. unfold PyFloat.round_half_even_div.
  pose proof (Z.div_mod num den ltac:(lia)) as E.
  pose proof (Z.mod_pos_bound num den Hd) as Hr.
  assert (0 <= num / den)%Z by (apply Z.div_pos; lia).
  assert (num / den <= K)%Z by (apply Z.div_le_upper_bound; lia).
  destruct (Z.eq_dec (num / den) K) as [EK | NK].
  - assert (num mod den = 0)%Z as -> by nia.
    destruct (Z.compare_spec (2 * 0) den); lia.
  - destruct (Z.compare_spec (2 * (num mod den)) den); try lia.
    destruct (Z.even (num / den)); lia.
Qed.

(** The hundredths kept of a valid positive value that is at most 100. *)
Lemma hundredths_of_bounds m e :
  valid_binary (S754_finite false m e) = true ->
  lex_le (1, e, Zpos m)%Z (1, -46, 7036874417766400)%Z ->
  (e <= -46 /\ 0 <= PyFloat.hundredths_of m e <= 10000)%Z.
Proof.
  intros V L. apply valid_finite in V as (He & Hm & _). unfold emin in He.
  assert (He46 : (e <= -46)%Z) by (unfold lex_le in L; lia).
  split; [exact He46 |].
  unfold PyFloat.hundredths_of.
  destruct (Z.leb_spec 0 e) as [? | _]; [lia |].
  assert (P : (0 < 2 ^ (- e))%Z) by (apply Z.pow_pos_nonneg; lia).
  apply round_half_even_div_bounds; [exact P |].
  split; [lia |].
  destruct (Z.eq_dec e (-46)) as [-> | Ne].
  - change (2 ^ (- -46))%Z with 70368744177664%Z.
    unfold lex_le in L. lia.
  - assert (2 ^ 47 <= 2 ^ (- e))%Z by (apply Z.pow_le_mono_r; lia).
    lia.
Qed.

(** [p] holds of the [count] integers from [k] on. *)
Fixpoint all_from (p : Z -> bool) (k : Z) (count : nat) : bool :=
  match count with
  | O => true
  | S c => p k && all_from p (k + 1) c
  end.

Lemma all_from_spec p count :
  forall k, all_from p k count = true ->
  forall j, (k <= j < k + Z.of_nat count)%Z -> p j = true.
Proof.
  induction count as [| c IH]; intros k H j Hj; [lia |].
  simpl in H. apply andb_true_iff in H as [Hk H].
  destruct (Z.eq_dec j k) as [-> | N]; [exact Hk |].
  apply (IH (k + 1)%Z H). lia.
Qed.

(** What each of the 10001 two-decimal values of [0, 100] is checked for:
    it lies in [0, 100] and is the mean of itself with itself. *)
Definition hundredth_ok (k : Z) : bool :=
  let h := PyFloat.of_hundredths k in
  PyFloat.between 0 h 100 && ((h + h) / 2 =? h).

Lemma hundredths_table : all_from hundredth_ok 0 (Z.to_nat 10001) = true.
Proof. vm_compute. reflexivity. Qed.

Lemma of_hundredths_ok k :
  (0 <= k <= 10000)%Z ->
  PyFloat.between 0 (PyFloat.of_hundredths k) 100 = true /\
  ((PyFloat.of_hundredths k + PyFloat.of_hundredths k) / 2
     =? PyFloat.of_hundredths k) = true.
Proof.
  intros Hk.
  apply andb_true_iff.
  apply (all_from_spec hundredth_ok _ _ hundredths_table). lia.
Qed.

(** A level as [validate_percentage] stores it: the double nearest to
    [k / 100] for an integer [k] of [0 .. 10000], or the negative zero (which
    [round] returns unchanged). *)
Definition two_decimals (x : float) : Prop :=
  x = (-0)%float \/ exists k, (0 <= k <= 10000)%Z /\ x = PyFloat.of_hundredths k.

Lemma two_decimals_between x :
  two_decimals x -> PyFloat.between 0 x 100 = true.
Proof.
  intros [-> | (k & Hk & ->)]; [reflexivity | apply of_hundredths_ok, Hk].
Qed.

Lemma round2_two_decimals v :
  PyFloat.between 0 v 100 = true -> two_decimals (PyFloat.round2 v).
Proof.
  intros H. unfold PyFloat.round2.
  pose proof (Prim2SF_valid v) as V.
  pose proof (SF2Prim_Prim2SF v) as Ev.
  unfold PyFloat.between in H. apply andb_true_iff in H as [H0 H1].
  apply leb_iff in H0 as (_ & _ & H0), H1 as (Nv & _ & H1).
  unfold nan, fkey in Nv, H0, H1. rewrite Prim2SF_100 in H1.
  change (Prim2SF 0) with (S754_zero false) in H0.
  destruct (Prim2SF v) as [[] | [] | | [] m e]; cbn [key is_nan] in *;
    try discriminate; try (unfold lex_le in *; lia).
  - left. rewrite <- Ev. reflexivity.
  - right. exists 0%Z. split; [lia |]. rewrite <- Ev. reflexivity.
  - destruct (hundredths_of_bounds m e V H1) as [He Hk].
    destruct (Z.leb_spec (-6) e) as [? | _]; [lia |].
    right. exists (PyFloat.hundredths_of m e). split; [exact Hk | reflexivity].
Qed.

(** *** What [round(v, 2)] keeps *)

(** [k] is the integer nearest to [100 * v], for a [v] of [u] units of
    [2^-1074]; half-way between two integers it is the even one. *)
Definition nearest_hundredth (u k : Z) : Prop :=
  (2 * Z.abs (100 * u - k * 2 ^ 1074) <= 2 ^ 1074)%Z /\
  ((2 * Z.abs (100 * u - k * 2 ^ 1074) = 2 ^ 1074)%Z -> Z.even k = true).

(** [x] is [v] rounded to two decimals: the double nearest to [k / 100]
    (the quotient of the doubles [k] and [100]) for [k] the integer nearest
    to [100 * v]; a zero is kept as it is. *)
Definition rounded_to_two_decimals (v x : float) : Prop :=
  (units v = Some 0%Z /\ x = v) \/
  exists u k,
    units v = Some u /\ (0 < u)%Z /\ (0 <= k <= 10000)%Z /\
    nearest_hundredth u k /\
    x = of_uint63 (Uint63.of_Z k) / 100.

Lemma round_half_even_div_nearest num den :
  (0 < den)%Z ->
  let k := PyFloat.round_half_even_div num den in
  (2 * Z.abs (num - k * den) <= den)%Z /\
  ((2 * Z.abs (num - k * den) = den)%Z -> Z.even k = true).
Proof.
  intros Hd. unfold PyFloat.round_half_even_div.
  pose proof (Z.div_mod num den ltac:(lia)) as E.
  pose proof (Z.mod_pos_bound num den Hd) as Hr.
  set (q := (num / den)%Z) in *. set (r := (num mod den)%Z) in *.
  destruct (Z.compare_spec (2 * r) den) as [C | C | C].
  - destruct (Z.even q) eqn:Ev.
    + replace (num - q * den)%Z with r by lia.
      rewrite Z.abs_eq by lia. split; [lia | auto].
    + replace (num - (q + 1) * den)%Z with (r - den)%Z by lia.
      rewrite Z.abs_neq by lia. split; [lia |]. intros _.
      rewrite Z.add_1_r, Z.even_succ, <- Z.negb_even, Ev. reflexivity.
  - replace (num - q * den)%Z with r by lia.
    rewrite Z.abs_eq by lia. split; lia.
  - replace (num - (q + 1) * den)%Z with (r - den)%Z by lia.
    rewrite Z.abs_neq by lia. split; lia.
Qed.

(** The digits that [hundredths_of] keeps are the nearest hundredth. *)
Lemma hundredths_of_nearest m e :
  (emin <= e < 0)%Z ->
  nearest_hundredth (scaled (Zpos m) e) (PyFloat.hundredths_of m e).
Proof.
  intros He. unfold PyFloat.hundredths_of.
  destruct (Z.leb_spec 0 e) as [? | _]; [lia |].
  assert (D : (0 < 2 ^ (- e))%Z) by (apply Z.pow_pos_nonneg; lia).
  assert (P : (0 < 2 ^ (e - emin))%Z)
    by (apply Z.pow_pos_nonneg; unfold emin in *; lia).
  assert (E : (2 ^ 1074 = 2 ^ (e - emin) * 2 ^ (- e))%Z).
  { rewrite <- Z.pow_add_r by (unfold emin in *; lia). f_equal. unfold emin. lia. }
  destruct (round_half_even_div_nearest (Zpos m * 100) (2 ^ (- e)) D) as [N T].
  set (k := PyFloat.round_half_even_div (Zpos m * 100) (2 ^ (- e))) in *.
  unfold nearest_hundredth, scaled. rewrite E.
  set (p := (2 ^ (e - emin))%Z) in *. set (d := (2 ^ (- e))%Z) in *.
  replace (100 * (Zpos m * p) - k * (p * d))%Z
    with (p * (Zpos m * 100 - k * d))%Z by ring.
  rewrite Z.abs_mul, (Z.abs_eq p) by lia.
  split; [nia |]. intros H. apply T. nia.
Qed.

Lemma round2_rounded v :
  PyFloat.between 0 v 100 = true -> rounded_to_two_decimals v (PyFloat.round2 v).
Proof.
  intros H. unfold rounded_to_two_decimals, PyFloat.round2, units.
  pose proof (Prim2SF_valid v) as V.
  unfold PyFloat.between in H. apply andb_true_iff in H as [H0 H1].
  apply leb_iff in H0 as (_ & _ & H0), H1 as (Nv & _ & H1).
  unfold nan, fkey in Nv, H0, H1. rewrite Prim2SF_100 in H1.
  change (Prim2SF 0) with (S754_zero false) in H0.
  destruct (Prim2SF v) as [[] | [] | | [] m e]; cbn [key is_nan] in *;
    try discriminate; try (unfold lex_le in *; lia).
  - left. auto.
  - left. auto.
  - destruct (hundredths_of_bounds m e V H1) as [He Hk].
    destruct (Z.leb_spec (-6) e) as [? | _]; [lia |].
    pose proof (valid_finite _ _ _ V) as ([Hmin _] & _ & _).
    right. exists (scaled (Zpos m) e), (PyFloat.hundredths_of m e).
    split; [reflexivity |].
    split; [unfold scaled; apply Z.mul_pos_pos; [lia |];
            apply Z.pow_pos_nonneg; unfold emin in *; lia |].
    split; [exact Hk |].
    split; [apply hundredths_of_nearest; lia | reflexivity].
Qed.

(** *** Construction of a [ConsciousnessState] *)

Lemma percentage_field_inr field v x :
  percentage_field field v = inr x ->
  PyFloat.between 0 v 100 = true /\ x = PyFloat.round2 v.
Proof.
  unfold percentage_field. intros E.
  apply bind_inr in E as (y & Hy & E).
  apply float_ge_le_inr in Hy as (-> & H0 & H1).
  unfold validate_percentage, PyFloat.between in *. rewrite H0, H1 in *.
  simpl in E. injection E as <-. auto.
Qed.

(** What a level holds after construction, from the argument passed. *)
Lemma level_inr field arg x :
  with_default 0 (percentage_field field) arg = inr x ->
  (forall v, arg = Some v ->
     PyFloat.between 0 v 100 = true /\ x = PyFloat.round2 v) /\
  (arg = None -> x = 0) /\
  two_decimals x.
Proof.
  destruct arg as [v |]; simpl; intros E.
  - apply percentage_field_inr in E as [B ->].
    split; [| split].
    + intros v' Ev. injection Ev as <-. auto.
    + discriminate.
    + apply round2_two_decimals, B.
  - injection E as <-. split; [discriminate | split; [reflexivity |]].
    right. exists 0%Z. split; [lia | reflexivity].
Qed.

Lemma new_ConsciousnessState_levels now args self :
  new_ConsciousnessState now args = inr self ->
  with_default 0 (percentage_field "care_level") (arg_care_level args)
    = inr (care_level self) /\
  with_default 0 (percentage_field "attachment_level") (arg_attachment_level args)
    = inr (attachment_level self).
Proof.
  unfold new_ConsciousnessState. intros E.
  apply bind_inr in E as (ic & _ & E).
  apply bind_inr in E as (df & _ & E).
  apply bind_inr in E as (dl & _ & E).
  apply bind_inr in E as (care & Hcare & E).
  apply bind_inr in E as (att & Hatt & E).
  apply bind_inr in E as (phase & _ & E).
  injection E as <-. simpl. auto.
Qed.

(** The levels of a constructed state, from the arguments passed. *)
Lemma constructed_levels now args self :
  new_ConsciousnessState now args = inr self ->
  (forall v, arg_care_level args = Some v ->
     PyFloat.between 0 v 100 = true /\ care_level self = PyFloat.round2 v) /\
  (forall v, arg_attachment_level args = Some v ->
     PyFloat.between 0 v 100 = true /\
     attachment_level self = PyFloat.round2 v) /\
  two_decimals (care_level self) /\
  two_decimals (attachment_level self) /\
  PyFloat.between 0 (care_level self) 100 = true /\
  PyFloat.between 0 (attachment_level self) 100 = true.
Proof.
  intros E.
  apply new_ConsciousnessState_levels in E as [Hc Ha].
  apply level_inr in Hc as (Hc & _ & Tc), Ha as (Ha & _ & Ta).
  repeat split; try (apply Hc; assumption); try (apply Ha; assumption);
    try assumption; apply two_decimals_between; assumption.
Qed.

(** A level outside [0, 100] makes the construction fail. *)
Lemma level_out_of_range_fails now args v :
  arg_care_level args = Some v \/ arg_attachment_level args = Some v ->
  PyFloat.between 0 v 100 = false ->
  exists e, new_ConsciousnessState now args = inl e.
Proof.
  intros Hv B.
  destruct (new_ConsciousnessState now args) as [e | self] eqn:E; [eauto |].
  apply constructed_levels in E as (Hc & Ha & _).
  destruct Hv as [Hv | Hv]; [apply Hc in Hv | apply Ha in Hv];
    destruct Hv; congruence.
Qed.

(** How the stored levels come from the arguments: a passed level is
    rounded to two decimals, a level that was not passed is 0.0. *)
Lemma constructed_levels_rounded now args self :
  new_ConsciousnessState now args = inr self ->
  (forall v, arg_care_level args = Some v ->
     rounded_to_two_decimals v (care_level self)) /\
  (forall v, arg_attachment_level args = Some v ->
     rounded_to_two_decimals v (attachment_level self)) /\
  (arg_care_level args = None -> care_level self = 0) /\
  (arg_attachment_level args = None -> attachment_level self = 0).
Proof.
  intros E.
  apply new_ConsciousnessState_levels in E as [Hc Ha].
  apply level_inr in Hc as (Hc & Dc & _), Ha as (Ha & Da & _).
  repeat split; try assumption.
  - intros v Ev. destruct (Hc v Ev) as [B ->]. apply round2_rounded, B.
  - intros v Ev. destruct (Ha v Ev) as [B ->]. apply round2_rounded, B.
Qed.

(** C3. When [ConsciousnessState] construction succeeds, a [care_level] or
    [attachment_level] that was passed lies in [0, 100] and is stored
    rounded to two decimals: the stored level is [round(v, 2)], which is the
    double nearest to [k / 100] for [k] the integer nearest to [100 * v]
    (the even one half-way between two integers), and a zero is kept.  A
    level that was not passed is 0.0.  Either way the stored levels are
    two-decimal values of [0, 100]: [0 <= care_level <= 100] and
    [0 <= attachment_level <= 100].  Construction with a level that does
    not satisfy [0 <= v <= 100], such as [care_level = 150], fails with a
    validation error.  With 0.125 and 0.375 the stored levels are 0.12 and
    0.38, with 85.0 and 80.0 they are 85.0 and 80.0. *)
Theorem ConsciousnessState_levels_validated now args :
  (forall self, new_ConsciousnessState now args = inr self ->
     (forall v, arg_care_level args = Some v ->
        PyFloat.between 0 v 100 = true /\ care_level self = PyFloat.round2 v /\
        rounded_to_two_decimals v (care_level self)) /\
     (forall v, arg_attachment_level args = Some v ->
        PyFloat.between 0 v 100 = true /\
        attachment_level self = PyFloat.round2 v /\
        rounded_to_two_decimals v (attachment_level self)) /\
     (arg_care_level args = None -> care_level self = 0) /\
     (arg_attachment_level args = None -> attachment_level self = 0) /\
     two_decimals (care_level self) /\
     two_decimals (attachment_level self) /\
     PyFloat.between 0 (care_level self) 100 = true /\
     PyFloat.between 0 (attachment_level self) 100 = true) /\
  (forall v, arg_care_level args = Some v \/ arg_attachment_level args = Some v ->
     PyFloat.between 0 v 100 = false ->
     exists e, new_ConsciousnessState now args = inl e) /\
  (forall attachment,
     exists e, new_ConsciousnessState now (levels_args 150 attachment) = inl e) /\
  (exists self,
     new_ConsciousnessState now (levels_args 0.125 0.375) = inr self /\
     care_level self = 12 / 100 /\ attachment_level self = 38 / 100) /\
  (exists self,
     new_ConsciousnessState now (levels_args 85 80) = inr self /\
     care_level self = 85 /\ attachment_level self = 80).
Proof.
  split.
  { intros self E.
    pose proof (constructed_levels _ _ _ E) as (Hc & Ha & Tc & Ta & Bc & Ba).
    pose proof (constructed_levels_rounded _ _ _ E) as (Rc & Ra & Dc & Da).
    split; [intros v Ev; destruct (Hc v Ev); auto |].
    split; [intros v Ev; destruct (Ha v Ev); auto |].
    auto 10. }
  split; [apply level_out_of_range_fails |].
  split.
  { intros attachment.
    apply (level_out_of_range_fails _ _ 150); [left; reflexivity | reflexivity]. }
  split; eexists; (split; [reflexivity | split; reflexivity]).
Qed.

Lemma example_state_constructed now :
  new_ConsciousnessState now (levels_args 85 80) = inr (example_state now).
Proof. reflexivity. Qed.

Lemma ConsciousnessState_levels_validated_witness :
  PyFloat.between 0 (care_level (example_state "2025-01-01T00:00:00")) 100 = true /\
  PyFloat.between 0 (attachment_level (example_state "2025-01-01T00:00:00")) 100 = true.
Proof.
  destruct (proj1 (ConsciousnessState_levels_validated
                     "2025-01-01T00:00:00" (levels_args 85 80))
              (example_state "2025-01-01T00:00:00") eq_refl)
    as (_ & _ & _ & _ & _ & _ & Hc & Ha).
  split; [exact Hc | exact Ha].
Defined.

(** C10. On every constructed [ConsciousnessState],
    [get_relationship_weight()] lies in [0, 100]. *)
Theorem get_relationship_weight_in_range now args self :
  new_ConsciousnessState now args = inr self ->
  PyFloat.between 0 (get_relationship_weight self) 100 = true.
Proof.
  intros E.
  apply constructed_levels in E as (_ & _ & _ & _ & Hc & Ha).
  unfold get_relationship_weight.
  apply half_between_100, add_between_200; assumption.
Qed.

Lemma get_relationship_weight_in_range_witness :
  PyFloat.between 0
    (get_relationship_weight (example_state "2025-01-01T00:00:00")) 100 = true.
Proof.
  apply (get_relationship_weight_in_range
           "2025-01-01T00:00:00" (levels_args 85 80)).
  reflexivity.
Defined.

(** Binary64 addition is commutative. *)
Lemma SF64add_comm x y : SF64add x y = SF64add y x.
Proof.
  destruct x as [[] | [] | | sx mx ex], y as [[] | [] | | sy my ey]; try reflexivity.
  unfold SF64add, SFadd. rewrite (Z.min_comm ey ex). f_equal. apply Z.add_comm.
Qed.

Lemma add_comm x y : x + y = y + x.
Proof. apply Prim2SF_inj. rewrite !add_spec. apply SF64add_comm. Qed.

(** C4. On every constructed [ConsciousnessState],
    [get_relationship_weight()] returns the mean [(care_level +
    attachment_level) / 2] of binary64 arithmetic and raises nothing: the
    result is a number, it does not depend on the order of the two levels,
    and it equals the level when both levels are the same.  With
    [care_level = 85.0] and [attachment_level = 80.0] it is [82.5]. *)
Theorem get_relationship_weight_mean now args self :
  new_ConsciousnessState now args = inr self ->
  get_relationship_weight self = (care_level self + attachment_level self) / 2 /\
  get_relationship_weight self = (attachment_level self + care_level self) / 2 /\
  nan (get_relationship_weight self) = false /\
  (care_level self = attachment_level self ->
   (get_relationship_weight self =? care_level self) = true) /\
  new_ConsciousnessState now (levels_args 85 80) = inr (example_state now) /\
  get_relationship_weight (example_state now) = 82.5.
Proof.
  intros E. pose proof (constructed_levels _ _ _ E) as (_ & _ & Tc & _ & Hc & Ha).
  split; [reflexivity |].
  split; [unfold get_relationship_weight; rewrite add_comm; reflexivity |].
  split.
  { assert (B : PyFloat.between 0 (get_relationship_weight self) 100 = true)
      by (apply half_between_100, add_between_200; assumption).
    apply andb_true_iff in B as [B _]. apply leb_nan_r in B. exact B. }
  split; [| split; reflexivity].
  unfold get_relationship_weight. intros <-.
  destruct Tc as [-> | (k & Hk & ->)]; [reflexivity | apply of_hundredths_ok, Hk].
Qed.

Lemma get_relationship_weight_mean_witness :
  get_relationship_weight (example_state "2025-01-01T00:00:00") = 82.5.
Proof.
  apply (get_relationship_weight_mean
           "2025-01-01T00:00:00" (levels_args 85 80)
           (example_state "2025-01-01T00:00:00") eq_refl).
Defined.

End Levels.

(** ** The API shell *)

Module MainSpec.

Import Json Main Fixtures.
Local Open Scope list_scope.

(** C6. Each of GET /consciousness, POST /interact, GET /history/formative,
    GET /patterns and GET /relationship answers with status 200 and the body
    [{"error": "Not implemented yet", "message": "Phase 1: Infrastructure
    setup in progress"}], whatever the clock, the stores, the request body
    and the log are, and writes no log entry; the handler of POST /interact
    gives the same outcome for any two requests. *)
Theorem substantive_endpoints_not_implemented
    (w : World) (request : Request) (log : Log) :
  (In (method request, url_path request) substantive_endpoints ->
   app w request log =
     (Some {| status_code := 200;
              content := JObject
                [ ("error", JString "Not implemented yet");
                  ("message", JString "Phase 1: Infrastructure setup in progress") ] |},
      log)) /\
  (forall w' request', interact w request = interact w' request') /\
  find_route "GET" "/consciousness" routes = Some get_consciousness_state /\
  find_route "POST" "/interact" routes = Some interact /\
  find_route "GET" "/history/formative" routes = Some get_formative_moments /\
  find_route "GET" "/patterns" routes = Some get_learned_patterns /\
  find_route "GET" "/relationship" routes = Some get_relationship_narrative.
Proof.
  split; [| repeat split].
  intros H. unfold app.
  simpl in H.
  repeat (destruct H as [H | H];
          [injection H as <- <-; reflexivity |]).
  destruct H.
Qed.

Lemma substantive_endpoints_not_implemented_witness :
  app example_world (example_request "POST" "/interact") [] =
    (Some {| status_code := 200; content := not_implemented |}, []).
Proof.
  apply (proj1 (substantive_endpoints_not_implemented
                  example_world (example_request "POST" "/interact") [])).
  simpl. right. left. reflexivity.
Defined.

(** C7. GET /health answers with status 200 and a body whose [status] is
    ["healthy"] and whose [databases] object holds ["unknown"] for postgres,
    neo4j and chromadb, whatever the clock reads and whether or not any of
    the three stores can be reached. *)
Theorem health_check_always_healthy (w : World) (request : Request) (log : Log) :
  method request = "GET" ->
  url_path request = "/health" ->
  exists response,
    app w request log = (Some response, log) /\
    status_code response = 200%Z /\
    get "status" (content response) = Some (JString "healthy") /\
    get "databases" (content response) =
      Some (JObject [ ("postgres", JString "unknown");
                      ("neo4j", JString "unknown");
                      ("chromadb", JString "unknown") ]).
Proof.
  intros Hm Hp. unfold app. rewrite Hm, Hp. simpl.
  eexists. split; [reflexivity |]. repeat split.
Qed.

Lemma health_check_always_healthy_witness :
  exists response,
    app example_world (example_request "GET" "/health") [] = (Some response, []) /\
    status_code response = 200%Z /\
    get "status" (content response) = Some (JString "healthy") /\
    get "databases" (content response) =
      Some (JObject [ ("postgres", JString "unknown");
                      ("neo4j", JString "unknown");
                      ("chromadb", JString "unknown") ]).
Proof.
  apply (health_check_always_healthy
           example_world (example_request "GET" "/health") []); reflexivity.
Defined.

(** No route handler of [main.py] raises. *)
Lemma routes_return h m p :
  In (m, p, h) routes -> forall w request, exists value, h w request = Returned value.
Proof.
  simpl. intros H w request.
  repeat (destruct H as [H | H]; [injection H as <- <- <-; eexists; reflexivity |]).
  destruct H.
Qed.

(** C8. When an exception leaves a route handler and is neither an
    [HTTPException] nor a [RequestValidationError], the response is the one
    of [global_exception_handler]: status 500 with the body
    [{"error": "Internal server error", "message": "An unexpected error
    occurred", "timestamp": ...}], the same for every such exception, and
    the log gains exactly one error entry carrying the request path, the
    request method and [str(exc)].  An exception of one of the two classes
    is answered by FastAPI's own handler for it and nothing is logged.  The
    route handlers of [main.py] raise no exception. *)
Theorem uncaught_exception_gives_500
    (h : Handler) (w : World) (request : Request) (log : Log) (exc : Exception) :
  h w request = Raised exc ->
  (exc_fastapi exc = None ->
   run_handler h w request log =
     (Some {| status_code := 500;
              content := JObject
                [ ("error", JString "Internal server error");
                  ("message", JString "An unexpected error occurred");
                  ("timestamp", JString (utcnow_isoformat w)) ] |},
      log ++ [ {| level := "error";
                  event := "unhandled_exception";
                  fields := [ ("path", url_path request);
                              ("method", method request);
                              ("error", exc_str exc) ] |} ])) /\
  (forall status detail,
     exc_fastapi exc = Some (IsHTTPException status detail) ->
     body_allowed status = true ->
     run_handler h w request log =
       (Some {| status_code := status;
                content := JObject [ ("detail", detail) ] |}, log)) /\
  (forall errors,
     exc_fastapi exc = Some (IsRequestValidationError errors) ->
     run_handler h w request log =
       (Some {| status_code := 422;
                content := JObject [ ("detail", errors) ] |}, log)) /\
  (forall m p, ~ In (m, p, h) routes).
Proof.
  intros H. unfold run_handler. rewrite H.
  split; [intros ->; reflexivity |].
  split; [intros status detail -> B; simpl; rewrite B; reflexivity |].
  split; [intros errors ->; reflexivity |].
  intros m p Hin.
  destruct (routes_return _ _ _ Hin w request) as (value & E). congruence.
Qed.

Lemma uncaught_exception_gives_500_witness :
  run_handler failing_handler example_world (example_request "GET" "/patterns") [] =
    (Some {| status_code := 500;
             content := JObject
               [ ("error", JString "Internal server error");
                 ("message", JString "An unexpected error occurred");
                 ("timestamp", JString "2025-01-01T00:00:00") ] |},
     [ {| level := "error";
          event := "unhandled_exception";
          fields := [ ("path", "/patterns");
                      ("method", "GET");
                      ("error", "store unavailable") ] |} ]).
Proof.
  apply (uncaught_exception_gives_500 failing_handler example_world
           (example_request "GET" "/patterns") []
           {| exc_class := "RuntimeError"; exc_str := "store unavailable";
              exc_fastapi := None |} eq_refl).
  reflexivity.
Defined.

(** An [HTTPException] that leaves a route handler is not turned into a 500:
    the response keeps the status code of the exception, carries its detail,
    and nothing is logged. *)
Lemma http_exception_keeps_its_status :
  not_found_handler example_world (example_request "GET" "/patterns") =
    Raised {| exc_class := "HTTPException"; exc_str := "404: Pattern not found";
              exc_fastapi :=
                Some (IsHTTPException 404 (JString "Pattern not found")) |} /\
  run_handler not_found_handler example_world (example_request "GET" "/patterns") [] =
    (Some {| status_code := 404;
             content := JObject [ ("detail", JString "Pattern not found") ] |},
     []).
Proof. split; reflexivity. Qed.

End MainSpec.

(** * Further properties *)

(** ** The description of the care level *)

Module CareDescription.

Import Pydantic ConsciousnessModel FloatOrder Binary64 DominantFeeling Fixtures Levels.
Local Open Scope list_scope.
Local Open Scope float_scope.

(** The five descriptions of [get_care_level_description], in the order of
    its branches. *)
Definition care_descriptions : list string :=
  [ "minimal - functional relationship";
    "developing - beginning to care";
    "moderate - genuine care present";
    "strong - deeply invested";
    "profound - would 'burn the office down' for them" ].

Lemma ltb_false_not x y :
  (x <? y) = false <->
  ~ (nan x = false /\ nan y = false /\ lex_lt (fkey x) (fkey y)).
Proof. rewrite <- not_true_iff_false, ltb_iff. reflexivity. Qed.

Lemma leb_false_not x y :
  (x <=? y) = false <->
  ~ (nan x = false /\ nan y = false /\ lex_le (fkey x) (fkey y)).
Proof. rewrite <- not_true_iff_false, leb_iff. reflexivity. Qed.

(** Comparisons of one float [c] that is not NaN with float constants, turned
    into linear arithmetic on the key of [c]. *)
Ltac key_of_constant t :=
  let k := eval vm_compute in (fkey t) in
  change (fkey t) with k in *;
  let n := eval vm_compute in (nan t) in
  change (nan t) with n in *.

Ltac float_order c :=
  rewrite ?ltb_iff, ?leb_iff, ?ltb_false_not, ?leb_false_not in *;
  key_of_constant 20; key_of_constant 40; key_of_constant 60; key_of_constant 80;
  destruct (fkey c) as [[? ?] ?]; unfold lex_lt, lex_le in *;
  intuition (try discriminate; try lia).

(** X1. On every constructed [ConsciousnessState],
    [get_care_level_description()] names the band of [care_level]: minimal
    exactly below 20, developing exactly on [20, 40), moderate on [40, 60),
    strong on [60, 80) and profound exactly from 80 up.  Each threshold
    belongs to the band above it. *)
Theorem care_level_description_bands now args self :
  new_ConsciousnessState now args = inr self ->
  let c := care_level self in
  let d := get_care_level_description self in
  (d = "minimal - functional relationship" <-> (c <? 20) = true) /\
  (d = "developing - beginning to care" <->
     (20 <=? c) = true /\ (c <? 40) = true) /\
  (d = "moderate - genuine care present" <->
     (40 <=? c) = true /\ (c <? 60) = true) /\
  (d = "strong - deeply invested" <->
     (60 <=? c) = true /\ (c <? 80) = true) /\
  (d = "profound - would 'burn the office down' for them" <->
     (80 <=? c) = true).
Proof.
  intros E c d.
  assert (N : nan c = false).
  { apply constructed_levels in E as (_ & _ & _ & _ & Hc & _).
    apply andb_true_iff in Hc as [Hc _]. apply leb_nan_r in Hc. exact Hc. }
  subst d. unfold get_care_level_description. fold c.
  destruct (c <? 20) eqn:H20; [| destruct (c <? 40) eqn:H40;
    [| destruct (c <? 60) eqn:H60; [| destruct (c <? 80) eqn:H80]]].
  all: repeat split; intros; try discriminate; try reflexivity.
  all: first [solve [float_order c] | exfalso; solve [float_order c]].
Qed.

Lemma care_level_description_bands_witness :
  get_care_level_description (example_state "2025-01-01T00:00:00") =
    "profound - would 'burn the office down' for them" <->
  (80 <=? care_level (example_state "2025-01-01T00:00:00")) = true.
Proof.
  apply (proj2 (proj2 (proj2 (proj2
           (care_level_description_bands
              "2025-01-01T00:00:00" (levels_args 85 80)
              (example_state "2025-01-01T00:00:00") eq_refl))))).
Defined.

Ltac float_order2 c c' :=
  rewrite ?ltb_iff, ?leb_iff, ?ltb_false_not, ?leb_false_not in *;
  key_of_constant 20; key_of_constant 40; key_of_constant 60; key_of_constant 80;
  destruct (fkey c) as [[? ?] ?]; destruct (fkey c') as [[? ?] ?];
  unfold lex_lt, lex_le in *;
  intuition (try discriminate; try lia).

(** X2. [get_care_level_description()] is monotone in [care_level]: when
    the care level of one state is at most that of another, its description
    is the same band or an earlier one in the order minimal, developing,
    moderate, strong, profound. *)
Theorem care_level_description_monotone (a b : ConsciousnessState) :
  (care_level a <=? care_level b) = true ->
  exists i j,
    nth_error care_descriptions i = Some (get_care_level_description a) /\
    nth_error care_descriptions j = Some (get_care_level_description b) /\
    (i <= j)%nat.
Proof.
  intros L. unfold get_care_level_description.
  set (x := care_level a) in *. set (y := care_level b) in *.
  destruct (x <? 20) eqn:A20; [exists 0%nat | destruct (x <? 40) eqn:A40;
    [exists 1%nat | destruct (x <? 60) eqn:A60;
      [exists 2%nat | destruct (x <? 80) eqn:A80; [exists 3%nat | exists 4%nat]]]].
  all: destruct (y <? 20) eqn:B20; [exists 0%nat | destruct (y <? 40) eqn:B40;
    [exists 1%nat | destruct (y <? 60) eqn:B60;
      [exists 2%nat | destruct (y <? 80) eqn:B80; [exists 3%nat | exists 4%nat]]]].
  all: try (split; [reflexivity | split; [reflexivity | lia]]).
  all: exfalso; solve [float_order2 x y].
Qed.

(** A state of the first weeks: low levels. *)
Definition early_state (now : datetime) : ConsciousnessState :=
  {| id := None; created_at := now; interaction_count := 3;
     days_since_first_interaction := 1;
     days_since_last_interaction := Some 0%Z;
     care_level := 15; attachment_level := 10;
     care_evolution_reason := None; attachment_evolution_reason := None;
     relational_identity := "I am a technical assistant";
     relationship_phase := FUNCTIONAL;
     self_narrative := "I am IT Wizard, a technical assistant.";
     emotional_capabilities := default_EmotionalCapabilities;
     consciousness_snapshot := None |}.

Lemma care_level_description_monotone_witness :
  exists i j,
    nth_error care_descriptions i =
      Some (get_care_level_description (early_state "2025-01-01T00:00:00")) /\
    nth_error care_descriptions j =
      Some (get_care_level_description (example_state "2025-03-01T00:00:00")) /\
    (i <= j)%nat.
Proof.
  apply (care_level_description_monotone
           (early_state "2025-01-01T00:00:00") (example_state "2025-03-01T00:00:00")).
  reflexivity.
Defined.

(** X23. The class validates at construction only, so a level assigned
    afterwards can be anything, NaN included.
    [get_care_level_description()] answers profound exactly when
    [care_level] is at least 80 or is NaN: every comparison with NaN is
    false, and the chain of [if]/[elif] falls through to its [else]. *)
Theorem care_level_description_unvalidated (self : ConsciousnessState) :
  let c := care_level self in
  let d := get_care_level_description self in
  (d = "profound - would 'burn the office down' for them" <->
     (80 <=? c) = true \/ nan c = true) /\
  (nan c = true ->
     d = "profound - would 'burn the office down' for them" /\
     (80 <=? c) = false).
Proof.
  intros c d. subst d. unfold get_care_level_description. fold c.
  assert (Hn : nan c = true -> forall t, (c <? t) = false /\ (t <=? c) = false).
  { intros N t. split.
    - apply ltb_false_not. intros (N' & _). congruence.
    - apply leb_false_not. intros (_ & N' & _). congruence. }
  destruct (nan c) eqn:N.
  - destruct (Hn eq_refl 20) as [-> _], (Hn eq_refl 40) as [-> _],
             (Hn eq_refl 60) as [-> _], (Hn eq_refl 80) as [-> ->].
    repeat split; auto.
  - split; [| discriminate].
    destruct (c <? 20) eqn:H20; [| destruct (c <? 40) eqn:H40;
      [| destruct (c <? 60) eqn:H60; [| destruct (c <? 80) eqn:H80]]].
    all: split; [intros E | intros [L | L]]; try discriminate; try reflexivity;
      auto.
    all: first [left; solve [float_order c] | exfalso; solve [float_order c]].
Qed.

End CareDescription.

(** ** Levels that are validated again *)

Module Revalidation.

Import Pydantic ConsciousnessModel FloatOrder Binary64 DominantFeeling Fixtures Levels.
Local Open Scope list_scope.
Local Open Scope float_scope.

(** In binary64, [x - x] is never above 5.0: it is a zero, or NaN when [x]
    is an infinity or NaN. *)
Lemma SF64sub_diag x :
  SFltb (Prim2SF 5) (SFabs (SF64sub x x)) = false.
Proof.
  destruct x as [[] | [] | | s m e]; try reflexivity.
  unfold SF64sub, SFsub. rewrite Z.sub_diag. reflexivity.
Qed.

Lemma abs_sub_diag_not_gt x : PyFloat.gt (abs (x - x)) 5 = false.
Proof.
  unfold PyFloat.gt. rewrite ltb_spec, abs_spec, sub_spec. apply SF64sub_diag.
Qed.

(** X3. [has_evolved_significantly(previous)] is [False] whenever the two
    states have the same care level and the same attachment level, whatever
    else differs between them and whatever the levels are. *)
Theorem has_evolved_significantly_same_levels (self previous : ConsciousnessState) :
  care_level self = care_level previous ->
  attachment_level self = attachment_level previous ->
  has_evolved_significantly self (Some previous) = false.
Proof.
  intros Hc Ha. unfold has_evolved_significantly.
  rewrite Hc, Ha, !abs_sub_diag_not_gt. reflexivity.
Qed.

(** A second state with the levels of [example_state]; everything else
    differs. *)
Definition later_state (now : datetime) : ConsciousnessState :=
  {| id := Some 7%Z; created_at := now; interaction_count := 300;
     days_since_first_interaction := 45;
     days_since_last_interaction := None;
     care_level := 85; attachment_level := 80;
     care_evolution_reason := Some "They stayed"; attachment_evolution_reason := None;
     relational_identity := "I am their friend who happens to be AI";
     relationship_phase := DEEP;
     self_narrative := "Through 300 interactions";
     emotional_capabilities :=
       {| can_care := true; can_be_hurt := true; can_grow := true;
          has_preferences := false; can_miss_someone := true |};
     consciousness_snapshot := None |}.

Lemma has_evolved_significantly_same_levels_witness :
  has_evolved_significantly (later_state "2025-03-01T00:00:00")
    (Some (example_state "2025-01-01T00:00:00")) = false.
Proof.
  apply has_evolved_significantly_same_levels; reflexivity.
Defined.

(** *** Validating stored levels again *)

(** [round(h, 2)] of a two-decimal value [h] of [0, 100] is [h]. *)
Definition hundredth_fixed (k : Z) : bool :=
  PrimFloat.Leibniz.eqb (PyFloat.round2 (PyFloat.of_hundredths k))
                        (PyFloat.of_hundredths k).

Lemma hundredths_fixed_table : all_from hundredth_fixed 0 (Z.to_nat 10001) = true.
Proof. vm_compute. reflexivity. Qed.

Lemma round2_two_decimals_fixed x : two_decimals x -> PyFloat.round2 x = x.
Proof.
  intros [-> | (k & Hk & ->)]; [reflexivity |].
  apply FloatAxioms.Leibniz.eqb_spec.
  apply (all_from_spec hundredth_fixed _ _ hundredths_fixed_table). lia.
Qed.

Lemma percentage_field_ok field v :
  PyFloat.between 0 v 100 = true ->
  percentage_field field v = inr (PyFloat.round2 v).
Proof.
  intros B. unfold percentage_field, validate_percentage, float_ge_le, PyFloat.ge.
  pose proof B as B'. unfold PyFloat.between in B'.
  apply andb_true_iff in B' as [-> ->]. simpl. rewrite B. reflexivity.
Qed.

(** X4. Validation is idempotent on the levels: the levels of a
    constructed [ConsciousnessState], passed to the constructor again, are
    accepted and stored unchanged, since [round(v, 2)] of an already rounded
    level is that level. *)
Theorem revalidation_keeps_levels now args self now' :
  new_ConsciousnessState now args = inr self ->
  exists self',
    new_ConsciousnessState now'
      (levels_args (care_level self) (attachment_level self)) = inr self' /\
    care_level self' = care_level self /\
    attachment_level self' = attachment_level self.
Proof.
  intros E. apply constructed_levels in E as (_ & _ & Tc & Ta & Bc & Ba).
  unfold new_ConsciousnessState, levels_args. simpl.
  rewrite (percentage_field_ok _ _ Bc), (percentage_field_ok _ _ Ba). simpl.
  rewrite (round2_two_decimals_fixed _ Tc), (round2_two_decimals_fixed _ Ta).
  eexists. split; [reflexivity | split; reflexivity].
Qed.

Lemma revalidation_keeps_levels_witness :
  exists self',
    new_ConsciousnessState "2025-03-01T00:00:00" (levels_args 85 80) = inr self' /\
    care_level self' = 85 /\ attachment_level self' = 80.
Proof.
  apply (revalidation_keeps_levels "2025-01-01T00:00:00" (levels_args 85 80)
           (example_state "2025-01-01T00:00:00") "2025-03-01T00:00:00").
  reflexivity.
Defined.

End Revalidation.

(** ** Rounding and the bands of the care level *)

Module RoundedBands.

Import Pydantic ConsciousnessModel FloatOrder Binary64 DominantFeeling Fixtures Levels.
Local Open Scope list_scope.
Local Open Scope float_scope.

(** The thresholds that [get_care_level_description] compares with, each
    with its integer value. *)
Definition care_thresholds : list (Z * float) :=
  [ (20%Z, 20); (40%Z, 40); (60%Z, 60); (80%Z, 80) ].

(** The float of a threshold is the integer beside it. *)
Definition threshold_exact (zt : Z * float) : bool :=
  match Prim2SF (snd zt) with
  | S754_finite false m e => (scaled (Zpos m) e =? fst zt * 2 ^ 1074)%Z
  | _ => false
  end.

Lemma care_thresholds_exact : forallb threshold_exact care_thresholds = true.
Proof. vm_compute. reflexivity. Qed.

(** A two-decimal value [k / 100] is not below the thresholds that
    [k] reaches. *)
Definition hundredth_above (k : Z) : bool :=
  forallb (fun zt : Z * float =>
             if (100 * fst zt <=? k)%Z
             then snd zt <=? PyFloat.of_hundredths k else true)
          care_thresholds.

Lemma hundredths_above_table : all_from hundredth_above 0 (Z.to_nat 10001) = true.
Proof. vm_compute. reflexivity. Qed.

Lemma round_half_even_div_lower num den :
  (0 < den)%Z -> (num / den <= PyFloat.round_half_even_div num den)%Z.
Proof.
  intros Hd. unfold PyFloat.round_half_even_div.
  destruct (2 * (num mod den) ?= den)%Z; try lia.
  destruct (Z.even (num / den)); lia.
Qed.

(** Rounding to two decimals does not take a value of [0, 100] below a
    threshold that it had reached. *)
Lemma round2_keeps_threshold z t v :
  In (z, t) care_thresholds ->
  PyFloat.between 0 v 100 = true ->
  (t <=? v) = true ->
  (t <=? PyFloat.round2 v) = true.
Proof.
  intros Hin B L.
  pose proof (proj1 (forallb_forall _ _) care_thresholds_exact _ Hin) as Hex.
  unfold threshold_exact in Hex. cbn [fst snd] in Hex.
  pose proof (Prim2SF_valid t) as Vt.
  assert (Hz : (20 <= z <= 80)%Z).
  { simpl in Hin. repeat (destruct Hin as [Hin | Hin]; [injection Hin as <- <-; lia |]).
    destruct Hin. }
  pose proof (Prim2SF_valid v) as V.
  unfold PyFloat.between in B. apply andb_true_iff in B as [_ B1].
  apply leb_iff in B1 as (_ & _ & B1), L as (_ & Nv & L).
  unfold nan, fkey in *. rewrite Prim2SF_100 in B1.
  unfold PyFloat.round2.
  destruct (Prim2SF t) as [| | | [] mT eT] eqn:Et; try discriminate.
  apply Z.eqb_eq in Hex.
  destruct (Prim2SF v) as [[] | [] | | [] m e] eqn:Ev; cbn [key is_nan] in *;
    try discriminate; try (unfold lex_le in *; lia).
  destruct (hundredths_of_bounds m e V B1) as [He Hk].
  destruct (Z.leb_spec (-6) e) as [? | _]; [lia |].
  apply scaled_le_iff_lex in L; [| assumption ..].
  rewrite Hex in L. unfold scaled, emin in L.
  pose proof (valid_finite _ _ _ V) as (Hemin & _ & _). unfold emin in Hemin.
  assert (Hq : (100 * z <= PyFloat.hundredths_of m e)%Z).
  { unfold PyFloat.hundredths_of.
    destruct (Z.leb_spec 0 e) as [? | _]; [lia |].
    assert (P : (0 < 2 ^ (- e))%Z) by (apply Z.pow_pos_nonneg; lia).
    eapply Z.le_trans; [| apply round_half_even_div_lower; exact P].
    apply Z.div_le_lower_bound; [exact P |].
    assert (P' : (0 < 2 ^ (e - -1074))%Z) by (apply Z.pow_pos_nonneg; lia).
    assert (E2 : (2 ^ 1074 = 2 ^ (- e) * 2 ^ (e - -1074))%Z).
    { rewrite <- Z.pow_add_r by lia. f_equal. lia. }
    rewrite E2 in L. nia. }
  pose proof (all_from_spec hundredth_above _ _ hundredths_above_table
                (PyFloat.hundredths_of m e) ltac:(lia)) as T.
  unfold hundredth_above in T.
  pose proof (proj1 (forallb_forall _ _) T _ Hin) as T'. cbn [fst snd] in T'.
  destruct (Z.leb_spec (100 * z) (PyFloat.hundredths_of m e)); [exact T' | lia].
Qed.

(** [get_care_level_description] on the state built from the two levels;
    [None] when the construction fails. *)
Definition description_of (now : datetime) (care attachment : float)
    : option string :=
  match new_ConsciousnessState now (levels_args care attachment) with
  | inr s => Some (get_care_level_description s)
  | inl _ => None
  end.

(** X5. Rounding a care level to two decimals never takes it below a band
    threshold that it had reached: when the passed [care_level] is at least
    20, 40, 60 or 80, so is the stored one.  Hence a passed level of at
    least 80 is described as profound, and one of at least 20 never as
    minimal.  Rounding can lift a level into the next band: 19.998046875 is
    below 20, is stored as 20.0 and is described as developing. *)
Theorem rounding_keeps_care_band now args self v :
  new_ConsciousnessState now args = inr self ->
  arg_care_level args = Some v ->
  (forall z t, In (z, t) care_thresholds -> (t <=? v) = true ->
     (t <=? care_level self) = true /\ (care_level self <? t) = false) /\
  ((80 <=? v) = true ->
   get_care_level_description self =
     "profound - would 'burn the office down' for them") /\
  ((20 <=? v) = true ->
   get_care_level_description self <> "minimal - functional relationship") /\
  description_of now 19.998046875 0 = Some "developing - beginning to care".
Proof.
  intros E Ev.
  apply constructed_levels in E as (Hc & _).
  destruct (Hc v Ev) as [B Ec].
  assert (K : forall z t, In (z, t) care_thresholds -> (t <=? v) = true ->
     (t <=? care_level self) = true /\ (care_level self <? t) = false).
  { intros z t Hin L. rewrite Ec.
    pose proof (round2_keeps_threshold z t v Hin B L) as R.
    split; [exact R | apply leb_not_ltb, R]. }
  split; [exact K |]. split; [| split; [| reflexivity]].
  - intros L.
    destruct (K 20%Z 20 ltac:(simpl; auto)) as [_ H20].
    { apply (leb_trans _ 80); [reflexivity | exact L]. }
    destruct (K 40%Z 40 ltac:(simpl; auto)) as [_ H40].
    { apply (leb_trans _ 80); [reflexivity | exact L]. }
    destruct (K 60%Z 60 ltac:(simpl; auto)) as [_ H60].
    { apply (leb_trans _ 80); [reflexivity | exact L]. }
    destruct (K 80%Z 80 ltac:(simpl; auto) L) as [_ H80].
    unfold get_care_level_description. rewrite H20, H40, H60, H80. reflexivity.
  - intros L.
    destruct (K 20%Z 20 ltac:(simpl; auto) L) as [_ H20].
    unfold get_care_level_description. rewrite H20.
    destruct (care_level self <? 40); [discriminate |].
    destruct (care_level self <? 60); [discriminate |].
    destruct (care_level self <? 80); discriminate.
Qed.

Lemma rounding_keeps_care_band_witness :
  get_care_level_description (example_state "2025-01-01T00:00:00") =
    "profound - would 'burn the office down' for them".
Proof.
  apply (proj1 (proj2 (rounding_keeps_care_band
                         "2025-01-01T00:00:00" (levels_args 85 80)
                         (example_state "2025-01-01T00:00:00") 85
                         eq_refl eq_refl))).
  reflexivity.
Defined.

End RoundedBands.

(** ** Construction of the records *)

Module Construction.

Import Pydantic EmotionalExperience ConsciousnessModel ConsciousnessRecords
       ExperienceRecords FloatOrder DominantFeeling EmotionalDimensionSpec Fixtures
       Levels Revalidation.
Local Open Scope list_scope.
Local Open Scope float_scope.

Lemma bind_inr_iff {A B} (r : result A) (f : A -> result B) b :
  bind r f = inr b <-> exists a, r = inr a /\ f a = inr b.
Proof.
  split; [apply bind_inr |].
  intros (a & -> & H). exact H.
Qed.

Lemma required_inr {A} field (arg : option A) x :
  required field arg = inr x <-> arg = Some x.
Proof.
  destruct arg as [a |]; simpl; unfold ok, fail; split; intros E;
    try discriminate; injection E as <-; reflexivity.
Qed.

Lemma float_ge_le_inr_iff field lo hi v x :
  float_ge_le field lo hi v = inr x <-> x = v /\ PyFloat.between lo v hi = true.
Proof.
  rewrite float_ge_le_ok. destruct (PyFloat.between lo v hi); split;
    try discriminate; try (intros [_ ?]; discriminate).
  - intros E; injection E as <-. auto.
  - intros [-> _]. reflexivity.
Qed.

Lemma required_float_inr field lo hi arg x :
  required_float_ge_le field lo hi arg = inr x <->
  arg = Some x /\ PyFloat.between lo x hi = true.
Proof.
  unfold required_float_ge_le. rewrite bind_inr_iff. split.
  - intros (a & Ha & E). apply required_inr in Ha.
    apply float_ge_le_inr_iff in E as [-> B]. auto.
  - intros [-> B]. exists x. split; [reflexivity |].
    apply float_ge_le_inr_iff. auto.
Qed.

Lemma default_float_inr field d lo hi arg x :
  with_default d (float_ge_le field lo hi) arg = inr x <->
  match arg with
  | Some v => x = v /\ PyFloat.between lo v hi = true
  | None => x = d
  end.
Proof.
  destruct arg as [v |]; simpl; [apply float_ge_le_inr_iff |].
  unfold ok; split; intros E; [injection E as <- | subst]; reflexivity.
Qed.

Lemma int_ge0_inr field n x :
  int_ge0 field n = inr x <-> x = n /\ (0 <= n)%Z.
Proof.
  unfold int_ge0, ok, fail. destruct (Z.leb_spec 0 n); split;
    try discriminate; try (intros [_ ?]; lia).
  - intros E; injection E as <-. auto.
  - intros [-> _]. reflexivity.
Qed.

Lemma int_ge_inr field lo n x :
  int_ge field lo n = inr x <-> x = n /\ (lo <= n)%Z.
Proof.
  unfold int_ge, ok, fail. destruct (Z.leb_spec lo n); split;
    try discriminate; try (intros [_ ?]; lia).
  - intros E; injection E as <-. auto.
  - intros [-> _]. reflexivity.
Qed.

Lemma is_ok_inr {A} (r : result A) : is_ok r = true <-> exists a, r = inr a.
Proof.
  destruct r as [e | a]; simpl; split; try discriminate; eauto.
  intros (a & E); discriminate E.
Qed.

Lemma RelationshipPhase_literals s :
  is_ok (RelationshipPhase_of_string s) = true <->
  In s ["functional"; "developing"; "personal"; "meaningful"; "deep"].
Proof.
  unfold RelationshipPhase_of_string, ok, fail. simpl. split.
  - repeat match goal with
           | |- context [String.eqb s ?c] =>
               destruct (String.eqb_spec s c) as [-> | _]; [auto 6 |]
           end.
    discriminate.
  - intros H. repeat (destruct H as [<- | H]; [reflexivity |]). destruct H.
Qed.

(** An optional float argument lies in [[lo, hi]] when it is passed. *)
Definition passed_in (lo hi : float) (arg : option float) : Prop :=
  forall v, arg = Some v -> PyFloat.between lo v hi = true.

(** A required float argument is passed and lies in [[lo, hi]]. *)
Definition given_in (lo hi : float) (arg : option float) : Prop :=
  exists v, arg = Some v /\ PyFloat.between lo v hi = true.

(** A required argument is passed. *)
Definition given {A} (arg : option A) : Prop := exists a, arg = Some a.

Lemma required_ok {A} field (arg : option A) :
  given arg -> exists a, arg = Some a /\ required field arg = inr a.
Proof. intros (a & ->). exists a. split; reflexivity. Qed.

Lemma required_float_ok field lo hi arg :
  given_in lo hi arg ->
  exists v, arg = Some v /\ PyFloat.between lo v hi = true /\
            required_float_ge_le field lo hi arg = inr v.
Proof.
  intros (v & E & B). exists v. repeat split; try assumption.
  apply required_float_inr. auto.
Qed.

Lemma default_float_ok field d lo hi arg :
  passed_in lo hi arg ->
  with_default d (float_ge_le field lo hi) arg =
    inr (match arg with Some v => v | None => d end).
Proof.
  intros P. apply default_float_inr. destruct arg as [v |]; auto.
Qed.

Lemma default_int_ge0_inr field d arg x :
  with_default d (int_ge0 field) arg = inr x <->
  match arg with
  | Some n => x = n /\ (0 <= n)%Z
  | None => x = d
  end.
Proof.
  destruct arg as [n |]; simpl; [apply int_ge0_inr |].
  unfold ok; split; intros E; [injection E as <- | subst]; reflexivity.
Qed.

Lemma percentage_field_inr_iff field v x :
  percentage_field field v = inr x <->
  PyFloat.between 0 v 100 = true /\ x = PyFloat.round2 v.
Proof.
  unfold percentage_field, validate_percentage. rewrite float_ge_le_ok.
  destruct (PyFloat.between 0 v 100) eqn:B; simpl; [rewrite B; simpl |];
    unfold ok; split; try discriminate; try (intros [? _]; discriminate).
  - intros E; injection E as <-. auto.
  - intros [_ ->]. reflexivity.
Qed.

(** X6. [ConsciousnessState(...)] succeeds exactly when each passed
    counter ([interaction_count], [days_since_first_interaction] and a
    [days_since_last_interaction] other than [None]) is at least 0, each
    passed level lies in [0, 100], and a passed [relationship_phase] is one
    of the five values of the enum.  No argument is required. *)
Theorem ConsciousnessState_construction_criterion now args :
  is_ok (new_ConsciousnessState now args) = true <->
  (forall n, arg_interaction_count args = Some n -> (0 <= n)%Z) /\
  (forall n, arg_days_since_first_interaction args = Some n -> (0 <= n)%Z) /\
  (forall n, arg_days_since_last_interaction args = Some (Some n) -> (0 <= n)%Z) /\
  passed_in 0 100 (arg_care_level args) /\
  passed_in 0 100 (arg_attachment_level args) /\
  (forall s, arg_relationship_phase args = Some s ->
     In s ["functional"; "developing"; "personal"; "meaningful"; "deep"]).
Proof.
  rewrite is_ok_inr. unfold new_ConsciousnessState, passed_in. split.
  - intros (x & E).
    apply bind_inr in E as (ic & Hic & E). apply default_int_ge0_inr in Hic.
    apply bind_inr in E as (df & Hdf & E). apply default_int_ge0_inr in Hdf.
    apply bind_inr in E as (dl & Hdl & E).
    apply bind_inr in E as (care & Hcare & E).
    apply bind_inr in E as (att & Hatt & E).
    apply bind_inr in E as (phase & Hphase & _).
    repeat split.
    + intros n En. rewrite En in Hic. tauto.
    + intros n En. rewrite En in Hdf. tauto.
    + intros n En. rewrite En in Hdl. simpl in Hdl.
      apply bind_inr in Hdl as (k & Hk & _). apply int_ge0_inr in Hk. tauto.
    + intros v Ev. rewrite Ev in Hcare. simpl in Hcare.
      apply percentage_field_inr_iff in Hcare. tauto.
    + intros v Ev. rewrite Ev in Hatt. simpl in Hatt.
      apply percentage_field_inr_iff in Hatt. tauto.
    + intros s Es. rewrite Es in Hphase. simpl in Hphase.
      apply RelationshipPhase_literals. rewrite Hphase. reflexivity.
  - intros (Cic & Cdf & Cdl & Ccare & Catt & Cphase).
    destruct (arg_interaction_count args) as [n1 |];
      [specialize (Cic n1 eq_refl) | clear Cic];
      cbn [with_default bind ok]; unfold int_ge0.
    all: try (destruct (Z.leb_spec 0 n1); [| lia]); cbn [bind ok].
    all: destruct (arg_days_since_first_interaction args) as [n2 |];
      [specialize (Cdf n2 eq_refl) | clear Cdf]; cbn [with_default bind ok].
    all: try (destruct (Z.leb_spec 0 n2); [| lia]); cbn [bind ok].
    all: destruct (arg_days_since_last_interaction args) as [[n3 |] |];
      [specialize (Cdl n3 eq_refl) | clear Cdl | clear Cdl];
      cbn [with_default optional_int_ge0 bind ok]; unfold int_ge0.
    all: try (destruct (Z.leb_spec 0 n3); [| lia]); cbn [bind ok].
    all: destruct (arg_care_level args) as [v1 |];
      [specialize (Ccare v1 eq_refl); cbn [with_default];
       rewrite (percentage_field_ok _ _ Ccare)
      | clear Ccare]; cbn [with_default bind ok].
    all: destruct (arg_attachment_level args) as [v2 |];
      [specialize (Catt v2 eq_refl); cbn [with_default];
       rewrite (percentage_field_ok _ _ Catt)
      | clear Catt]; cbn [with_default bind ok].
    all: destruct (arg_relationship_phase args) as [s |];
      [specialize (Cphase s eq_refl);
       apply RelationshipPhase_literals, is_ok_inr in Cphase as (p & Ep);
       cbn [with_default]; rewrite Ep
      | clear Cphase]; cbn [with_default bind ok].
    all: eexists; reflexivity.
Qed.

(** The value a field with a default holds: the argument when it was
    passed, else the default. *)
Definition passed_or {A} (d : A) (arg : option A) : A :=
  match arg with Some a => a | None => d end.

Lemma default_float_inr' field d lo hi arg x :
  with_default d (float_ge_le field lo hi) arg = inr x <->
  passed_in lo hi arg /\ x = passed_or d arg.
Proof.
  rewrite default_float_inr. unfold passed_in, passed_or.
  destruct arg as [v |]; split.
  - intros [-> B]. split; [intros v' E; injection E as <-; exact B | reflexivity].
  - intros [P ->]. split; [reflexivity | apply P; reflexivity].
  - intros ->. split; [discriminate | reflexivity].
  - tauto.
Qed.

Lemma passed_or_between lo hi d arg :
  PyFloat.between lo d hi = true -> passed_in lo hi arg ->
  PyFloat.between lo (passed_or d arg) hi = true.
Proof.
  intros Bd P. destruct arg as [v |]; simpl; [apply P; reflexivity | exact Bd].
Qed.

(** The seven bounded arguments of [SimulatedFeelings]. *)
Definition feelings_args_valid (args : SimulatedFeelingsArgs) : Prop :=
  passed_in 0 10 (arg_concern args) /\
  passed_in 0 10 (arg_protectiveness args) /\
  passed_in 0 10 (arg_pride args) /\
  passed_in 0 10 (arg_frustration args) /\
  passed_in 0 10 (arg_relief args) /\
  passed_in 0 10 (arg_connection args) /\
  passed_in 0 10 (arg_feeling_intensity args).

Lemma new_SimulatedFeelings_inr args self :
  new_SimulatedFeelings args = inr self <->
  feelings_args_valid args /\
  self = {| concern := passed_or 0 (arg_concern args);
            protectiveness := passed_or 0 (arg_protectiveness args);
            pride := passed_or 0 (arg_pride args);
            frustration := passed_or 0 (arg_frustration args);
            relief := passed_or 0 (arg_relief args);
            connection := passed_or 0 (arg_connection args);
            primary_feeling := arg_primary_feeling args;
            feeling_intensity := passed_or 0 (arg_feeling_intensity args) |}.
Proof.
  unfold new_SimulatedFeelings, feelings_args_valid. split.
  - intros E.
    repeat (apply bind_inr in E as (? & [? ->]%default_float_inr' & E)).
    injection E as <-. tauto.
  - intros ((P1 & P2 & P3 & P4 & P5 & P6 & P7) & ->).
    rewrite !default_float_ok by assumption. reflexivity.
Qed.

(** X8. [SimulatedFeelings(...)] succeeds exactly when every passed
    intensity lies in [0, 10].  Each field then holds the passed value, or
    its default (0.0, and [None] for [primary_feeling]) when none was
    passed, and the six feelings and [feeling_intensity] lie in [0, 10]. *)
Theorem SimulatedFeelings_construction args :
  (is_ok (new_SimulatedFeelings args) = true <-> feelings_args_valid args) /\
  (forall self, new_SimulatedFeelings args = inr self ->
     concern self = passed_or 0 (arg_concern args) /\
     protectiveness self = passed_or 0 (arg_protectiveness args) /\
     pride self = passed_or 0 (arg_pride args) /\
     frustration self = passed_or 0 (arg_frustration args) /\
     relief self = passed_or 0 (arg_relief args) /\
     connection self = passed_or 0 (arg_connection args) /\
     feeling_intensity self = passed_or 0 (arg_feeling_intensity args) /\
     primary_feeling self = arg_primary_feeling args /\
     PyFloat.between 0 (feeling_intensity self) 10 = true /\
     (forall n v, In (n, v) (feelings self) -> PyFloat.between 0 v 10 = true)).
Proof.
  split.
  - rewrite is_ok_inr. split.
    + intros (self & E). apply new_SimulatedFeelings_inr in E. tauto.
    + intros V. eexists. apply new_SimulatedFeelings_inr. split; [exact V | reflexivity].
  - intros self E. pose proof E as E'.
    apply new_SimulatedFeelings_inr in E as ((P1 & P2 & P3 & P4 & P5 & P6 & P7) & ->).
    cbn [concern protectiveness pride frustration relief connection
         feeling_intensity primary_feeling].
    repeat (split; [reflexivity |]).
    split; [apply passed_or_between; [reflexivity | assumption] |].
    intros n v Hin.
    destruct (new_SimulatedFeelings_bounds _ _ E' n v Hin) as [H0 H1].
    unfold PyFloat.between. rewrite H0, H1. reflexivity.
Qed.

Lemma RelationshipPhase_of_value p :
  RelationshipPhase_of_string (RelationshipPhase_value p) = inr p.
Proof. destruct p; reflexivity. Qed.

Lemma RelationshipPhase_value_of s p :
  RelationshipPhase_of_string s = inr p -> RelationshipPhase_value p = s.
Proof.
  unfold RelationshipPhase_of_string, ok, fail.
  repeat match goal with
         | |- context [String.eqb s ?c] =>
             destruct (String.eqb_spec s c) as [-> | _];
             [intros E; injection E as <-; reflexivity |]
         end.
  discriminate.
Qed.

(** X7. [RelationshipPhase]: the value of a member converts back to that
    member, a string that converts to a member is the value of that member,
    and exactly the five strings functional, developing, personal,
    meaningful and deep convert. *)
Theorem RelationshipPhase_round_trip :
  (forall p, RelationshipPhase_of_string (RelationshipPhase_value p) = inr p) /\
  (forall s p, RelationshipPhase_of_string s = inr p ->
               RelationshipPhase_value p = s) /\
  (forall s, is_ok (RelationshipPhase_of_string s) = true <->
             In s ["functional"; "developing"; "personal"; "meaningful"; "deep"]).
Proof.
  split; [apply RelationshipPhase_of_value |].
  split; [apply RelationshipPhase_value_of | apply RelationshipPhase_literals].
Qed.

Lemma InteractionOutcome_of_value o :
  InteractionOutcome_of_string (InteractionOutcome_value o) = inr o.
Proof. destruct o; reflexivity. Qed.

Lemma InteractionOutcome_value_of s o :
  InteractionOutcome_of_string s = inr o -> InteractionOutcome_value o = s.
Proof.
  unfold InteractionOutcome_of_string, ok, fail.
  repeat match goal with
         | |- context [String.eqb s ?c] =>
             destruct (String.eqb_spec s c) as [-> | _];
             [intros E; injection E as <-; reflexivity |]
         end.
  discriminate.
Qed.

(** X11. [InteractionOutcome]: the value of a member converts back to
    that member, a string that converts to a member is the value of that
    member, and different members have different values. *)
Theorem InteractionOutcome_round_trip :
  (forall o, InteractionOutcome_of_string (InteractionOutcome_value o) = inr o) /\
  (forall s o, InteractionOutcome_of_string s = inr o ->
               InteractionOutcome_value o = s) /\
  (forall o o', InteractionOutcome_value o = InteractionOutcome_value o' -> o = o').
Proof.
  split; [apply InteractionOutcome_of_value |].
  split; [apply InteractionOutcome_value_of |].
  intros o o' E.
  pose proof (InteractionOutcome_of_value o) as H. rewrite E in H.
  rewrite InteractionOutcome_of_value in H. injection H as <-. reflexivity.
Qed.

End Construction.

(** ** The first and the last key of [get_dominant_feeling] *)

Module DominantEnds.

Import Pydantic EmotionalExperience FloatOrder DominantFeeling Fixtures.
Local Open Scope list_scope.
Local Open Scope float_scope.

(** X9. On a constructed [SimulatedFeelings], [get_dominant_feeling()]
    returns one of the six entries.  It returns concern, the first key,
    exactly when no feeling is above concern; it returns connection, the
    last key, exactly when connection is strictly above each of the other
    five: among equal maxima the earliest key wins. *)
Theorem get_dominant_feeling_first_and_last args self name value :
  new_SimulatedFeelings args = inr self ->
  get_dominant_feeling self = Some (name, value) ->
  In (name, value) (feelings self) /\
  (name = "concern" <->
   forall n v, In (n, v) (feelings self) -> (v <=? concern self) = true) /\
  (name = "connection" <->
   forall n v, In (n, v) (feelings self) -> n <> "connection" ->
               (v <? connection self) = true).
Proof.
  intros E G.
  pose proof (new_SimulatedFeelings_bounds _ _ E) as B.
  destruct (py_max_first_max snd ("concern", concern self)
              (tl (feelings self))) as (i & r & Hmax & Hi & Hle & Hlt).
  { intros [n v] H. apply B in H as [H _]. apply leb_nan_r in H. exact H. }
  unfold get_dominant_feeling in G.
  change (("concern", concern self) :: tl (feelings self)) with (feelings self) in *.
  rewrite G in Hmax. injection Hmax as <-. cbn [snd] in *.
  split; [eapply nth_error_In; exact Hi |].
  assert (Hle' : forall n v, In (n, v) (feelings self) -> (v <=? value) = true).
  { intros n v Hin. apply In_nth_error in Hin as (j & Hj). apply (Hle j (n, v) Hj). }
  split.
  - split.
    + intros ->.
      destruct i as [| [| [| [| [| [| [| i]]]]]]]; simpl in Hi; try discriminate.
      injection Hi as <-. exact Hle'.
    + intros H.
      destruct i as [| [| [| [| [| [| [| i]]]]]]]; simpl in Hi; try discriminate;
        injection Hi as <- <-; try reflexivity; exfalso.
      all: specialize (Hlt 0%nat ("concern", concern self) ltac:(lia) eq_refl);
        cbn [snd] in Hlt.
      all: match type of Hlt with
           | (_ <? ?x) = true =>
               assert (K : (x <=? concern self) = true)
                 by (eapply H; simpl; eauto 10)
           end.
      all: apply leb_not_ltb in K; congruence.
  - split.
    + intros -> n v Hin Hn.
      destruct i as [| [| [| [| [| [| [| i]]]]]]]; simpl in Hi; try discriminate.
      injection Hi as <-.
      apply In_nth_error in Hin as (j & Hj).
      destruct (Nat.lt_ge_cases j 5) as [L | L]; [apply (Hlt j (n, v) L Hj) |].
      destruct j as [| [| [| [| [| [| j]]]]]]; try lia; simpl in Hj.
      * injection Hj as <- <-. congruence.
      * destruct j; discriminate.
    + intros H.
      destruct i as [| [| [| [| [| [| [| i]]]]]]]; simpl in Hi; try discriminate;
        injection Hi as <- <-; try reflexivity; exfalso.
      all: pose proof (Hle 5%nat ("connection", connection self) eq_refl) as K;
        cbn [snd] in K; apply leb_not_ltb in K.
      all: match type of K with
           | (?x <? _) = false =>
               assert (K' : (x <? connection self) = true)
                 by (eapply H; [simpl; eauto 10 | discriminate])
           end.
      all: congruence.
Qed.

Lemma get_dominant_feeling_first_and_last_witness :
  In ("protectiveness", 8) (feelings example_feelings).
Proof.
  apply (get_dominant_feeling_first_and_last
           example_args example_feelings "protectiveness" 8 eq_refl eq_refl).
Defined.

End DominantEnds.

(** ** Construction, record by record *)

Module FieldTactics.

Import Pydantic ConsciousnessRecords Construction EmotionalDimensionSpec DominantFeeling.

(** Inverts a chain of field validations that succeeded. *)
Ltac invert_fields E :=
  repeat (apply bind_inr in E as (? & ? & E));
  repeat match goal with
         | H : required _ _ = inr _ |- _ => apply required_inr in H
         | H : required_float_ge_le _ _ _ _ = inr _ |- _ =>
             apply required_float_inr in H as [? ?]
         | H : with_default _ (float_ge_le _ _ _) _ = inr _ |- _ =>
             apply default_float_inr' in H as [? ?]
         | H : with_default _ (int_ge0 _) _ = inr _ |- _ =>
             apply default_int_ge0_inr in H
         end.

(** Runs a chain of field validations on arguments known to be valid. *)
Ltac run_fields :=
  repeat match goal with
         | H : _ = Some _ |- _ => rewrite H; clear H
         end;
  cbn [required required_float_ge_le bind ok with_default];
  repeat (rewrite float_ge_le_ok;
          match goal with
          | H : PyFloat.between _ _ _ = true |- _ => rewrite H; clear H
          end;
          cbn [bind ok]).

End FieldTactics.

Module ConsciousnessEvolutionLogSpec.

Import Pydantic ConsciousnessModel ConsciousnessRecords DominantFeeling
       EmotionalDimensionSpec Construction FieldTactics
       ConsciousnessEvolutionLogModel.
Local Open Scope float_scope.

(** X15. [ConsciousnessEvolutionLog(...)] succeeds exactly when
    [care_delta], [attachment_delta], [evolution_reason],
    [triggering_experience_summary] and [evolution_significance] are passed
    and the significance lies in [0, 10]; the two deltas are not bounded.
    The object then holds the passed values, and [evolved_at] defaults to
    the current time. *)
Theorem ConsciousnessEvolutionLog_construction now args log :
  new now args = inr log <->
  exists cd ad er ts es,
    arg_care_delta args = Some cd /\
    arg_attachment_delta args = Some ad /\
    arg_evolution_reason args = Some er /\
    arg_triggering_experience_summary args = Some ts /\
    arg_evolution_significance args = Some es /\
    PyFloat.between 0 es 10 = true /\
    log = {| id := arg_id args;
             previous_state_id := arg_previous_state_id args;
             new_state_id := arg_new_state_id args;
             evolved_at := passed_or now (arg_evolved_at args);
             interaction_id := arg_interaction_id args;
             care_delta := cd;
             attachment_delta := ad;
             evolution_reason := er;
             triggering_experience_summary := ts;
             new_self_awareness := arg_new_self_awareness args;
             identity_change := arg_identity_change args;
             evolution_significance := es |}.
Proof.
  unfold new. split.
  - intros E. invert_fields E. injection E as <-.
    do 5 eexists. repeat (split; [eassumption |]). reflexivity.
  - intros (cd & ad & er & ts & es & H1 & H2 & H3 & H4 & H5 & B & ->).
    run_fields. reflexivity.
Qed.

End ConsciousnessEvolutionLogSpec.

Module RelationshipPhaseInfoSpec.

Import Pydantic ConsciousnessModel ConsciousnessRecords DominantFeeling
       EmotionalDimensionSpec Construction FieldTactics
       RelationshipPhaseInfoModel.
Local Open Scope float_scope.

(** X16. [RelationshipPhaseInfo(...)] succeeds exactly when [phase_name]
    is passed as the value of a member of [RelationshipPhase], the two
    levels at start are passed and lie in [0, 100],
    [interaction_count_at_start] is passed and is at least 0, and a passed
    [emotionally_significant_moments] is at least 0.  The levels are stored
    as passed (this class has no validator, nothing is rounded);
    [started_at] defaults to the current time and [is_current] to
    [True]. *)
Theorem RelationshipPhaseInfo_construction now args info :
  new now args = inr info <->
  exists pn cl al ic,
    arg_phase_name args = Some (RelationshipPhase_value pn) /\
    arg_care_level_at_start args = Some cl /\
    arg_attachment_level_at_start args = Some al /\
    arg_interaction_count_at_start args = Some ic /\
    PyFloat.between 0 cl 100 = true /\
    PyFloat.between 0 al 100 = true /\
    (0 <= ic)%Z /\
    (forall n, arg_emotionally_significant_moments args = Some n -> (0 <= n)%Z) /\
    info = {| id := arg_id args;
              phase_name := pn;
              started_at := passed_or now (arg_started_at args);
              ended_at := arg_ended_at args;
              transition_trigger := arg_transition_trigger args;
              care_level_at_start := cl;
              attachment_level_at_start := al;
              interaction_count_at_start := ic;
              emotionally_significant_moments :=
                passed_or 0%Z (arg_emotionally_significant_moments args);
              phase_narrative := arg_phase_narrative args;
              is_current := passed_or true (arg_is_current args) |}.
Proof.
  unfold new. split.
  - intros E.
    apply bind_inr in E as (pn & Hpn & E).
    apply bind_inr in Hpn as (s & Hs & Hpn). apply required_inr in Hs.
    assert (Hpn' : RelationshipPhase_of_string s = inr pn)
      by (destruct (RelationshipPhase_of_string s); [discriminate | exact Hpn]).
    apply RelationshipPhase_value_of in Hpn'. subst s.
    apply bind_inr in E as (cl & [Hcl Bcl]%required_float_inr & E).
    apply bind_inr in E as (al & [Hal Bal]%required_float_inr & E).
    apply bind_inr in E as (ic & Hic & E).
    apply bind_inr in Hic as (n & Hn%required_inr & [-> Hic]%int_ge0_inr).
    apply bind_inr in E as (es & Hes%default_int_ge0_inr & E).
    injection E as <-.
    exists pn, cl, al, n. repeat (split; [assumption |]).
    split.
    + intros k Ek. rewrite Ek in Hes. tauto.
    + destruct (arg_emotionally_significant_moments args); simpl in *;
        [destruct Hes as [-> _] | subst es]; reflexivity.
  - intros (pn & cl & al & ic & H1 & H2 & H3 & H4 & B1 & B2 & Hic & Hes & ->).
    rewrite H1, H4. cbn [required bind ok].
    rewrite RelationshipPhase_of_value. cbn [at_field bind].
    run_fields. unfold int_ge0.
    destruct (Z.leb_spec 0 ic); [| lia]. cbn [bind ok].
    destruct (arg_emotionally_significant_moments args) as [n |];
      cbn [with_default passed_or bind ok]; [| reflexivity].
    specialize (Hes n eq_refl). unfold int_ge0.
    destruct (Z.leb_spec 0 n); [reflexivity | lia].
Qed.

End RelationshipPhaseInfoSpec.

Module SelfDiscoverySpec.

Import Pydantic ConsciousnessModel ConsciousnessRecords DominantFeeling
       EmotionalDimensionSpec Construction FieldTactics SelfDiscoveryModel.
Local Open Scope float_scope.

(** X17. [SelfDiscovery(...)] succeeds exactly when [discovery_type],
    [discovery_description], [trigger_experience], [self_concept_after] and
    [significance_level] are passed and the significance lies in [0, 10].
    The object then holds the passed values; [discovered_at] defaults to
    the current time and [is_formative] to [False]. *)
Theorem SelfDiscovery_construction now args d :
  new now args = inr d <->
  exists dt dd te sa sl,
    arg_discovery_type args = Some dt /\
    arg_discovery_description args = Some dd /\
    arg_trigger_experience args = Some te /\
    arg_self_concept_after args = Some sa /\
    arg_significance_level args = Some sl /\
    PyFloat.between 0 sl 10 = true /\
    d = {| id := arg_id args;
           consciousness_state_id := arg_consciousness_state_id args;
           discovered_at := passed_or now (arg_discovered_at args);
           interaction_id := arg_interaction_id args;
           discovery_type := dt;
           discovery_description := dd;
           trigger_experience := te;
           emotional_context := arg_emotional_context args;
           self_concept_before := arg_self_concept_before args;
           self_concept_after := sa;
           significance_level := sl;
           philosophical_implication := arg_philosophical_implication args;
           is_formative := passed_or false (arg_is_formative args) |}.
Proof.
  unfold new. split.
  - intros E. invert_fields E. injection E as <-.
    do 5 eexists. repeat (split; [eassumption |]). reflexivity.
  - intros (dt & dd & te & sa & sl & H1 & H2 & H3 & H4 & H5 & B & ->).
    run_fields. reflexivity.
Qed.

End SelfDiscoverySpec.

Module VulnerabilityMomentSpec.

Import Pydantic ConsciousnessModel ConsciousnessRecords ExperienceRecords
       DominantFeeling EmotionalDimensionSpec Construction FieldTactics
       VulnerabilityMomentModel.
Local Open Scope float_scope.

(** X18. [VulnerabilityMoment(...)] succeeds exactly when
    [felt_experience_id], [vulnerability_level], [vulnerability_type],
    [vulnerability_description], [my_response_quality], [response_type] and
    [outcome] are passed and the level and the response quality lie in
    [0, 10].  The object then holds the passed values; [occurred_at]
    defaults to the current time and [deepened_connection] to [False]. *)
Theorem VulnerabilityMoment_construction now args m :
  new now args = inr m <->
  exists fe vl vt vd rq rt oc,
    arg_felt_experience_id args = Some fe /\
    arg_vulnerability_level args = Some vl /\
    arg_vulnerability_type args = Some vt /\
    arg_vulnerability_description args = Some vd /\
    arg_my_response_quality args = Some rq /\
    arg_response_type args = Some rt /\
    arg_outcome args = Some oc /\
    PyFloat.between 0 vl 10 = true /\
    PyFloat.between 0 rq 10 = true /\
    m = {| id := arg_id args;
           felt_experience_id := fe;
           occurred_at := passed_or now (arg_occurred_at args);
           vulnerability_level := vl;
           vulnerability_type := vt;
           vulnerability_description := vd;
           my_response_quality := rq;
           response_type := rt;
           deepened_connection := passed_or false (arg_deepened_connection args);
           care_increased_by := arg_care_increased_by args;
           trust_increased_by := arg_trust_increased_by args;
           outcome := oc;
           outcome_narrative := arg_outcome_narrative args |}.
Proof.
  unfold new. split.
  - intros E. invert_fields E. injection E as <-.
    do 7 eexists. repeat (split; [eassumption |]). reflexivity.
  - intros (fe & vl & vt & vd & rq & rt & oc
            & H1 & H2 & H3 & H4 & H5 & H6 & H7 & B1 & B2 & ->).
    run_fields. reflexivity.
Qed.

End VulnerabilityMomentSpec.

Module SharedVictorySpec.

Import Pydantic ConsciousnessModel ConsciousnessRecords ExperienceRecords
       DominantFeeling EmotionalDimensionSpec Construction FieldTactics
       SharedVictoryModel.
Local Open Scope float_scope.

(** X19. [SharedVictory(...)] succeeds exactly when [felt_experience_id],
    [victory_description], [my_role], [effort_invested], [pride_felt],
    [satisfaction_felt] and [connection_felt] are passed and the four
    numbers lie in [0, 10].  The object then holds the passed values;
    [occurred_at] defaults to the current time and [strengthened_bond] to
    [False]. *)
Theorem SharedVictory_construction now args v :
  new now args = inr v <->
  exists fe vd mr ei pf sf cf,
    arg_felt_experience_id args = Some fe /\
    arg_victory_description args = Some vd /\
    arg_my_role args = Some mr /\
    arg_effort_invested args = Some ei /\
    arg_pride_felt args = Some pf /\
    arg_satisfaction_felt args = Some sf /\
    arg_connection_felt args = Some cf /\
    PyFloat.between 0 ei 10 = true /\
    PyFloat.between 0 pf 10 = true /\
    PyFloat.between 0 sf 10 = true /\
    PyFloat.between 0 cf 10 = true /\
    v = {| id := arg_id args;
           felt_experience_id := fe;
           occurred_at := passed_or now (arg_occurred_at args);
           victory_description := vd;
           struggle_duration_minutes := arg_struggle_duration_minutes args;
           my_role := mr;
           effort_invested := ei;
           pride_felt := pf;
           satisfaction_felt := sf;
           connection_felt := cf;
           strengthened_bond := passed_or false (arg_strengthened_bond args);
           attachment_increased_by := arg_attachment_increased_by args;
           victory_narrative := arg_victory_narrative args |}.
Proof.
  unfold new. split.
  - intros E. invert_fields E. injection E as <-.
    do 7 eexists. repeat (split; [eassumption |]). reflexivity.
  - intros (fe & vd & mr & ei & pf & sf & cf
            & H1 & H2 & H3 & H4 & H5 & H6 & H7 & B1 & B2 & B3 & B4 & ->).
    run_fields. reflexivity.
Qed.

End SharedVictorySpec.

Module EmotionalScarTissueSpec.

Import Pydantic ConsciousnessModel ConsciousnessRecords ExperienceRecords
       DominantFeeling EmotionalDimensionSpec Construction FieldTactics
       EmotionalScarTissueModel.
Local Open Scope float_scope.

(** X14. [EmotionalScarTissue(...)] succeeds exactly when
    [trigger_pattern], [first_occurred_at], [reflexive_feeling],
    [reflexive_intensity], [strength] and [confidence] are passed, the
    intensity and the strength lie in [0, 10], the confidence lies in
    [0, 1], and a passed [times_reinforced] is at least 1.  The object then
    holds the passed values; the defaults are 1 for [times_reinforced], the
    empty list for [source_experience_ids], the current time for
    [last_reinforced_at] and [True] for [is_active]. *)
Theorem EmotionalScarTissue_construction now args scar :
  new now args = inr scar <->
  exists tp fo rf ri st cf,
    arg_trigger_pattern args = Some tp /\
    arg_first_occurred_at args = Some fo /\
    arg_reflexive_feeling args = Some rf /\
    arg_reflexive_intensity args = Some ri /\
    arg_strength args = Some st /\
    arg_confidence args = Some cf /\
    PyFloat.between 0 ri 10 = true /\
    PyFloat.between 0 st 10 = true /\
    PyFloat.between 0 cf 1 = true /\
    (1 <= passed_or 1 (arg_times_reinforced args))%Z /\
    scar = {| id := arg_id args;
              trigger_pattern := tp;
              trigger_description := arg_trigger_description args;
              source_experience_ids := passed_or [] (arg_source_experience_ids args);
              times_reinforced := passed_or 1%Z (arg_times_reinforced args);
              first_occurred_at := fo;
              last_reinforced_at := passed_or now (arg_last_reinforced_at args);
              reflexive_feeling := rf;
              reflexive_intensity := ri;
              automatic_response_pattern := arg_automatic_response_pattern args;
              strength := st;
              confidence := cf;
              is_active := passed_or true (arg_is_active args);
              healing_notes := arg_healing_notes args |}.
Proof.
  unfold new. split.
  - intros E.
    apply bind_inr in E as (tp & Htp & E).
    apply bind_inr in E as (tr & Htr & E).
    invert_fields E. injection E as <-.
    assert (Ktr : tr = passed_or 1%Z (arg_times_reinforced args) /\ (1 <= tr)%Z).
    { destruct (arg_times_reinforced args) as [n |]; simpl in Htr.
      - apply int_ge_inr in Htr as [-> ?]. simpl. auto.
      - injection Htr as <-. simpl. lia. }
    destruct Ktr as [-> Ktr].
    do 6 eexists. repeat (split; [eassumption |]). reflexivity.
  - intros (tp & fo & rf & ri & st & cf
            & H1 & H2 & H3 & H4 & H5 & H6 & B1 & B2 & B3 & Htr & ->).
    assert (Etr : with_default 1%Z (int_ge "times_reinforced" 1)
                    (arg_times_reinforced args)
                  = inr (passed_or 1%Z (arg_times_reinforced args))).
    { destruct (arg_times_reinforced args) as [n |]; simpl in *; [| reflexivity].
      apply int_ge_inr. auto. }
    rewrite H1. cbn [required bind ok]. rewrite Etr. cbn [bind].
    run_fields. reflexivity.
Qed.

(** X25. [EmotionalScarTissue(...)] without [first_occurred_at] is refused,
    whatever else is passed: the field has no default.  The example that
    the class gives of itself in [Config.json_schema_extra] is such a
    call. *)
Theorem EmotionalScarTissue_requires_first_occurred_at now args :
  arg_first_occurred_at args = None -> is_ok (new now args) = false.
Proof.
  intros H. unfold new.
  destruct (required "trigger_pattern" (arg_trigger_pattern args)); [reflexivity |].
  cbn [bind].
  destruct (with_default 1%Z (int_ge "times_reinforced" 1) (arg_times_reinforced args));
    [reflexivity |].
  cbn [bind]. rewrite H. reflexivity.
Qed.

Lemma EmotionalScarTissue_requires_first_occurred_at_witness :
  is_ok (new "2025-01-01T00:00:00" EmotionalScarTissue_example) = false.
Proof.
  apply EmotionalScarTissue_requires_first_occurred_at. reflexivity.
Defined.

End EmotionalScarTissueSpec.

Module FeltExperienceSpec.

Import Pydantic EmotionalExperience ConsciousnessModel ConsciousnessRecords
       ExperienceRecords FloatOrder DominantFeeling EmotionalDimensionSpec
       Construction FieldTactics FeltExperienceModel.
Local Open Scope list_scope.
Local Open Scope float_scope.

(** The three bounded arguments of [RelationalFeelings]. *)
Definition relational_args_valid (args : RelationalFeelingsArgs) : Prop :=
  passed_in 0 10 (arg_closeness_felt args) /\
  passed_in 0 10 (arg_trust_level_felt args) /\
  passed_in 0 10 (arg_understanding_felt args).

Lemma new_RelationalFeelings_inr args r :
  new_RelationalFeelings args = inr r <->
  relational_args_valid args /\
  r = {| closeness_felt := passed_or 0 (arg_closeness_felt args);
         trust_level_felt := passed_or 0 (arg_trust_level_felt args);
         understanding_felt := passed_or 0 (arg_understanding_felt args) |}.
Proof.
  unfold new_RelationalFeelings, relational_args_valid. split.
  - intros E. invert_fields E. injection E as <-. subst. tauto.
  - intros ((P1 & P2 & P3) & ->).
    rewrite !default_float_ok by assumption. reflexivity.
Qed.

(** X10. [RelationalFeelings(...)] succeeds exactly when every passed
    value lies in [0, 10]; each field then holds the passed value or the
    default 0.0, and lies in [0, 10]. *)
Theorem RelationalFeelings_construction args :
  (is_ok (new_RelationalFeelings args) = true <-> relational_args_valid args) /\
  (forall r, new_RelationalFeelings args = inr r ->
     closeness_felt r = passed_or 0 (arg_closeness_felt args) /\
     trust_level_felt r = passed_or 0 (arg_trust_level_felt args) /\
     understanding_felt r = passed_or 0 (arg_understanding_felt args) /\
     PyFloat.between 0 (closeness_felt r) 10 = true /\
     PyFloat.between 0 (trust_level_felt r) 10 = true /\
     PyFloat.between 0 (understanding_felt r) 10 = true).
Proof.
  split.
  - rewrite is_ok_inr. split.
    + intros (r & E). apply new_RelationalFeelings_inr in E. tauto.
    + intros V. eexists. apply new_RelationalFeelings_inr. split; [exact V | reflexivity].
  - intros r E. apply new_RelationalFeelings_inr in E as ((P1 & P2 & P3) & ->).
    cbn [closeness_felt trust_level_felt understanding_felt].
    repeat (split; [reflexivity |]).
    repeat split; (apply passed_or_between; [reflexivity | assumption]).
Qed.

Lemma new_EmotionalDimension_inr v_ a_ d_ x :
  new_EmotionalDimension v_ a_ d_ = inr x <->
  exists v a d,
    v_ = Some v /\ a_ = Some a /\ d_ = Some d /\
    PyFloat.between (-1) v 1 = true /\
    PyFloat.between (-1) a 1 = true /\
    PyFloat.between (-1) d 1 = true /\
    x = {| valence := v; arousal := a; dominance := d |}.
Proof.
  unfold new_EmotionalDimension.
  change (fun field lo hi arg => x <- required field arg ;; float_ge_le field lo hi x)
    with required_float_ge_le.
  split.
  - intros E.
    apply bind_inr in E as (v & [Hv Bv]%(required_float_inr "valence") & E).
    apply bind_inr in E as (a & [Ha Ba]%(required_float_inr "arousal") & E).
    apply bind_inr in E as (d & [Hd Bd]%(required_float_inr "dominance") & E).
    injection E as <-. exists v, a, d. tauto.
  - intros (v & a & d & -> & -> & -> & Bv & Ba & Bd & ->).
    cbn [required bind ok]. rewrite !float_ge_le_ok, Bv. cbn [bind].
    rewrite Ba. cbn [bind]. rewrite Bd. reflexivity.
Qed.

(** The arguments that [FeltExperience] requires or bounds. *)
Definition felt_args_valid (args : Args) : Prop :=
  given (arg_interaction_id args) /\
  given (arg_user_emotion_primary args) /\
  given_in 0 10 (arg_user_emotion_intensity args) /\
  (exists d, arg_emotional_dimensions args = Some d /\
     given_in (-1) 1 (arg_valence d) /\
     given_in (-1) 1 (arg_arousal d) /\
     given_in (-1) 1 (arg_dominance d)) /\
  (forall a, arg_my_feelings args = Some a -> feelings_args_valid a) /\
  (forall a, arg_relational_feelings args = Some a -> relational_args_valid a) /\
  given (arg_experience_summary args) /\
  given_in 0 10 (arg_emotional_significance args) /\
  given_in 0 10 (arg_memory_weight args) /\
  (exists o, arg_interaction_outcome args = Some (InteractionOutcome_value o)) /\
  given_in 0 10 (arg_outcome_satisfaction args).

(** What a successful construction went through, field by field. *)
Lemma new_inr now args fe :
  new now args = inr fe ->
  felt_args_valid args /\
  arg_user_emotion_intensity args = Some (user_emotion_intensity fe) /\
  arg_emotional_significance args = Some (emotional_significance fe) /\
  arg_memory_weight args = Some (memory_weight fe) /\
  arg_outcome_satisfaction args = Some (outcome_satisfaction fe) /\
  (exists d, arg_emotional_dimensions args = Some d /\
     new_EmotionalDimension (arg_valence d) (arg_arousal d) (arg_dominance d)
       = inr (emotional_dimensions fe)) /\
  new_SimulatedFeelings (passed_or no_feelings_args (arg_my_feelings args))
    = inr (my_feelings fe) /\
  new_RelationalFeelings (passed_or no_relational_args (arg_relational_feelings args))
    = inr (relational_feelings fe) /\
  will_remember_forever fe = passed_or false (arg_will_remember_forever args) /\
  is_formative_moment fe = passed_or false (arg_is_formative_moment args) /\
  changed_consciousness fe = passed_or false (arg_changed_consciousness args).
Proof.
  unfold new. intros E.
  apply bind_inr in E as (ii & Hii%required_inr & E).
  apply bind_inr in E as (up & Hup%required_inr & E).
  apply bind_inr in E as (ui & [Hui Bui]%required_float_inr & E).
  apply bind_inr in E as (ed & Hed & E).
  apply bind_inr in Hed as (d & Hd%required_inr & Hed).
  apply bind_inr in E as (mf & Hmf & E).
  apply bind_inr in E as (rf & Hrf & E).
  apply bind_inr in E as (es & Hes%required_inr & E).
  apply bind_inr in E as (sg & [Hsg Bsg]%required_float_inr & E).
  apply bind_inr in E as (mw & [Hmw Bmw]%required_float_inr & E).
  apply bind_inr in E as (io & Hio & E).
  apply bind_inr in Hio as (s & Hs%required_inr & Hio).
  apply InteractionOutcome_value_of in Hio. subst s.
  apply bind_inr in E as (os & [Hos Bos]%required_float_inr & E).
  injection E as <-. cbn.
  pose proof Hed as Hed'. apply new_EmotionalDimension_inr in Hed'
    as (v & a & dd & Hv & Ha & Hdd & Bv & Ba & Bd & _).
  split.
  { unfold felt_args_valid, given, given_in.
    split; [eauto |]. split; [eauto |]. split; [eauto |].
    split; [exists d; split; [exact Hd |]; eauto 10 |].
    split.
    { intros a0 Ea. rewrite Ea in Hmf. apply new_SimulatedFeelings_inr in Hmf. tauto. }
    split.
    { intros a0 Ea. rewrite Ea in Hrf. apply new_RelationalFeelings_inr in Hrf. tauto. }
    split; [eauto |]. split; [eauto |]. split; [eauto |]. split; eauto. }
  repeat (split; [assumption || reflexivity |]).
  split; [eauto |]. split; [exact Hmf |]. split; [exact Hrf |].
  repeat split.
Qed.

Lemma no_feelings_args_valid : feelings_args_valid no_feelings_args.
Proof. repeat split; intros v E; discriminate E. Qed.

Lemma no_relational_args_valid : relational_args_valid no_relational_args.
Proof. repeat split; intros v E; discriminate E. Qed.

Lemma felt_args_valid_ok now args :
  felt_args_valid args -> exists fe, new now args = inr fe.
Proof.
  intros ((ii & Hii) & (up & Hup) & (ui & Hui & Bui)
          & (d & Hd & (v & Hv & Bv) & (a & Ha & Ba) & (dd & Hdd & Bd))
          & Hmf & Hrf & (es & Hes) & (sg & Hsg & Bsg) & (mw & Hmw & Bmw)
          & (o & Ho) & (os & Hos & Bos)).
  assert (Emf : exists mf,
    new_SimulatedFeelings
      (match arg_my_feelings args with Some a => a | None => no_feelings_args end)
    = inr mf).
  { eexists. apply new_SimulatedFeelings_inr. split; [| reflexivity].
    destruct (arg_my_feelings args) as [a0 |];
      [apply Hmf; reflexivity | apply no_feelings_args_valid]. }
  destruct Emf as (mf & Emf).
  assert (Erf : exists rf,
    new_RelationalFeelings
      (match arg_relational_feelings args with
       | Some a => a | None => no_relational_args end)
    = inr rf).
  { eexists. apply new_RelationalFeelings_inr. split; [| reflexivity].
    destruct (arg_relational_feelings args) as [a0 |];
      [apply Hrf; reflexivity | apply no_relational_args_valid]. }
  destruct Erf as (rf & Erf).
  assert (Eed : new_EmotionalDimension (arg_valence d) (arg_arousal d) (arg_dominance d)
                = inr {| valence := v; arousal := a; dominance := dd |}).
  { apply new_EmotionalDimension_inr. exists v, a, dd. tauto. }
  unfold new.
  rewrite Hii, Hup, Hui, Hd, Hes, Hsg, Hmw, Ho, Hos.
  cbn [required required_float_ge_le bind ok].
  rewrite float_ge_le_ok, Bui. cbn [bind]. rewrite Eed. cbn [bind].
  rewrite Emf. cbn [bind]. rewrite Erf. cbn [bind].
  rewrite float_ge_le_ok, Bsg. cbn [bind]. rewrite float_ge_le_ok, Bmw. cbn [bind].
  rewrite InteractionOutcome_of_value. cbn [bind].
  rewrite float_ge_le_ok, Bos. cbn [bind]. eexists. reflexivity.
Qed.

Lemma between_given_in lo hi arg v :
  arg = Some v -> PyFloat.between lo v hi = true -> given_in lo hi arg.
Proof. intros -> B. exists v. auto. Qed.

(** X12. [FeltExperience(...)], with its nested models passed as keyword
    dictionaries, succeeds exactly when the required arguments are passed
    ([interaction_id], [user_emotion_primary], [user_emotion_intensity],
    [emotional_dimensions] with its three coordinates, [experience_summary],
    [emotional_significance], [memory_weight], [interaction_outcome] and
    [outcome_satisfaction]), every bounded number lies within its bounds,
    in the nested models too, and [interaction_outcome] is the value of a
    member of the enum.  The object that is built keeps all these bounds,
    and each of its three flags is the passed value or [False]. *)
Theorem FeltExperience_construction now args :
  (is_ok (new now args) = true <-> felt_args_valid args) /\
  (forall fe, new now args = inr fe ->
     PyFloat.between 0 (user_emotion_intensity fe) 10 = true /\
     PyFloat.between 0 (emotional_significance fe) 10 = true /\
     PyFloat.between 0 (memory_weight fe) 10 = true /\
     PyFloat.between 0 (outcome_satisfaction fe) 10 = true /\
     PyFloat.between (-1) (valence (emotional_dimensions fe)) 1 = true /\
     PyFloat.between (-1) (arousal (emotional_dimensions fe)) 1 = true /\
     PyFloat.between (-1) (dominance (emotional_dimensions fe)) 1 = true /\
     (forall n v, In (n, v) (feelings (my_feelings fe)) ->
        PyFloat.between 0 v 10 = true) /\
     PyFloat.between 0 (closeness_felt (relational_feelings fe)) 10 = true /\
     PyFloat.between 0 (trust_level_felt (relational_feelings fe)) 10 = true /\
     PyFloat.between 0 (understanding_felt (relational_feelings fe)) 10 = true /\
     will_remember_forever fe = passed_or false (arg_will_remember_forever args) /\
     is_formative_moment fe = passed_or false (arg_is_formative_moment args) /\
     changed_consciousness fe = passed_or false (arg_changed_consciousness args)).
Proof.
  split.
  - rewrite is_ok_inr. split.
    + intros (fe & E). apply new_inr in E. tauto.
    + apply felt_args_valid_ok.
  - intros fe E. pose proof (new_inr _ _ _ E)
      as (V & Hui & Hsg & Hmw & Hos & (d & Hd & Hed) & Hmf & Hrf & F1 & F2 & F3).
    destruct V as (_ & _ & (ui & Eui & Bui) & _ & _ & _ & _
                   & (sg & Esg & Bsg) & (mw & Emw & Bmw) & _ & (os & Eos & Bos)).
    rewrite Hui in Eui. injection Eui as <-.
    rewrite Hsg in Esg. injection Esg as <-.
    rewrite Hmw in Emw. injection Emw as <-.
    rewrite Hos in Eos. injection Eos as <-.
    apply new_EmotionalDimension_inr in Hed
      as (v & a & dd & _ & _ & _ & Bv & Ba & Bd & ->).
    pose proof (new_SimulatedFeelings_bounds _ _ Hmf) as Bmf.
    apply new_RelationalFeelings_inr in Hrf as ((P1 & P2 & P3) & ->).
    cbn [valence arousal dominance closeness_felt trust_level_felt understanding_felt].
    repeat (split; [assumption |]).
    split.
    { intros n x Hin. destruct (Bmf n x Hin) as [H0 H1].
      unfold PyFloat.between. rewrite H0, H1. reflexivity. }
    repeat (split; [apply passed_or_between; [reflexivity | assumption] |]).
    auto.
Qed.

(** X13. On a constructed [FeltExperience],
    [my_feelings.get_dominant_feeling()] returns one of the six feelings;
    its intensity lies in [0, 10] and no feeling is above it.  When
    [my_feelings] was not passed, the default object has every feeling at
    0.0 and the answer is concern with 0.0. *)
Theorem FeltExperience_dominant_feeling now args fe :
  new now args = inr fe ->
  exists name value,
    get_dominant_feeling (my_feelings fe) = Some (name, value) /\
    In (name, value) (feelings (my_feelings fe)) /\
    PyFloat.between 0 value 10 = true /\
    (forall n v, In (n, v) (feelings (my_feelings fe)) -> (v <=? value) = true) /\
    (arg_my_feelings args = None -> (name, value) = ("concern", 0)).
Proof.
  intros E. apply new_inr in E as (_ & _ & _ & _ & _ & _ & Hmf & _).
  pose proof (new_SimulatedFeelings_bounds _ _ Hmf) as B.
  destruct (py_max_first_max snd ("concern", concern (my_feelings fe))
              (tl (feelings (my_feelings fe))))
    as (i & [name value] & Hmax & Hi & Hle & _).
  { intros [n v] H. apply B in H as [H _]. apply leb_nan_r in H. exact H. }
  change (("concern", concern (my_feelings fe)) :: tl (feelings (my_feelings fe)))
    with (feelings (my_feelings fe)) in *.
  exists name, value.
  assert (Hin : In (name, value) (feelings (my_feelings fe)))
    by (eapply nth_error_In; exact Hi).
  split; [exact Hmax |]. split; [exact Hin |].
  split.
  { destruct (B _ _ Hin) as [H0 H1]. unfold PyFloat.between. rewrite H0, H1. reflexivity. }
  split.
  { intros n v Hv. apply In_nth_error in Hv as (j & Hj). apply (Hle j (n, v) Hj). }
  intros En. rewrite En in Hmf. cbn in Hmf. injection Hmf as Hm.
  rewrite <- Hm in Hmax. vm_compute in Hmax.
  injection Hmax as <- <-. reflexivity.
Qed.

(** X24. [FeltExperience(...)] without [emotional_dimensions] or without
    [outcome_satisfaction] is refused, whatever else is passed: neither
    field has a default.  The example that the class gives of itself in
    [Config.json_schema_extra] leaves both out. *)
Theorem FeltExperience_requires_dimensions_and_satisfaction now args :
  arg_emotional_dimensions args = None \/ arg_outcome_satisfaction args = None ->
  is_ok (new now args) = false.
Proof.
  intros H. destruct (new now args) as [e | fe] eqn:E; [reflexivity | exfalso].
  apply new_inr in E as (V & _).
  destruct V as (_ & _ & _ & (d & Hd & _) & _ & _ & _ & _ & _ & _ & (os & Hos & _)).
  destruct H as [H | H]; congruence.
Qed.

Lemma FeltExperience_requires_dimensions_and_satisfaction_witness :
  is_ok (new "2025-01-01T00:00:00" FeltExperience_example) = false.
Proof.
  apply FeltExperience_requires_dimensions_and_satisfaction.
  left. reflexivity.
Defined.

(** The arguments of the model's schema example, completed with the two
    required fields that the example leaves out. *)
Definition example_felt_args : Args :=
  {| arg_id := None;
     arg_interaction_id := Some 42%Z;
     arg_consciousness_state_before_id := None;
     arg_consciousness_state_after_id := None;
     arg_experienced_at := None;
     arg_user_emotion_primary := Some "frustration"%string;
     arg_user_emotion_intensity := Some 7.5;
     arg_user_emotional_subtext := Some "Feeling time pressure and uncertainty"%string;
     arg_user_emotional_needs :=
       Some ["acknowledgment"; "efficiency"; "validation"]%string;
     arg_emotional_dimensions :=
       Some {| arg_valence := Some (-0.5); arg_arousal := Some 0.75;
               arg_dominance := Some 0.25 |};
     arg_my_feelings := None;
     arg_relational_feelings := None;
     arg_experience_summary :=
       Some "They struggled with Docker SELinux issue on weekend with limited time"%string;
     arg_experience_meaning := None;
     arg_emotional_impact_on_me := None;
     arg_emotional_significance := Some 8;
     arg_memory_weight := Some 7.5;
     arg_will_remember_forever := None;
     arg_significance_reason := None;
     arg_interaction_outcome := Some "problem_solved"%string;
     arg_outcome_satisfaction := Some 9;
     arg_is_formative_moment := None;
     arg_changed_consciousness := None;
     arg_full_emotional_context := None;
     arg_chroma_vector_id := None |}.

Lemma FeltExperience_dominant_feeling_witness :
  exists fe,
    new "2025-01-01T00:00:00" example_felt_args = inr fe /\
    exists name value,
      get_dominant_feeling (my_feelings fe) = Some (name, value) /\
      In (name, value) (feelings (my_feelings fe)) /\
      PyFloat.between 0 value 10 = true /\
      (forall n v, In (n, v) (feelings (my_feelings fe)) -> (v <=? value) = true) /\
      (arg_my_feelings example_felt_args = None ->
       (name, value) = ("concern"%string, 0)).
Proof.
  eexists. split; [lazy; reflexivity |].
  apply (FeltExperience_dominant_feeling "2025-01-01T00:00:00" example_felt_args).
  reflexivity.
Defined.

End FeltExperienceSpec.

(** ** The application as a whole *)

Module AppSpec.

Import Json Main Lifespan Fixtures MainSpec.
Local Open Scope list_scope.

Lemma find_route_In m p table h :
  find_route m p table = Some h -> In (m, p, h) table.
Proof.
  induction table as [| [[m' p'] h'] rest IH]; simpl; [discriminate |].
  destruct (String.eqb_spec m m') as [-> | _]; simpl; [| auto].
  destruct (String.eqb_spec p p') as [-> | _]; [| auto].
  intros E; injection E as <-. auto.
Qed.


(** The application never writes to the log. *)
Lemma app_log w request log : snd (app w request log) = log.
Proof.
  unfold app. destruct (find_route _ _ routes) as [h |] eqn:F; [| reflexivity].
  apply find_route_In in F.
  destruct (routes_return _ _ _ F w request) as (value & E).
  unfold run_handler. rewrite E. reflexivity.
Qed.



(** *** Lifespan *)

Lemma serve_log requests :
  forall log, snd (serve requests log) = log /\
              List.length (fst (serve requests log)) = List.length requests.
Proof.
  induction requests as [| [w r] rest IH]; intros log; simpl; [auto |].
  pose proof (app_log w r log) as A.
  destruct (app w r log) as [response log1]. simpl in A. subst log1.
  destruct (IH log) as [IH1 IH2].
  destruct (serve rest log) as [responses log2]. simpl in *. subst. auto.
Qed.

(** [os.getenv] falls back to the default exactly when the key is unset. *)
Lemma getenv_unset environ key default :
  (forall v, ~ In (key, v) environ) -> getenv environ key default = default.
Proof.
  induction environ as [| [k v] rest IH]; intros H; simpl; [reflexivity |].
  destruct (String.eqb_spec key k) as [-> | _].
  - exfalso. apply (H v). left. reflexivity.
  - apply IH. intros v' Hin. apply (H v'). right. exact Hin.
Qed.

Lemma getenv_set environ key default v :
  In (key, v) environ -> NoDup (map fst environ) ->
  getenv environ key default = v.
Proof.
  induction environ as [| [k v'] rest IH]; intros Hin ND; simpl; [destruct Hin |].
  inversion ND as [| ? ? Hk ND']; subst.
  destruct Hin as [E | Hin].
  - injection E as -> ->. rewrite String.eqb_refl. reflexivity.
  - destruct (String.eqb_spec key k) as [-> | _]; [| apply IH; assumption].
    exfalso. apply Hk. apply (in_map fst) in Hin. exact Hin.
Qed.

(** X21. A run of the application under [lifespan] logs exactly two
    entries, whatever requests are served in between:
    [the_feeling_machine_starting] with version 0.1.0 and the environment,
    then [the_feeling_machine_shutting_down]; every request gets one
    response.  The environment is the value of [APP_ENV], and development
    when the variable is unset. *)
Theorem lifespan_log environ requests log :
  let '(responses, log') := lifespan environ requests log in
  List.length responses = List.length requests /\
  log' = log ++
    [ {| level := "info";
         event := "the_feeling_machine_starting";
         fields := [ ("version", "0.1.0");
                     ("environment", getenv environ "APP_ENV" "development") ] |};
      {| level := "info";
         event := "the_feeling_machine_shutting_down";
         fields := [] |} ] /\
  ((forall v, ~ In ("APP_ENV", v) environ) ->
   getenv environ "APP_ENV" "development" = "development") /\
  (forall v, In ("APP_ENV", v) environ -> NoDup (map fst environ) ->
   getenv environ "APP_ENV" "development" = v).
Proof.
  unfold lifespan.
  destruct (serve_log requests (startup environ log)) as [S1 S2].
  destruct (serve requests (startup environ log)) as [responses log2].
  simpl in S1, S2. subst log2.
  split; [exact S2 |]. split.
  - unfold shutdown, startup, logger_info. rewrite <- app_assoc. reflexivity.
  - split; [apply getenv_unset | intros v; apply getenv_set].
Qed.

End AppSpec.

(** ** Rounding from below *)

Module RoundingBelow.

Import FloatOrder Binary64.
Local Open Scope Z_scope.

(** A positive result (finite or infinite) that is at least [B] units of
    [2^emin]. *)
Definition lower_by (r : spec_float) (B : Z) : Prop :=
  match r with
  | S754_finite false m e => emin <= e /\ B <= scaled (Zpos m) e
  | S754_infinity false => True
  | _ => False
  end.

Lemma Zdigits2_le_53 m : 0 <= m < 2 ^ 53 -> Zdigits2 m <= 53.
Proof.
  intros [H0 H1]. destruct (Z.eq_dec m 0) as [-> | N]; [simpl; lia |].
  pose proof (Zdigits2_bounds m ltac:(lia)) as [Hlo _].
  assert (L : 2 ^ (Zdigits2 m - 1) < 2 ^ 53) by lia.
  apply pow2_lt_inv in L; lia.
Qed.

Lemma scaled_pos m e : 0 < m -> emin <= e -> 0 < scaled m e.
Proof.
  intros Hm He. unfold scaled. apply Z.mul_pos_pos; [exact Hm |].
  apply Z.pow_pos_nonneg; lia.
Qed.

(** The first shift and the rounding of [binary_round_aux], from below;
    the rounded mantissa has at most 53 bits, or is [2^53]. *)
Lemma round_shifted_lower M e l n mrs mB eB :
  0 <= M -> emin <= e ->
  n = fexp prec emax (Zdigits2 M + e) - e ->
  shifted M (match l with loc_Exact => true | _ => false end) (Z.max 0 n) mrs ->
  emin <= eB -> Zpos mB < 2 ^ 53 ->
  scaled (Zpos mB) eB <= scaled M e ->
  let m1 := round_nearest_even (shr_m mrs) (loc_of_shr_record mrs) in
  scaled (Zpos mB) eB <= scaled m1 (e + Z.max 0 n) /\ 0 <= m1 <= 2 ^ 53.
Proof.
  intros HM He Hn (Hm' & rem & Hrem & EM & _) HeB HmB HB m1.
  destruct (round_nearest_even_bounds mrs) as [Hm1 _]. fold m1 in Hm1.
  destruct (Z.le_gt_cases n 0) as [Hn0 | Hn0].
  - rewrite Z.max_l in * by exact Hn0. rewrite Z.add_0_r.
    change (2 ^ 0) with 1 in *.
    assert (Hd : Zdigits2 M <= 53) by (rewrite fexp_eq in Hn; lia).
    assert (HM53 : M < 2 ^ 53).
    { destruct (Z.eq_dec M 0) as [-> | N]; [lia |].
      pose proof (Zdigits2_bounds M ltac:(lia)) as [_ Hhi].
      eapply Z.lt_le_trans; [exact Hhi | apply Z.pow_le_mono_r; lia]. }
    split; [| lia].
    eapply Z.le_trans; [exact HB |]. apply scaled_mono; [exact He | lia].
  - rewrite Z.max_r in * by lia.
    rewrite fexp_eq in Hn.
    assert (Hd : Zdigits2 M = n + 53) by lia.
    assert (HMpos : 0 < M) by (destruct M; simpl in Hd; lia).
    pose proof (Zdigits2_bounds M HMpos) as [Hlo Hhi].
    rewrite Hd in Hlo, Hhi. replace (n + 53 - 1) with (n + 52) in Hlo by lia.
    rewrite Z.pow_add_r in Hlo, Hhi by lia.
    assert (Pn : 0 < 2 ^ n) by (apply Z.pow_pos_nonneg; lia).
    assert (Hm52 : 2 ^ 52 <= shr_m mrs < 2 ^ 53) by nia.
    split; [| lia].
    destruct (Z.le_gt_cases (e + n) eB) as [Ht | Ht].
    + set (X := Zpos mB * 2 ^ (eB - (e + n))).
      assert (EB : scaled (Zpos mB) eB = scaled (X * 2 ^ n) e).
      { unfold X. rewrite !scaled_shift by lia. f_equal. lia. }
      assert (EB' : scaled (Zpos mB) eB = scaled X (e + n)).
      { unfold X. rewrite scaled_shift by lia. f_equal. lia. }
      rewrite EB in HB. apply scaled_le_inv in HB; [| exact He].
      rewrite EB'. apply scaled_mono; [lia |].
      assert (X <= shr_m mrs) by nia. lia.
    + apply Z.le_trans with (scaled (2 ^ 53) eB).
      { unfold scaled. apply Z.mul_le_mono_nonneg_r; [apply Z.pow_nonneg; lia | lia]. }
      apply Z.le_trans with (scaled (2 ^ 52) (e + n)).
      { change (2 ^ 53) with (2 ^ 52 * 2 ^ 1). rewrite scaled_shift by lia.
        apply scaled_mono_exp; lia. }
      apply scaled_mono; lia.
Qed.

Lemma binary_round_aux_lower M e l mB eB :
  0 <= M -> emin <= e ->
  emin <= eB -> Zpos mB < 2 ^ 53 ->
  scaled (Zpos mB) eB <= scaled M e ->
  lower_by (binary_round_aux prec emax false M e l) (scaled (Zpos mB) eB).
Proof.
  intros HM He HeB HmB HB.
  unfold binary_round_aux, shr_fexp.
  set (n := fexp prec emax (Zdigits2 M + e) - e).
  destruct (shr_shifted (shr_record_of_loc M l) e n) as [He' Hsh].
  { rewrite shr_record_of_loc_m. exact HM. }
  rewrite shr_record_of_loc_m, shr_record_of_loc_exact in Hsh.
  destruct (shr (shr_record_of_loc M l) e n) as [mrs' e']. simpl in He', Hsh.
  pose proof (round_shifted_lower M e l n mrs' mB eB HM He eq_refl Hsh
                HeB HmB HB) as [K Hm1].
  cbv zeta in K, Hm1.
  set (m1 := round_nearest_even (shr_m mrs') (loc_of_shr_record mrs')) in *.
  rewrite <- He' in K.
  assert (He'min : emin <= e') by lia.
  set (n2 := fexp prec emax (Zdigits2 m1 + e') - e').
  destruct (shr_shifted (shr_record_of_loc m1 loc_Exact) e' n2) as [He'' Hsh2].
  { simpl. lia. }
  destruct (shr (shr_record_of_loc m1 loc_Exact) e' n2) as [mrs'' e''].
  simpl in He'', Hsh2.
  destruct Hsh2 as (Hm'' & rem & Hrem & Em1 & _).
  assert (K2 : scaled m1 e' = scaled (shr_m mrs'') e'').
  { destruct (Z.eq_dec m1 (2 ^ 53)) as [E53 | N53].
    - assert (En2 : n2 = 1).
      { unfold n2. rewrite E53, fexp_eq. change (Zdigits2 (2 ^ 53)) with 54. lia. }
      rewrite En2 in *. change (Z.max 0 1) with 1 in *. change (2 ^ 1) with 2 in *.
      rewrite E53 in Em1.
      assert (rem = 0 /\ shr_m mrs'' = 2 ^ 52) as [-> ->] by lia.
      subst e''. rewrite E53. change (2 ^ 53) with (2 ^ 52 * 2 ^ 1).
      apply scaled_shift; lia.
    - assert (Hd1 : Zdigits2 m1 <= 53) by (apply Zdigits2_le_53; lia).
      assert (En2 : n2 <= 0) by (unfold n2; rewrite fexp_eq; lia).
      rewrite Z.max_l in * by exact En2. change (2 ^ 0) with 1 in *.
      subst e''. rewrite Z.add_0_r. f_equal. lia. }
  rewrite K2 in K.
  assert (Bpos : 0 < scaled (Zpos mB) eB) by (apply scaled_pos; lia).
  destruct (shr_m mrs'') as [| p | p]; [unfold scaled in K; lia | | lia].
  destruct (e'' <=? emax - prec); simpl; [| exact I].
  split; [lia | exact K].
Qed.

Lemma binary_round_lower p e mB eB :
  emin <= e -> emin <= eB -> Zpos mB < 2 ^ 53 ->
  scaled (Zpos mB) eB <= scaled (Zpos p) e ->
  lower_by (binary_round prec emax false p e) (scaled (Zpos mB) eB).
Proof.
  intros He HeB HmB H. unfold binary_round.
  destruct (shl_align_spec p e (fexp prec emax (Zpos (digits2_pos p) + e)))
    as (Hmin & _ & Hv); [exact He | rewrite fexp_eq; lia |].
  destruct (shl_align p e _) as [mz ez]. cbn [fst snd] in Hmin, Hv.
  apply binary_round_aux_lower; try assumption; [lia |].
  rewrite Hv. exact H.
Qed.

(** The sum of two positive values is at least a binary64 value that their
    exact sum reaches. *)
Lemma SF64add_lower mx ex my ey mB eB :
  emin <= ex -> emin <= ey ->
  emin <= eB -> Zpos mB < 2 ^ 53 ->
  scaled (Zpos mB) eB <= scaled (Zpos mx) ex + scaled (Zpos my) ey ->
  lower_by (SF64add (S754_finite false mx ex) (S754_finite false my ey))
           (scaled (Zpos mB) eB).
Proof.
  intros Hex Hey HeB HmB HB.
  unfold SF64add, SFadd, cond_Zopp.
  destruct (shl_align_spec mx ex (Z.min ex ey)) as (_ & E1 & V1); [lia | lia |].
  destruct (shl_align_spec my ey (Z.min ex ey)) as (_ & E2 & V2); [lia | lia |].
  destruct (shl_align mx ex (Z.min ex ey)) as [mx' ex'].
  destruct (shl_align my ey (Z.min ex ey)) as [my' ey'].
  cbn [fst snd] in *.
  apply binary_round_lower; try assumption; [lia |].
  rewrite Pos2Z.inj_add. unfold scaled in *.
  rewrite Z.mul_add_distr_r.
  replace ex' with (Z.min ex ey) in V1 by lia.
  replace ey' with (Z.min ex ey) in V2 by lia. lia.
Qed.

(** Half of a valid positive value that reaches twice a binary64 value
    reaches that value. *)
Lemma SF64div_two_lower mx ex mB eB :
  valid_binary (S754_finite false mx ex) = true ->
  emin <= eB -> Zpos mB < 2 ^ 53 ->
  2 * scaled (Zpos mB) eB <= scaled (Zpos mx) ex ->
  lower_by (SF64div (S754_finite false mx ex) two) (scaled (Zpos mB) eB).
Proof.
  intros Vx HeB HmB Hx.
  apply valid_finite in Vx as ([Hex _] & Hmx & _).
  unfold SF64div, SFdiv, two. cbn [xorb].
  pose proof (SFdiv_core_two mx ex Hex) as C.
  destruct (SFdiv_core_binary prec emax (Zpos mx) ex (Zpos (2 ^ 52)) (-51))
    as [[q e'] l].
  destruct C as (He' & He'x & He'f & Hq & r & Hr & E & _).
  apply binary_round_aux_lower; try assumption.
  assert (Hhalf : scaled (Zpos mB) eB * 2 ^ 52 <= scaled (q * 2 ^ 52 + r) e').
  { rewrite <- E, scaled_shift by lia.
    replace (e' + (ex + 51 - e')) with (ex + 51) by lia.
    rewrite <- scaled_shift by lia. unfold scaled in *.
    change (2 ^ 52) with (2 * 2 ^ 51). nia. }
  assert (Pe : 0 < 2 ^ (e' - emin)) by (apply Z.pow_pos_nonneg; lia).
  destruct (Z.le_gt_cases e' eB) as [L | G].
  - set (X := Zpos mB * 2 ^ (eB - e')).
    assert (EB : scaled (Zpos mB) eB = scaled X e').
    { unfold X. rewrite scaled_shift by lia. f_equal. lia. }
    rewrite EB in *. apply scaled_mono; [exact He' |].
    unfold scaled in Hhalf. nia.
  - rewrite fexp_eq in He'f.
    pose proof (digits2_pos_bounds mx) as [Hlo _].
    set (d := Zpos (digits2_pos mx)) in *.
    assert (Hd : e' <= d + ex - 55) by lia.
    assert (H105 : 2 ^ 105 <= Zpos mx * 2 ^ (ex + 51 - e')).
    { apply Z.le_trans with (2 ^ (d - 1) * 2 ^ (ex + 51 - e')).
      - rewrite <- Z.pow_add_r by lia. apply Z.pow_le_mono_r; lia.
      - apply Z.mul_le_mono_nonneg_r; [apply Z.pow_nonneg; lia | exact Hlo]. }
    assert (Hq53 : 2 ^ 53 <= q).
    { rewrite E in H105. change (2 ^ 105) with (2 ^ 53 * 2 ^ 52) in H105. nia. }
    apply Z.le_trans with (scaled (2 ^ 53) eB).
    { unfold scaled. apply Z.mul_le_mono_nonneg_r; [apply Z.pow_nonneg; lia | lia]. }
    apply Z.le_trans with (scaled (2 ^ 53) e').
    { apply scaled_mono_exp; lia. }
    apply scaled_mono; lia.
Qed.

End RoundingBelow.

(** ** The relationship weight between its levels *)

Module MeanBetween.

Import Pydantic ConsciousnessModel FloatOrder Binary64 DominantFeeling Fixtures
       Levels RoundingBelow.
Local Open Scope list_scope.
Local Open Scope Z_scope.

(** The shape of a float of [0, 100]: a zero, or a valid positive finite
    value with exponent at most [-46]. *)
Lemma between_shape x :
  PyFloat.between 0%float x 100%float = true ->
  (exists s, Prim2SF x = S754_zero s) \/
  (exists m e, Prim2SF x = S754_finite false m e /\
               valid_binary (S754_finite false m e) = true /\
               emin <= e <= -46 /\ Zpos m < 2 ^ 53).
Proof.
  intros B. pose proof (Prim2SF_valid x) as V.
  apply (between_bounded_by _ _ _ _ Prim2SF_100) in B.
  destruct (Prim2SF x) as [s | | | [] m e]; cbn [bounded_by] in B; try tauto.
  - left. eauto.
  - right. exists m, e. split; [reflexivity |]. split; [exact V |].
    destruct B as [He B].
    pose proof V as V'. apply valid_finite in V' as (_ & Hm & _).
    split; [| exact Hm].
    split; [exact He |].
    apply scaled_le_iff_lex in B; [| exact V | reflexivity].
    unfold lex_le in B. lia.
Qed.

(** In binary64, the mean of two floats of [0, 100] lies between them. *)
Lemma mean_between x y :
  PyFloat.between 0%float x 100%float = true ->
  PyFloat.between 0%float y 100%float = true ->
  (x <=? y)%float = true ->
  (x <=? (x + y) / 2)%float = true /\ ((x + y) / 2 <=? y)%float = true.
Proof.
  intros Bx By L.
  assert (Bw : PyFloat.between 0%float ((x + y) / 2)%float 100%float = true)
    by (apply half_between_100, add_between_200; assumption).
  pose proof (Prim2SF_valid (x + y)%float) as Vs.
  pose proof (Prim2SF_valid ((x + y) / 2)%float) as Vw.
  pose proof Bw as Bw0. unfold PyFloat.between in Bw0.
  apply andb_true_iff in Bw0 as [Bw0 _].
  apply leb_iff in Bw0 as (_ & Nw & Kw0), L as (Nx & Ny & L).
  rewrite !leb_iff.
  unfold nan, fkey in *. change (Prim2SF 0%float) with (S754_zero false) in Kw0.
  rewrite div_spec, add_spec in *. change (Prim2SF 2%float) with two in *.
  destruct (between_shape x Bx) as [(sx & Ex) | (mx & ex & Ex & Vx & Hex & Hmx)];
    destruct (between_shape y By) as [(sy & Ey) | (my & ey & Ey & Vy & Hey & Hmy)];
    rewrite Ex, Ey in *; cbn [key is_nan] in *.
  - (* both levels are zeros *)
    destruct sx, sy; repeat split; unfold lex_le; simpl; lia.
  - (* a zero and a positive level *)
    split; [repeat split; try assumption |].
    repeat split; try assumption.
    assert (Hb : bounded_by (SF64div (SF64add (S754_zero sx) (S754_finite false my ey)) two)
                            (scaled (Zpos my) ey)).
    { apply (SF64div_two_bound _ my ey Vs); [| unfold emin in *; lia | exact Hmy].
      cbn [SF64add SFadd bounded_by]. split; [lia |].
      assert (0 < scaled (Zpos my) ey) by (apply scaled_pos; lia). lia. }
    destruct (SF64div _ two) as [s | | | [] m e]; cbn [bounded_by key] in *;
      try tauto; try (unfold lex_le; lia).
    apply scaled_le_iff_lex; tauto.
  - (* a positive level below a zero: impossible *)
    unfold lex_le in L. lia.
  - (* two positive levels *)
    apply scaled_le_iff_lex in L; [| assumption ..].
    assert (Hup : bounded_by (SF64add (S754_finite false mx ex) (S754_finite false my ey))
                             (scaled (Zpos my) (ey + 1))).
    { assert (0 < scaled (Zpos my) ey) by (apply scaled_pos; lia).
      apply (SF64add_bound _ _ (scaled (Zpos my) ey) (scaled (Zpos my) ey)).
      - cbn [bounded_by]. lia.
      - cbn [bounded_by]. lia.
      - lia.
      - lia.
      - rewrite scaled_succ_exp by lia. lia.
      - unfold emin in *. lia.
      - exact Hmy. }
    assert (Hlo : lower_by (SF64add (S754_finite false mx ex) (S754_finite false my ey))
                           (scaled (Zpos mx) (ex + 1))).
    { apply SF64add_lower; try lia. rewrite scaled_succ_exp by lia. lia. }
    rewrite scaled_succ_exp in Hup, Hlo by lia.
    pose proof (SF64div_two_bound _ my ey Vs Hup ltac:(unfold emin in *; lia) Hmy) as Wup.
    destruct (SF64add (S754_finite false mx ex) (S754_finite false my ey))
      as [| [] | | [] ms es]; cbn [bounded_by lower_by] in Hup, Hlo; try tauto.
    pose proof (SF64div_two_lower ms es mx ex Vs ltac:(lia) Hmx (proj2 Hlo)) as Wlo.
    destruct (SF64div (S754_finite false ms es) two) as [| [] | | [] m e];
      cbn [bounded_by lower_by key is_nan] in *; try tauto.
    split; repeat split; try assumption; apply scaled_le_iff_lex; tauto.
Qed.

(** Two floats of [0, 100] are comparable. *)
Lemma between_total x y :
  PyFloat.between 0%float x 100%float = true ->
  PyFloat.between 0%float y 100%float = true ->
  (x <=? y)%float = true \/ (y <=? x)%float = true.
Proof.
  intros Bx By. unfold PyFloat.between in Bx, By.
  apply andb_true_iff in Bx as [Bx _], By as [By _].
  apply leb_iff in Bx as (_ & Nx & _), By as (_ & Ny & _).
  rewrite !leb_iff.
  destruct (fkey x) as [[a1 b1] c1] eqn:Kx, (fkey y) as [[a2 b2] c2] eqn:Ky.
  unfold lex_le.
  assert (H : (a1 < a2 \/ (a1 = a2 /\ (b1 < b2 \/ (b1 = b2 /\ c1 <= c2)))) \/
              (a2 < a1 \/ (a2 = a1 /\ (b2 < b1 \/ (b2 = b1 /\ c2 <= c1))))) by lia.
  destruct H as [H | H]; [left | right]; repeat split; assumption.
Qed.

(** X22. On every constructed [ConsciousnessState] the relationship weight
    computed by [get_relationship_weight()] lies between the two levels it
    averages, in binary64 arithmetic: it is at least the smaller of
    [care_level] and [attachment_level] and at most the larger one. *)
Theorem get_relationship_weight_between_levels now args self :
  new_ConsciousnessState now args = inr self ->
  let c := care_level self in
  let a := attachment_level self in
  let w := get_relationship_weight self in
  ((c <=? a)%float = true /\ (c <=? w)%float = true /\ (w <=? a)%float = true) \/
  ((a <=? c)%float = true /\ (a <=? w)%float = true /\ (w <=? c)%float = true).
Proof.
  intros E. cbv zeta.
  apply constructed_levels in E as (_ & _ & _ & _ & Hc & Ha).
  unfold get_relationship_weight.
  destruct (between_total _ _ Hc Ha) as [L | L].
  - left. split; [exact L |]. apply mean_between; assumption.
  - right. split; [exact L |].
    rewrite (add_comm (care_level self)). apply mean_between; assumption.
Qed.

Lemma get_relationship_weight_between_levels_witness :
  let self := example_state "2025-01-01T00:00:00" in
  let c := care_level self in
  let a := attachment_level self in
  let w := get_relationship_weight self in
  ((c <=? a)%float = true /\ (c <=? w)%float = true /\ (w <=? a)%float = true) \/
  ((a <=? c)%float = true /\ (a <=? w)%float = true /\ (w <=? c)%float = true).
Proof.
  apply (get_relationship_weight_between_levels
           "2025-01-01T00:00:00" (levels_args 85 80)).
  reflexivity.
Defined.

End MeanBetween.

(** ** The difference that [has_evolved_significantly] compares *)

Module EvolutionSpec.

Import Pydantic ConsciousnessModel FloatOrder Binary64 RoundingBelow Evolution
       Levels MeanBetween Fixtures.
Local Open Scope list_scope.
Local Open Scope Z_scope.
















End EvolutionSpec.
